(** * SceneManager: a shallow embedding of SceneManager.cpp

    The C++ class keeps a fixed array of texture records with a counter,
    a vector of materials, and pointers to two collaborators (the shader
    manager and the mesh provider).  Its member functions are embedded as
    computations in a state-and-fault monad over a [World]: the members of
    the object plus the observable state of the collaborators (the calls
    made on the shader manager, on the GL context, on the mesh provider and
    on the console).  Dereferencing a null pointer and indexing the texture
    array outside its bounds are faults. *)

From Stdlib Require Import ZArith String List Bool Lia.
From Stdlib Require Import Floats.SpecFloat.
From stdpp Require Import base list strings.
Import ListNotations.

Local Open Scope string_scope.
Local Open Scope list_scope.
Local Open Scope Z_scope.

(** ** Scalars and GLM value types *)

(** A C++ [float] is an IEEE-754 binary32 value: precision 24, emax 128. *)
Definition float : Type := spec_float.
Definition float_prec : Z := 24.
Definition float_emax : Z := 128.

(** [f32 neg m e] is the finite binary32 value [(-1)^neg * m * 2^e]. *)
Definition f32 (neg : bool) (m : positive) (e : Z) : float := S754_finite neg m e.
Definition f32_zero : float := S754_zero false.

Record vec2 := mk_vec2 { v2_x : float; v2_y : float }.
Record vec3 := mk_vec3 { v3_x : float; v3_y : float; v3_z : float }.
Record vec4 := mk_vec4 { v4_r : float; v4_g : float; v4_b : float; v4_a : float }.
(** glm::mat4 is column major: four vec4 columns. *)
Record mat4 := mk_mat4 { col0 : vec4; col1 : vec4; col2 : vec4; col3 : vec4 }.

(** ** The records of SceneManager.h, as the source uses their fields *)

Record TEXTURE_INFO := mk_TEXTURE_INFO {
  tex_tag : string;
  tex_ID : Z  (* GLuint *)
}.

Record OBJECT_MATERIAL := mk_OBJECT_MATERIAL {
  ambientColor : vec3;
  ambientStrength : float;
  diffuseColor : vec3;
  specularColor : vec3;
  shininess : float;
  mat_tag : string
}.

(** Modelled from the spec: the length of the array [m_textureIDs], whose
    declaration is in SceneManager.h; the comment of BindGLTextures and
    the specification both give 16 texture slots. *)
Definition MAX_TEXTURE_SLOTS : nat := 16.

(** ** The collaborators, seen through the calls the source makes on them *)

(** Calls on the shader manager. *)
Inductive ShaderCall :=
| setMat4Value (name : string) (m : mat4)
| setIntValue (name : string) (v : Z)
| setBoolValue (name : string) (v : bool)
| setFloatValue (name : string) (v : float)
| setVec2Value (name : string) (v : vec2)
| setVec3Value (name : string) (v : vec3)
| setVec3Value_xyz (name : string) (x y z : float)
| setVec4Value (name : string) (v : vec4)
| setSampler2DValue (name : string) (slot : Z).

Inductive GLenum :=
| GL_TEXTURE_2D | GL_TEXTURE_WRAP_S | GL_TEXTURE_WRAP_T | GL_REPEAT
| GL_TEXTURE_MIN_FILTER | GL_TEXTURE_MAG_FILTER | GL_LINEAR
| GL_RGB8 | GL_RGB | GL_RGBA8 | GL_RGBA | GL_UNSIGNED_BYTE
| GL_TEXTURE0_plus (i : Z).

(** What stbi_load hands back for a readable file. *)
Record stbi_image := mk_stbi_image {
  img_width : Z;
  img_height : Z;
  img_channels : Z;
  img_pixels : list Z
}.

(** Calls on the GL context.  [glGenTextures n name] records the name the
    context handed out; [glDeleteTextures] is the context's entry point for
    releasing texture names. *)
Inductive GLcall :=
| glGenTextures (n : Z) (name : Z)
| glBindTexture (target : GLenum) (texture : Z)
| glTexParameteri (target pname param : GLenum)
| glTexImage2D (target : GLenum) (level : Z) (internalformat : GLenum)
               (width height border : Z) (format type : GLenum) (data : stbi_image)
| glGenerateMipmap (target : GLenum)
| glActiveTexture (unit : GLenum)
| glDeleteTextures (n : Z) (name : Z).

Inductive MeshCall :=
| LoadPlaneMesh | LoadBoxMesh | LoadCylinderMesh | LoadSphereMesh.

Inductive ConsoleLine :=
| Successfully_loaded_image (filename : string) (width height channels : Z)
| Not_implemented_to_handle_image (channels : Z)
| Could_not_load_image (filename : string).

Inductive ShaderManager_ptr := NULL | pShaderManager.

(** ** The state *)

Record SceneManager := mk_SceneManager {
  m_pShaderManager : ShaderManager_ptr;
  m_basicMeshes : list MeshCall;
  m_textureIDs : list TEXTURE_INFO;
  m_loadedTextures : Z;  (* int *)
  m_objectMaterials : list OBJECT_MATERIAL
}.

Record GLContext := mk_GLContext {
  gl_next_name : Z;
  gl_calls : list GLcall
}.

Record StbImage := mk_StbImage {
  flip_vertically_on_load : bool;
  stbi_files : string -> option stbi_image
}.

Record World := mk_World {
  scene : SceneManager;
  shader : list ShaderCall;   (* the object m_pShaderManager points to *)
  gl : GLContext;
  stb : StbImage;
  cout : list ConsoleLine
}.

Definition with_scene (f : SceneManager -> SceneManager) (w : World) : World :=
  mk_World (f (scene w)) (shader w) (gl w) (stb w) (cout w).
Definition with_shader (f : list ShaderCall -> list ShaderCall) (w : World) : World :=
  mk_World (scene w) (f (shader w)) (gl w) (stb w) (cout w).
Definition with_gl (f : GLContext -> GLContext) (w : World) : World :=
  mk_World (scene w) (shader w) (f (gl w)) (stb w) (cout w).
Definition with_stb (f : StbImage -> StbImage) (w : World) : World :=
  mk_World (scene w) (shader w) (gl w) (f (stb w)) (cout w).
Definition with_cout (f : list ConsoleLine -> list ConsoleLine) (w : World) : World :=
  mk_World (scene w) (shader w) (gl w) (stb w) (f (cout w)).

Definition set_textureIDs (a : list TEXTURE_INFO) (s : SceneManager) : SceneManager :=
  mk_SceneManager (m_pShaderManager s) (m_basicMeshes s) a
                  (m_loadedTextures s) (m_objectMaterials s).
Definition set_loadedTextures (n : Z) (s : SceneManager) : SceneManager :=
  mk_SceneManager (m_pShaderManager s) (m_basicMeshes s) (m_textureIDs s)
                  n (m_objectMaterials s).
Definition set_objectMaterials (l : list OBJECT_MATERIAL) (s : SceneManager) : SceneManager :=
  mk_SceneManager (m_pShaderManager s) (m_basicMeshes s) (m_textureIDs s)
                  (m_loadedTextures s) l.
Definition set_basicMeshes (l : list MeshCall) (s : SceneManager) : SceneManager :=
  mk_SceneManager (m_pShaderManager s) l (m_textureIDs s)
                  (m_loadedTextures s) (m_objectMaterials s).
Definition set_pShaderManager (p : ShaderManager_ptr) (s : SceneManager) : SceneManager :=
  mk_SceneManager p (m_basicMeshes s) (m_textureIDs s)
                  (m_loadedTextures s) (m_objectMaterials s).

(** ** The monad: state passing with faults *)

Inductive fault :=
| NullDereference
| OutOfBounds (index : Z).

Inductive outcome (A : Type) :=
| Done (a : A) (w : World)
| Crash (f : fault).
Arguments Done {A} a w.
Arguments Crash {A} f.

Definition M (A : Type) : Type := World -> outcome A.

Definition ret {A} (a : A) : M A := fun w => Done a w.
Definition bind {A B} (c : M A) (k : A -> M B) : M B :=
  fun w => match c w with
           | Done a w' => k a w'
           | Crash f => Crash f
           end.
Definition crash {A} (f : fault) : M A := fun _ => Crash f.
Definition gets {A} (f : World -> A) : M A := fun w => Done (f w) w.
Definition modify (f : World -> World) : M unit := fun w => Done tt (f w).

#[global] Instance M_ret : MRet M := @ret.
#[global] Instance M_bind : MBind M := fun A B k c => bind c k.

(** [m_pShaderManager->call]: the call reaches the shader manager when the
    pointer is set, and is a null dereference otherwise. *)
Definition via_pShaderManager (c : ShaderCall) : M unit :=
  p ← gets (fun w => m_pShaderManager (scene w));
  match p with
  | NULL => crash NullDereference
  | pShaderManager => modify (with_shader (fun l => l ++ [c]))
  end.

Definition gl_do (c : GLcall) : M unit :=
  modify (with_gl (fun g => mk_GLContext (gl_next_name g) (gl_calls g ++ [c]))).

(** glGenTextures(1, &name): the context hands out its next texture name. *)
Definition gl_GenTextures1 : M Z :=
  name ← gets (fun w => gl_next_name (gl w));
  modify (with_gl (fun g => mk_GLContext (gl_next_name g + 1)
                                          (gl_calls g ++ [glGenTextures 1 name])));;
  ret name.

Definition print (l : ConsoleLine) : M unit :=
  modify (with_cout (fun c => c ++ [l])).

(** Reading and writing [m_textureIDs[index]]; the array has a fixed length. *)
Definition textureIDs_at (index : Z) : M TEXTURE_INFO :=
  a ← gets (fun w => m_textureIDs (scene w));
  if (0 <=? index) && (index <? Z.of_nat (length a)) then
    match a !! Z.to_nat index with
    | Some e => ret e
    | None => crash (OutOfBounds index)
    end
  else crash (OutOfBounds index).

Definition textureIDs_update (index : Z) (f : TEXTURE_INFO -> TEXTURE_INFO) : M unit :=
  e ← textureIDs_at index;
  modify (with_scene (fun s => set_textureIDs (<[Z.to_nat index := f e]> (m_textureIDs s)) s)).

(** [for (int i = 0; i < bound; i++) body(i)], for a bound the body leaves
    alone: [Z.to_nat bound] iterations. *)
Fixpoint for_from (iterations : nat) (i : Z) (body : Z -> M unit) : M unit :=
  match iterations with
  | O => mret tt
  | S n => body i;; for_from n (i + 1) body
  end.

Definition for_below (bound : Z) (body : Z -> M unit) : M unit :=
  for_from (Z.to_nat bound) 0 body.

(** ** Float literals of the source, as binary32 values *)

Definition lit_0_0 : float := f32_zero.                        (* 0.0f *)
Definition lit_1_0 : float := f32 false 8388608 (-23).         (* 1.0f *)
Definition lit_0_05 : float := f32 false 13421773 (-28).       (* 0.05f *)
Definition lit_0_1 : float := f32 false 13421773 (-27).        (* 0.1f *)
Definition lit_0_2 : float := f32 false 13421773 (-26).        (* 0.2f *)
Definition lit_0_25 : float := f32 false 8388608 (-25).        (* 0.25f *)
Definition lit_0_3 : float := f32 false 10066330 (-25).        (* 0.3f *)
Definition lit_0_35 : float := f32 false 11744051 (-25).       (* 0.35f *)
Definition lit_0_4 : float := f32 false 13421773 (-25).        (* 0.4f *)
Definition lit_0_5 : float := f32 false 8388608 (-24).         (* 0.5f *)
Definition lit_0_6 : float := f32 false 10066330 (-24).        (* 0.6f *)
Definition lit_0_7 : float := f32 false 11744051 (-24).        (* 0.7f *)
Definition lit_0_8 : float := f32 false 13421773 (-24).        (* 0.8f *)
Definition lit_1_5 : float := f32 false 12582912 (-23).        (* 1.5f *)
Definition lit_5_0 : float := f32 false 10485760 (-21).        (* 5.0 *)
Definition lit_15_0 : float := f32 false 15728640 (-20).       (* 15.0 *)
Definition lit_16_0 : float := f32 false 8388608 (-19).        (* 16.0f *)
Definition lit_25_0 : float := f32 false 13107200 (-19).       (* 25.0f *)
Definition lit_m10_0 : float := f32 true 10485760 (-20).       (* -10.0f *)
Definition lit_m14_0 : float := f32 true 14680064 (-20).       (* -14.0f *)

Definition source_literals : list float :=
  [lit_0_0; lit_1_0; lit_0_05; lit_0_1; lit_0_2; lit_0_25; lit_0_3; lit_0_35;
   lit_0_4; lit_0_5; lit_0_6; lit_0_7; lit_0_8; lit_1_5; lit_5_0; lit_15_0;
   lit_16_0; lit_25_0; lit_m10_0; lit_m14_0].

(** ** Global names of the anonymous namespace *)

Definition g_ModelName : string := "model".
Definition g_ColorValueName : string := "objectColor".
Definition g_TextureValueName : string := "objectTexture".
Definition g_UseTextureName : string := "bUseTexture".
Definition g_UseLightingName : string := "bUseLighting".

(** ** Construction *)

Definition blank_TEXTURE_INFO : TEXTURE_INFO := mk_TEXTURE_INFO EmptyString 0.

(** Modelled from the spec: the initial values of the members the
    constructor of the source leaves to SceneManager.h, the "initial empty
    state": no texture loaded, an array of [MAX_TEXTURE_SLOTS] blank
    records, no material.  The constructor itself stores the pointer and
    allocates the mesh provider. *)
Definition SceneManager_new (pShaderManager : ShaderManager_ptr) : SceneManager :=
  mk_SceneManager pShaderManager [] (replicate MAX_TEXTURE_SLOTS blank_TEXTURE_INFO) 0 [].

(** ** Textures *)

(** Lines 121-133 of CreateGLTexture: what follows a successful upload. *)
Definition CreateGLTexture_register (textureID : Z) (tag : string) : M bool :=
  gl_do (glGenerateMipmap GL_TEXTURE_2D);;
  (* stbi_image_free(image) *)
  gl_do (glBindTexture GL_TEXTURE_2D 0);;
  m_loadedTextures_ ← gets (fun w => m_loadedTextures (scene w));
  textureIDs_update m_loadedTextures_ (fun e => mk_TEXTURE_INFO (tex_tag e) textureID);;
  textureIDs_update m_loadedTextures_ (fun e => mk_TEXTURE_INFO tag (tex_ID e));;
  modify (with_scene (fun s => set_loadedTextures (m_loadedTextures s + 1) s));;
  mret true.

Definition CreateGLTexture (filename : string) (tag : string) : M bool :=
  modify (with_stb (fun s => mk_StbImage true (stbi_files s)));;
  image ← gets (fun w => stbi_files (stb w) filename);
  match image with
  | Some image =>
      let width := img_width image in
      let height := img_height image in
      let colorChannels := img_channels image in
      print (Successfully_loaded_image filename width height colorChannels);;
      textureID ← gl_GenTextures1;
      gl_do (glBindTexture GL_TEXTURE_2D textureID);;
      gl_do (glTexParameteri GL_TEXTURE_2D GL_TEXTURE_WRAP_S GL_REPEAT);;
      gl_do (glTexParameteri GL_TEXTURE_2D GL_TEXTURE_WRAP_T GL_REPEAT);;
      gl_do (glTexParameteri GL_TEXTURE_2D GL_TEXTURE_MIN_FILTER GL_LINEAR);;
      gl_do (glTexParameteri GL_TEXTURE_2D GL_TEXTURE_MAG_FILTER GL_LINEAR);;
      if colorChannels =? 3 then
        gl_do (glTexImage2D GL_TEXTURE_2D 0 GL_RGB8 width height 0
                            GL_RGB GL_UNSIGNED_BYTE image);;
        CreateGLTexture_register textureID tag
      else if colorChannels =? 4 then
        gl_do (glTexImage2D GL_TEXTURE_2D 0 GL_RGBA8 width height 0
                            GL_RGBA GL_UNSIGNED_BYTE image);;
        CreateGLTexture_register textureID tag
      else
        print (Not_implemented_to_handle_image colorChannels);;
        mret false
  | None =>
      print (Could_not_load_image filename);;
      mret false
  end.

Definition BindGLTextures : M unit :=
  bound ← gets (fun w => m_loadedTextures (scene w));
  for_below bound (fun i =>
    gl_do (glActiveTexture (GL_TEXTURE0_plus i));;
    e ← textureIDs_at i;
    gl_do (glBindTexture GL_TEXTURE_2D (tex_ID e))).

(** The loop body of DestroyGLTextures: glGenTextures(1, &m_textureIDs[i].ID). *)
Definition DestroyGLTextures_body (i : Z) : M unit :=
  textureIDs_at i;;
  name ← gl_GenTextures1;
  textureIDs_update i (fun e => mk_TEXTURE_INFO (tex_tag e) name).

Definition DestroyGLTextures : M unit :=
  bound ← gets (fun w => m_loadedTextures (scene w));
  for_below bound DestroyGLTextures_body.

(** GLuint to int: values from 2^31 up wrap to the negatives. *)
Definition int_of_GLuint (u : Z) : Z :=
  let m := u mod 2 ^ 32 in if m <? 2 ^ 31 then m else m - 2 ^ 32.

(** The loop [while ((index < m_loadedTextures) && (bFound == false))]:
    [remaining] counts the indices still below [m_loadedTextures]; a match
    sets the result and [bFound], which ends the loop. *)
Fixpoint FindTextureID_while (remaining : nat) (tag : string) (index : Z) (textureID : Z) : M Z :=
  match remaining with
  | O => mret textureID
  | S n =>
      e ← textureIDs_at index;
      if String.eqb (tex_tag e) tag
      then mret (int_of_GLuint (tex_ID e))
      else FindTextureID_while n tag (index + 1) textureID
  end.

Definition FindTextureID (tag : string) : M Z :=
  let textureID := -1 in
  let index := 0 in
  bound ← gets (fun w => m_loadedTextures (scene w));
  FindTextureID_while (Z.to_nat (bound - index)) tag index textureID.

Fixpoint FindTextureSlot_while (remaining : nat) (tag : string) (index : Z) (textureSlot : Z) : M Z :=
  match remaining with
  | O => mret textureSlot
  | S n =>
      e ← textureIDs_at index;
      if String.eqb (tex_tag e) tag
      then mret index
      else FindTextureSlot_while n tag (index + 1) textureSlot
  end.

Definition FindTextureSlot (tag : string) : M Z :=
  let textureSlot := -1 in
  let index := 0 in
  bound ← gets (fun w => m_loadedTextures (scene w));
  FindTextureSlot_while (Z.to_nat (bound - index)) tag index textureSlot.

(** ** Materials *)

(** The three assignments of FindMaterial through the reference. *)
Definition assign_found (entry material : OBJECT_MATERIAL) : OBJECT_MATERIAL :=
  mk_OBJECT_MATERIAL (ambientColor material) (ambientStrength material)
                     (diffuseColor entry) (specularColor entry) (shininess entry)
                     (mat_tag material).

(** The loop of FindMaterial, returning [bFound] and the referenced
    material; [remaining] counts the indices still below [size()]. *)
Fixpoint FindMaterial_while (remaining : nat) (table : list OBJECT_MATERIAL)
         (tag : string) (index : nat) (material : OBJECT_MATERIAL)
  : bool * OBJECT_MATERIAL :=
  match remaining with
  | O => (false, material)
  | S n =>
      match table !! index with
      | Some entry =>
          if String.eqb (mat_tag entry) tag
          then (true, assign_found entry material)
          else FindMaterial_while n table tag (S index) material
      | None => (false, material)
      end
  end.

(** The result pairs the returned flag with the material behind the
    reference parameter after the call. *)
Definition FindMaterial (tag : string) (material : OBJECT_MATERIAL)
  : M (bool * OBJECT_MATERIAL) :=
  table ← gets (fun w => m_objectMaterials (scene w));
  if (length table =? 0)%nat then mret (false, material)
  else
    let index := 0%nat in
    let '(bFound, material) :=
      FindMaterial_while (length table - index) table tag index material in
    mret (true, material).

(** ** Shader uniforms *)

Section GLM.
(** The GLM functions SetTransformations calls. *)
Variable glm_scale : vec3 -> mat4.
Variable glm_rotate : float -> vec3 -> mat4.
Variable glm_translate : vec3 -> mat4.
Variable glm_radians : float -> float.
Variable mat4_mul : mat4 -> mat4 -> mat4.

Local Infix "**" := mat4_mul (at level 40, left associativity).

Definition SetTransformations (scaleXYZ : vec3)
           (XrotationDegrees YrotationDegrees ZrotationDegrees : float)
           (positionXYZ : vec3) : M unit :=
  let scale := glm_scale scaleXYZ in
  let rotationX := glm_rotate (glm_radians XrotationDegrees) (mk_vec3 lit_1_0 lit_0_0 lit_0_0) in
  let rotationY := glm_rotate (glm_radians YrotationDegrees) (mk_vec3 lit_0_0 lit_1_0 lit_0_0) in
  let rotationZ := glm_rotate (glm_radians ZrotationDegrees) (mk_vec3 lit_0_0 lit_0_0 lit_1_0) in
  let translation := glm_translate positionXYZ in
  let modelView := translation ** rotationZ ** rotationY ** rotationX ** scale in
  p ← gets (fun w => m_pShaderManager (scene w));
  match p with
  | NULL => mret tt
  | pShaderManager => via_pShaderManager (setMat4Value g_ModelName modelView)
  end.

(** The composition as the specification words it. *)
Definition Translation (position : vec3) : mat4 := glm_translate position.
Definition Scale (scale : vec3) : mat4 := glm_scale scale.
Definition RotationX (degrees : float) : mat4 :=
  glm_rotate (glm_radians degrees) (mk_vec3 lit_1_0 lit_0_0 lit_0_0).
Definition RotationY (degrees : float) : mat4 :=
  glm_rotate (glm_radians degrees) (mk_vec3 lit_0_0 lit_1_0 lit_0_0).
Definition RotationZ (degrees : float) : mat4 :=
  glm_rotate (glm_radians degrees) (mk_vec3 lit_0_0 lit_0_0 lit_1_0).

Definition compose (scale : vec3) (x y z : float) (position : vec3) : mat4 :=
  Translation position ** RotationZ z ** RotationY y ** RotationX x ** Scale scale.
End GLM.

Definition SetShaderColor (redColorValue greenColorValue blueColorValue alphaValue : float)
  : M unit :=
  let currentColor := mk_vec4 redColorValue greenColorValue blueColorValue alphaValue in
  p ← gets (fun w => m_pShaderManager (scene w));
  match p with
  | NULL => mret tt
  | pShaderManager =>
      via_pShaderManager (setIntValue g_UseTextureName 0);;
      via_pShaderManager (setVec4Value g_ColorValueName currentColor)
  end.

Definition SetShaderTexture (textureTag : string) : M unit :=
  p ← gets (fun w => m_pShaderManager (scene w));
  match p with
  | NULL => mret tt
  | pShaderManager =>
      via_pShaderManager (setIntValue g_UseTextureName 1);;
      textureID ← FindTextureSlot textureTag;
      via_pShaderManager (setSampler2DValue g_TextureValueName textureID)
  end.

Definition SetTextureUVScale (u v : float) : M unit :=
  p ← gets (fun w => m_pShaderManager (scene w));
  match p with
  | NULL => mret tt
  | pShaderManager => via_pShaderManager (setVec2Value "UVscale" (mk_vec2 u v))
  end.

(** [indeterminate] is the content of the local [OBJECT_MATERIAL material]
    before FindMaterial writes through the reference. *)
Definition SetShaderMaterial (materialTag : string) (indeterminate : OBJECT_MATERIAL)
  : M unit :=
  table ← gets (fun w => m_objectMaterials (scene w));
  if (0 <? length table)%nat then
    '(bReturn, material) ← FindMaterial materialTag indeterminate;
    if (bReturn : bool) then
      via_pShaderManager (setVec3Value "material.diffuseColor" (diffuseColor material));;
      via_pShaderManager (setVec3Value "material.specularColor" (specularColor material));;
      via_pShaderManager (setFloatValue "material.shininess" (shininess material))
    else mret tt
  else mret tt.

(** ** Scene preparation *)

Definition push_back (m : OBJECT_MATERIAL) : M unit :=
  modify (with_scene (fun s => set_objectMaterials (m_objectMaterials s ++ [m]) s)).

Definition stoneMAT : OBJECT_MATERIAL :=
  mk_OBJECT_MATERIAL (mk_vec3 lit_0_4 lit_0_4 lit_0_4) lit_1_0
                     (mk_vec3 lit_0_8 lit_0_8 lit_0_8)
                     (mk_vec3 lit_0_4 lit_0_4 lit_0_4) lit_5_0 "stoneMAT".

Definition metalMAT : OBJECT_MATERIAL :=
  mk_OBJECT_MATERIAL (mk_vec3 lit_0_1 lit_0_1 lit_0_1) lit_1_0
                     (mk_vec3 lit_0_4 lit_0_4 lit_0_4)
                     (mk_vec3 lit_0_8 lit_0_8 lit_0_8) lit_15_0 "metalMAT".

Definition woodMaterial : OBJECT_MATERIAL :=
  mk_OBJECT_MATERIAL (mk_vec3 lit_0_3 lit_0_25 lit_0_1) lit_0_8
                     (mk_vec3 lit_0_6 lit_0_5 lit_0_2)
                     (mk_vec3 lit_0_1 lit_0_2 lit_0_2) lit_5_0 "woodMAT".

Definition rubberMaterial : OBJECT_MATERIAL :=
  mk_OBJECT_MATERIAL (mk_vec3 lit_0_05 lit_0_05 lit_0_05) lit_0_6
                     (mk_vec3 lit_0_1 lit_0_1 lit_0_1)
                     (mk_vec3 lit_0_05 lit_0_05 lit_0_05) lit_1_0 "rubberMAT".

Definition DefineObjectMaterials : M unit :=
  push_back stoneMAT;;
  push_back metalMAT;;
  push_back woodMaterial;;
  push_back rubberMaterial.

Definition SetupSceneLights : M unit :=
  via_pShaderManager (setBoolValue g_UseLightingName true);;
  (* point light 1 *)
  via_pShaderManager (setVec3Value_xyz "pointLights[0].position" lit_16_0 lit_25_0 lit_1_5);;
  via_pShaderManager (setVec3Value_xyz "pointLights[0].ambient" lit_0_35 lit_0_35 lit_0_35);;
  via_pShaderManager (setVec3Value_xyz "pointLights[0].diffuse" lit_0_7 lit_0_7 lit_0_8);;
  via_pShaderManager (setVec3Value_xyz "pointLights[0].specular" lit_0_5 lit_0_5 lit_0_6);;
  via_pShaderManager (setBoolValue "pointLights[0].bActive" true);;
  (* point light 2 *)
  via_pShaderManager (setVec3Value_xyz "pointLights[1].position" lit_m14_0 lit_25_0 lit_m10_0);;
  via_pShaderManager (setVec3Value_xyz "pointLights[1].ambient" lit_0_35 lit_0_35 lit_0_35);;
  via_pShaderManager (setVec3Value_xyz "pointLights[1].diffuse" lit_0_7 lit_0_7 lit_0_8);;
  via_pShaderManager (setVec3Value_xyz "pointLights[1].specular" lit_0_5 lit_0_5 lit_0_6);;
  via_pShaderManager (setBoolValue "pointLights[1].bActive" true).

(** The fixed list of texture files and tags of LoadSceneTextures. *)
Definition scene_textures : list (string * string) :=
  [("textures/asphalt-floor.png", "floor");
   ("textures/concrete-stones.png", "atlas-stone");
   ("textures/concrete-walls.png", "walls");
   ("textures/rubber-bench.png", "bench");
   ("textures/metal-beams.png", "metal");
   ("textures/wood-base.png", "wood");
   ("textures/dumbbells.png", "dbell")].

Definition LoadSceneTextures : M unit :=
  bReturn ← CreateGLTexture "textures/asphalt-floor.png" "floor";
  bReturn ← CreateGLTexture "textures/concrete-stones.png" "atlas-stone";
  bReturn ← CreateGLTexture "textures/concrete-walls.png" "walls";
  bReturn ← CreateGLTexture "textures/rubber-bench.png" "bench";
  bReturn ← CreateGLTexture "textures/metal-beams.png" "metal";
  bReturn ← CreateGLTexture "textures/wood-base.png" "wood";
  bReturn ← CreateGLTexture "textures/dumbbells.png" "dbell";
  BindGLTextures.

Definition basicMeshes_do (c : MeshCall) : M unit :=
  modify (with_scene (fun s => set_basicMeshes (m_basicMeshes s ++ [c]) s)).

Definition PrepareScene : M unit :=
  LoadSceneTextures;;
  DefineObjectMaterials;;
  SetupSceneLights;;
  basicMeshes_do LoadPlaneMesh;;
  basicMeshes_do LoadBoxMesh;;
  basicMeshes_do LoadCylinderMesh;;
  basicMeshes_do LoadSphereMesh.

(** ** Observations on a state *)

(** The registered textures: the first [m_loadedTextures] array entries. *)
Definition registered (s : SceneManager) : list TEXTURE_INFO :=
  take (Z.to_nat (m_loadedTextures s)) (m_textureIDs s).

Definition texture_tags (s : SceneManager) : list string :=
  map tex_tag (registered s).

Definition material_tags (s : SceneManager) : list string :=
  map mat_tag (m_objectMaterials s).

(** The counter stays within the array. *)
Definition registry_ok (s : SceneManager) : Prop :=
  0 <= m_loadedTextures s <= Z.of_nat (length (m_textureIDs s)).

(** The last value a shader-call journal gives a boolean uniform. *)
Fixpoint last_bool (name : string) (calls : list ShaderCall) (acc : option bool)
  : option bool :=
  match calls with
  | [] => acc
  | setBoolValue n v :: rest =>
      last_bool name rest (if String.eqb n name then Some v else acc)
  | _ :: rest => last_bool name rest acc
  end.

(** The four point lights of the shader ("Up to four light sources"). *)
Definition pointLight_bActive : list string :=
  ["pointLights[0].bActive"; "pointLights[1].bActive";
   "pointLights[2].bActive"; "pointLights[3].bActive"].

Definition active_pointLights (calls : list ShaderCall) : list string :=
  List.filter (fun n => match last_bool n calls None with
                        | Some true => true
                        | _ => false
                        end) pointLight_bActive.

(** ** Definitions used to state the properties, and example states *)

Definition blank_MATERIAL : OBJECT_MATERIAL :=
  mk_OBJECT_MATERIAL (mk_vec3 lit_0_0 lit_0_0 lit_0_0) lit_0_0
                     (mk_vec3 lit_0_0 lit_0_0 lit_0_0)
                     (mk_vec3 lit_0_0 lit_0_0 lit_0_0) lit_0_0 EmptyString.

(** A 2x2 RGB image, and a disk on which every file decodes to it. *)
Definition rgb_2x2 : stbi_image := mk_stbi_image 2 2 3 (repeat 255 12).
Definition disk_all_rgb : string -> option stbi_image := fun _ => Some rgb_2x2.
Definition disk_empty : string -> option stbi_image := fun _ => None.

Definition World_new (p : ShaderManager_ptr) (disk : string -> option stbi_image) : World :=
  mk_World (SceneManager_new p) [] (mk_GLContext 1 []) (mk_StbImage false disk) [].

Definition has_tag (tag : string) (e : OBJECT_MATERIAL) : bool :=
  String.eqb (mat_tag e) tag.

Definition world_with_materials (p : ShaderManager_ptr) (table : list OBJECT_MATERIAL)
  : World :=
  with_scene (set_objectMaterials table) (World_new p disk_empty).

(** The world after DefineObjectMaterials ran on the fresh object. *)
Definition world_defined : World :=
  world_with_materials pShaderManager [stoneMAT; metalMAT; woodMaterial; rubberMaterial].

Definition grey_2x2 : stbi_image := mk_stbi_image 2 2 1 (repeat 128 4).

Definition world_grey_disk : World :=
  World_new pShaderManager (fun _ => Some grey_2x2).

(** What a successful registration does to the world. *)
Record registers (tag : string) (w w' : World) : Prop := {
  reg_array : m_textureIDs (scene w') =
              <[Z.to_nat (m_loadedTextures (scene w)) :=
                  mk_TEXTURE_INFO tag (gl_next_name (gl w))]> (m_textureIDs (scene w));
  reg_count : m_loadedTextures (scene w') = m_loadedTextures (scene w) + 1;
  reg_name : gl_next_name (gl w') = gl_next_name (gl w) + 1
}.

(** What no member function modelled here touches while textures load. *)
Record same_outside_textures (w w' : World) : Prop := {
  same_pointer : m_pShaderManager (scene w') = m_pShaderManager (scene w);
  same_materials : m_objectMaterials (scene w') = m_objectMaterials (scene w);
  same_meshes : m_basicMeshes (scene w') = m_basicMeshes (scene w);
  same_shader : shader w' = shader w;
  same_files : stbi_files (stb w') = stbi_files (stb w)
}.

(** Whether stbi_load and the channel test let a file through. *)
Definition loadable (disk : string -> option stbi_image) (filename : string) : bool :=
  match disk filename with
  | Some image => (img_channels image =? 3) || (img_channels image =? 4)
  | None => false
  end.

(** The world in which CreateGLTexture reaches the channel test. *)
Definition before_upload (filename : string) (image : stbi_image) (w : World) : World :=
  with_gl (fun g => mk_GLContext (gl_next_name g + 1)
     (gl_calls g ++
      [glGenTextures 1 (gl_next_name g);
       glBindTexture GL_TEXTURE_2D (gl_next_name g);
       glTexParameteri GL_TEXTURE_2D GL_TEXTURE_WRAP_S GL_REPEAT;
       glTexParameteri GL_TEXTURE_2D GL_TEXTURE_WRAP_T GL_REPEAT;
       glTexParameteri GL_TEXTURE_2D GL_TEXTURE_MIN_FILTER GL_LINEAR;
       glTexParameteri GL_TEXTURE_2D GL_TEXTURE_MAG_FILTER GL_LINEAR]))
    (with_cout (fun c => c ++ [Successfully_loaded_image filename (img_width image)
                                 (img_height image) (img_channels image)])
       (with_stb (fun s => mk_StbImage true (stbi_files s)) w)).

Definition uploaded (internalformat format : GLenum) (image : stbi_image) (w : World) : World :=
  with_gl (fun g => mk_GLContext (gl_next_name g)
     (gl_calls g ++ [glTexImage2D GL_TEXTURE_2D 0 internalformat (img_width image)
                                  (img_height image) 0 format GL_UNSIGNED_BYTE image])) w.

(** A run of registrations, in order, collecting the returned flags. *)
Fixpoint CreateGLTexture_each (regs : list (string * string)) : M (list bool) :=
  match regs with
  | [] => mret []
  | (filename, tag) :: rest =>
      bReturn ← CreateGLTexture filename tag;
      flags ← CreateGLTexture_each rest;
      mret (bReturn :: flags)
  end.

(** The registrations of a run that go through. *)
Definition loaded_of (disk : string -> option stbi_image) (regs : list (string * string))
  : list (string * string) :=
  List.filter (fun r => loadable disk (fst r)) regs.

(** The position of the first occurrence of a tag. *)
Fixpoint index_of (tag : string) (tags : list string) : option nat :=
  match tags with
  | [] => None
  | t :: rest => if String.eqb t tag then Some O else option_map S (index_of tag rest)
  end.

Definition tagged (tag : string) (e : TEXTURE_INFO) : bool := String.eqb (tex_tag e) tag.

(** Three files that decode, one that is missing. *)
Definition disk_three : string -> option stbi_image :=
  fun filename =>
    if String.eqb filename "textures/missing.png" then None else Some rgb_2x2.

Definition regs_three : list (string * string) :=
  [("textures/a.png", "floor"); ("textures/missing.png", "ghost");
   ("textures/b.png", "walls"); ("textures/c.png", "metal")].

Definition seventeen_textures : list (string * string) :=
  [("textures/t.png", "t00"); ("textures/t.png", "t01"); ("textures/t.png", "t02");
   ("textures/t.png", "t03"); ("textures/t.png", "t04"); ("textures/t.png", "t05");
   ("textures/t.png", "t06"); ("textures/t.png", "t07"); ("textures/t.png", "t08");
   ("textures/t.png", "t09"); ("textures/t.png", "t10"); ("textures/t.png", "t11");
   ("textures/t.png", "t12"); ("textures/t.png", "t13"); ("textures/t.png", "t14");
   ("textures/t.png", "t15"); ("textures/t.png", "t16")].

(** The world after the first sixteen of them are registered. *)
Definition world_sixteen : outcome (list bool) :=
  CreateGLTexture_each (take 16 seventeen_textures) (World_new pShaderManager disk_all_rgb).

(** Two textures registered on a fresh object. *)
Definition world_two_textures : World :=
  match CreateGLTexture_each [("textures/a.png", "floor"); ("textures/b.png", "walls")]
                             (World_new pShaderManager disk_all_rgb) with
  | Done _ w => w
  | Crash _ => World_new pShaderManager disk_all_rgb
  end.

Definition scene_lights : list ShaderCall :=
  [setBoolValue "bUseLighting" true;
   setVec3Value_xyz "pointLights[0].position" lit_16_0 lit_25_0 lit_1_5;
   setVec3Value_xyz "pointLights[0].ambient" lit_0_35 lit_0_35 lit_0_35;
   setVec3Value_xyz "pointLights[0].diffuse" lit_0_7 lit_0_7 lit_0_8;
   setVec3Value_xyz "pointLights[0].specular" lit_0_5 lit_0_5 lit_0_6;
   setBoolValue "pointLights[0].bActive" true;
   setVec3Value_xyz "pointLights[1].position" lit_m14_0 lit_25_0 lit_m10_0;
   setVec3Value_xyz "pointLights[1].ambient" lit_0_35 lit_0_35 lit_0_35;
   setVec3Value_xyz "pointLights[1].diffuse" lit_0_7 lit_0_7 lit_0_8;
   setVec3Value_xyz "pointLights[1].specular" lit_0_5 lit_0_5 lit_0_6;
   setBoolValue "pointLights[1].bActive" true].

(** ** Further observations *)

(** What FindTextureSlot computes on a well-formed registry. *)
Definition slot_of (s : SceneManager) (tag : string) : Z :=
  match index_of tag (texture_tags s) with
  | Some k => Z.of_nat k
  | None => -1
  end.

(** The calls of BindGLTextures for the entries [l], the first on unit [i]. *)
Fixpoint bind_calls (i : Z) (l : list TEXTURE_INFO) : list GLcall :=
  match l with
  | [] => []
  | e :: rest =>
      glActiveTexture (GL_TEXTURE0_plus i) :: glBindTexture GL_TEXTURE_2D (tex_ID e)
        :: bind_calls (i + 1) rest
  end.

(** The three material uniforms SetShaderMaterial sends for [m]. *)
Definition material_uniforms (m : OBJECT_MATERIAL) : list ShaderCall :=
  [setVec3Value "material.diffuseColor" (diffuseColor m);
   setVec3Value "material.specularColor" (specularColor m);
   setFloatValue "material.shininess" (shininess m)].

(** A material no table of the source holds, standing for stack garbage. *)
Definition garbage_MATERIAL : OBJECT_MATERIAL :=
  mk_OBJECT_MATERIAL (mk_vec3 lit_25_0 lit_25_0 lit_25_0) lit_16_0
                     (mk_vec3 lit_m14_0 lit_m14_0 lit_m14_0)
                     (mk_vec3 lit_m10_0 lit_m10_0 lit_m10_0) lit_1_5 "garbage".

(** The world of a freshly constructed scene manager. *)
Definition World_fresh (p : ShaderManager_ptr) (g : GLContext) (files : StbImage)
           (console : list ConsoleLine) : World :=
  mk_World (SceneManager_new p) [] g files console.

(** ** RenderScene *)

(** The further float literals of RenderScene, as binary32 values; the
    name spells the decimal of the source, m for a minus sign. *)
Definition lit_m20_0 : float := f32 true 10485760 (-19).
Definition lit_m18_6 : float := f32 true 9751757 (-19).
Definition lit_m17_5 : float := f32 true 9175040 (-19).
Definition lit_m15_75 : float := f32 true 16515072 (-20).
Definition lit_m15_25 : float := f32 true 15990784 (-20).
Definition lit_m15_0 : float := f32 true 15728640 (-20).
Definition lit_m13_5 : float := f32 true 14155776 (-20).
Definition lit_m12_15 : float := f32 true 12740198 (-20).
Definition lit_m11_65 : float := f32 true 12215910 (-20).
Definition lit_m11_55 : float := f32 true 12111053 (-20).
Definition lit_m11_5 : float := f32 true 12058624 (-20).
Definition lit_m11_45 : float := f32 true 12006195 (-20).
Definition lit_m10_75 : float := f32 true 11272192 (-20).
Definition lit_m10_25 : float := f32 true 10747904 (-20).
Definition lit_m10_15 : float := f32 true 10643046 (-20).
Definition lit_m9_35 : float := f32 true 9804186 (-20).
Definition lit_m8_85 : float := f32 true 9279898 (-20).
Definition lit_m8_75 : float := f32 true 9175040 (-20).
Definition lit_m8_65 : float := f32 true 9070182 (-20).
Definition lit_m8_1 : float := f32 true 8493466 (-20).
Definition lit_m6_85 : float := f32 true 14365491 (-21).
Definition lit_m5_25 : float := f32 true 11010048 (-21).
Definition lit_m4_925 : float := f32 true 10328474 (-21).
Definition lit_m3_0 : float := f32 true 12582912 (-22).
Definition lit_m1_9 : float := f32 true 15938355 (-23).
Definition lit_m1_25 : float := f32 true 10485760 (-23).
Definition lit_m1_15 : float := f32 true 9646899 (-23).
Definition lit_m1_075 : float := f32 true 9017754 (-23).
Definition lit_0_15 : float := f32 false 10066330 (-26).
Definition lit_0_475 : float := f32 false 15938355 (-25).
Definition lit_0_52 : float := f32 false 8724152 (-24).
Definition lit_0_55 : float := f32 false 9227469 (-24).
Definition lit_0_62 : float := f32 false 10401874 (-24).
Definition lit_0_65 : float := f32 false 10905190 (-24).
Definition lit_0_655 : float := f32 false 10989076 (-24).
Definition lit_0_725 : float := f32 false 12163482 (-24).
Definition lit_0_75 : float := f32 false 12582912 (-24).
Definition lit_0_769 : float := f32 false 12901679 (-24).
Definition lit_0_875 : float := f32 false 14680064 (-24).
Definition lit_0_894 : float := f32 false 14998831 (-24).
Definition lit_1_075 : float := f32 false 9017754 (-23).
Definition lit_1_15 : float := f32 false 9646899 (-23).
Definition lit_1_2 : float := f32 false 10066330 (-23).
Definition lit_1_345 : float := f32 false 11282678 (-23).
Definition lit_1_55 : float := f32 false 13002342 (-23).
Definition lit_1_75 : float := f32 false 14680064 (-23).
Definition lit_1_95 : float := f32 false 16357786 (-23).
Definition lit_2_0 : float := f32 false 8388608 (-22).
Definition lit_2_25 : float := f32 false 9437184 (-22).
Definition lit_2_345 : float := f32 false 9835643 (-22).
Definition lit_2_35 : float := f32 false 9856614 (-22).
Definition lit_2_5 : float := f32 false 10485760 (-22).
Definition lit_2_85 : float := f32 false 11953766 (-22).
Definition lit_3_0 : float := f32 false 12582912 (-22).
Definition lit_3_025 : float := f32 false 12687770 (-22).
Definition lit_3_125 : float := f32 false 13107200 (-22).
Definition lit_3_5 : float := f32 false 14680064 (-22).
Definition lit_3_875 : float := f32 false 16252928 (-22).
Definition lit_3_95 : float := f32 false 16567501 (-22).
Definition lit_4_125 : float := f32 false 8650752 (-21).
Definition lit_4_15 : float := f32 false 8703181 (-21).
Definition lit_4_35 : float := f32 false 9122611 (-21).
Definition lit_4_5 : float := f32 false 9437184 (-21).
Definition lit_5_345 : float := f32 false 11209277 (-21).
Definition lit_5_75 : float := f32 false 12058624 (-21).
Definition lit_6_0 : float := f32 false 12582912 (-21).
Definition lit_6_5 : float := f32 false 13631488 (-21).
Definition lit_7_0 : float := f32 false 14680064 (-21).
Definition lit_7_15 : float := f32 false 14994637 (-21).
Definition lit_7_155 : float := f32 false 15005123 (-21).
Definition lit_7_5 : float := f32 false 15728640 (-21).
Definition lit_7_9 : float := f32 false 16567501 (-21).
Definition lit_8_0 : float := f32 false 8388608 (-20).
Definition lit_8_155 : float := f32 false 8551137 (-20).
Definition lit_10_0 : float := f32 false 10485760 (-20).
Definition lit_10_75 : float := f32 false 11272192 (-20).
Definition lit_16_25 : float := f32 false 8519680 (-19).
Definition lit_16_5 : float := f32 false 8650752 (-19).
Definition lit_17_5 : float := f32 false 9175040 (-19).
Definition lit_18_25 : float := f32 false 9568256 (-19).
Definition lit_20_0 : float := f32 false 10485760 (-19).
Definition lit_35_0 : float := f32 false 9175040 (-18).
Definition lit_77_0 : float := f32 false 10092544 (-17).
Definition lit_90_0 : float := f32 false 11796480 (-17).

(** The literals with the decimal they stand for: numerator and number of
    decimal places. *)
Definition literal_decimals : list (float * Z * Z) :=
  [(lit_m20_0, (-200), 1); (lit_m18_6, (-186), 1); (lit_m17_5, (-175), 1); (lit_m15_75, (-1575), 2);
   (lit_m15_25, (-1525), 2); (lit_m15_0, (-150), 1); (lit_m13_5, (-135), 1); (lit_m12_15, (-1215), 2);
   (lit_m11_65, (-1165), 2); (lit_m11_55, (-1155), 2); (lit_m11_5, (-115), 1); (lit_m11_45, (-1145), 2);
   (lit_m10_75, (-1075), 2); (lit_m10_25, (-1025), 2); (lit_m10_15, (-1015), 2); (lit_m9_35, (-935), 2);
   (lit_m8_85, (-885), 2); (lit_m8_75, (-875), 2); (lit_m8_65, (-865), 2); (lit_m8_1, (-81), 1);
   (lit_m6_85, (-685), 2); (lit_m5_25, (-525), 2); (lit_m4_925, (-4925), 3); (lit_m3_0, (-30), 1);
   (lit_m1_9, (-19), 1); (lit_m1_25, (-125), 2); (lit_m1_15, (-115), 2); (lit_m1_075, (-1075), 3);
   (lit_0_0, 0, 1); (lit_0_1, 1, 1); (lit_0_15, 15, 2); (lit_0_2, 2, 1);
   (lit_0_25, 25, 2); (lit_0_4, 4, 1); (lit_0_475, 475, 3); (lit_0_5, 5, 1);
   (lit_0_52, 52, 2); (lit_0_55, 55, 2); (lit_0_6, 6, 1); (lit_0_62, 62, 2);
   (lit_0_65, 65, 2); (lit_0_655, 655, 3); (lit_0_725, 725, 3); (lit_0_75, 75, 2);
   (lit_0_769, 769, 3); (lit_0_8, 8, 1); (lit_0_875, 875, 3); (lit_0_894, 894, 3);
   (lit_1_0, 10, 1); (lit_1_075, 1075, 3); (lit_1_15, 115, 2); (lit_1_2, 12, 1);
   (lit_1_345, 1345, 3); (lit_1_55, 155, 2); (lit_1_75, 175, 2); (lit_1_95, 195, 2);
   (lit_2_0, 20, 1); (lit_2_25, 225, 2); (lit_2_345, 2345, 3); (lit_2_35, 235, 2);
   (lit_2_5, 25, 1); (lit_2_85, 285, 2); (lit_3_0, 30, 1); (lit_3_025, 3025, 3);
   (lit_3_125, 3125, 3); (lit_3_5, 35, 1); (lit_3_875, 3875, 3); (lit_3_95, 395, 2);
   (lit_4_125, 4125, 3); (lit_4_15, 415, 2); (lit_4_35, 435, 2); (lit_4_5, 45, 1);
   (lit_5_0, 50, 1); (lit_5_345, 5345, 3); (lit_5_75, 575, 2); (lit_6_0, 60, 1);
   (lit_6_5, 65, 1); (lit_7_0, 70, 1); (lit_7_15, 715, 2); (lit_7_155, 7155, 3);
   (lit_7_5, 75, 1); (lit_7_9, 79, 1); (lit_8_0, 80, 1); (lit_8_155, 8155, 3);
   (lit_10_0, 100, 1); (lit_10_75, 1075, 2); (lit_15_0, 150, 1); (lit_16_0, 160, 1);
   (lit_16_25, 1625, 2); (lit_16_5, 165, 1); (lit_17_5, 175, 1); (lit_18_25, 1825, 2);
   (lit_20_0, 200, 1); (lit_25_0, 250, 1); (lit_35_0, 350, 1); (lit_77_0, 770, 1);
   (lit_90_0, 900, 1); (lit_0_05, 5, 2); (lit_0_3, 3, 1); (lit_0_35, 35, 2);
   (lit_0_7, 7, 1); (lit_1_5, 15, 1); (lit_m10_0, (-100), 1); (lit_m14_0, (-140), 1)].

(** [is_nearest_binary32 f n k]: [f] is a canonical binary32 value within
    half a unit in the last place of the decimal [n / 10^k]. *)
Definition is_nearest_binary32 (f : float) (n k : Z) : bool :=
  match f with
  | S754_zero _ => n =? 0
  | S754_finite neg m e =>
      valid_binary float_prec float_emax f && Bool.eqb neg (n <? 0) &&
      (if e <? 0
       then 2 * Z.abs (Z.pos m * 10 ^ k - Z.abs n * 2 ^ (- e)) <=? 10 ^ k
       else 2 * Z.abs (Z.pos m * 2 ^ e * 10 ^ k - Z.abs n) <=? 2 ^ e * 10 ^ k)
  | _ => false
  end.

(** The draw entry points of the mesh provider. *)
Inductive DrawCall :=
| DrawPlaneMesh | DrawBoxMesh | DrawCylinderMesh | DrawSphereMesh.

(** The draw calls made on m_basicMeshes, oldest first, each with the
    number of shader calls made before it: the place of the draw in the
    journal of the shader manager. *)
Definition DrawJournal : Type := list (nat * DrawCall).

(** Computations that also make draw calls: the draw journal is passed
    along the computations on the world. *)
Definition RM (A : Type) : Type := DrawJournal -> M (A * DrawJournal).

Definition rm_ret {A} (a : A) : RM A := fun d => ret (a, d).
Definition rm_bind {A B} (c : RM A) (k : A -> RM B) : RM B :=
  fun d => bind (c d) (fun r => k (fst r) (snd r)).

#[global] Instance RM_ret : MRet RM := @rm_ret.
#[global] Instance RM_bind : MBind RM := fun A B k c => rm_bind c k.

(** A member function called from RenderScene makes no draw call. *)
Definition lift {A} (c : M A) : RM A := fun d => bind c (fun a => ret (a, d)).

(** [m_basicMeshes->Draw...Mesh()]. *)
Definition draw (x : DrawCall) : RM unit :=
  fun d => bind (gets (fun w => length (shader w))) (fun n => ret (tt, d ++ [(n, x)])).

Section Render.
Variable glm_scale : vec3 -> mat4.
Variable glm_rotate : float -> vec3 -> mat4.
Variable glm_translate : vec3 -> mat4.
Variable glm_radians : float -> float.
Variable mat4_mul : mat4 -> mat4 -> mat4.

(** [indeterminate k] is what the local OBJECT_MATERIAL of SetShaderMaterial
    holds at the k-th call RenderScene makes of it. *)
Variable indeterminate : nat -> OBJECT_MATERIAL.

Local Abbreviation SetTransformations_ :=
  (SetTransformations glm_scale glm_rotate glm_translate glm_radians mat4_mul).

(** RenderScene, statement by statement; the comments give the source line
    of the statement that follows.  The locals scaleXYZ and positionXYZ are
    declared without a value and assigned before their first use. *)
Definition RenderScene : RM unit :=
  (* 532 *) let XrotationDegrees := lit_0_0 in
  (* 533 *) let YrotationDegrees := lit_0_0 in
  (* 534 *) let ZrotationDegrees := lit_0_0 in
  (* 542 *) let scaleXYZ := (mk_vec3 lit_25_0 lit_1_0 lit_15_0) in
  (* 545 *) let XrotationDegrees := lit_0_0 in
  (* 546 *) let YrotationDegrees := lit_0_0 in
  (* 547 *) let ZrotationDegrees := lit_0_0 in
  (* 550 *) let positionXYZ := (mk_vec3 lit_0_0 lit_0_0 lit_0_0) in
  (* 553 *) lift (SetTransformations_ scaleXYZ XrotationDegrees YrotationDegrees ZrotationDegrees positionXYZ);;
  (* 560 *) lift (SetShaderColor lit_0_5 lit_0_52 lit_0_55 lit_1_0);;
  (* 561 *) lift (SetShaderMaterial "stoneMAT" (indeterminate 0));;
  (* 562 *) lift (SetTextureUVScale lit_2_0 lit_2_0);;
  (* 563 *) lift (SetShaderTexture "floor");;
  (* 566 *) draw DrawPlaneMesh;;
  (* 574 *) let scaleXYZ := (mk_vec3 lit_25_0 lit_1_0 lit_15_0) in
  (* 577 *) let XrotationDegrees := lit_90_0 in
  (* 578 *) let YrotationDegrees := lit_0_0 in
  (* 579 *) let ZrotationDegrees := lit_0_0 in
  (* 582 *) let positionXYZ := (mk_vec3 lit_0_0 lit_15_0 lit_m15_0) in
  (* 585 *) lift (SetTransformations_ scaleXYZ XrotationDegrees YrotationDegrees ZrotationDegrees positionXYZ);;
  (* 593 *) lift (SetShaderColor lit_0_6 lit_0_62 lit_0_65 lit_1_0);;
  (* 594 *) lift (SetShaderMaterial "stoneMAT" (indeterminate 1));;
  (* 595 *) lift (SetTextureUVScale lit_3_0 lit_3_0);;
  (* 596 *) lift (SetShaderTexture "walls");;
  (* 599 *) draw DrawPlaneMesh;;
  (* 609 *) lift (SetTransformations_ (mk_vec3 lit_4_35 lit_0_5 lit_4_35) lit_0_0 lit_0_0 lit_0_0 (mk_vec3 lit_16_0 lit_8_0 lit_6_0));;
  (* 614 *) lift (SetShaderColor lit_1_0 lit_0_894 lit_0_769 lit_1_0);;
  (* 615 *) lift (SetShaderMaterial "woodMAT" (indeterminate 2));;
  (* 616 *) lift (SetTextureUVScale lit_5_0 lit_77_0);;
  (* 617 *) lift (SetShaderTexture "wood");;
  (* 618 *) draw DrawBoxMesh;;
  (* 621 *) lift (SetTransformations_ (mk_vec3 lit_4_35 lit_0_5 lit_4_35) lit_0_0 lit_0_0 lit_0_0 (mk_vec3 lit_16_0 lit_7_5 lit_6_0));;
  (* 626 *) lift (SetShaderColor lit_0_15 lit_0_15 lit_0_15 lit_1_0);;
  (* 627 *) lift (SetShaderMaterial "metalMAT" (indeterminate 3));;
  (* 628 *) lift (SetShaderTexture "metal");;
  (* 629 *) draw DrawBoxMesh;;
  (* 632 *) lift (SetTransformations_ (mk_vec3 lit_0_5 lit_0_5 lit_7_5) lit_90_0 lit_0_0 lit_0_0 (mk_vec3 lit_16_5 lit_3_95 lit_4_15));;
  (* 637 *) lift (SetShaderColor lit_0_15 lit_0_15 lit_0_15 lit_1_0);;
  (* 638 *) lift (SetShaderMaterial "metalMAT" (indeterminate 4));;
  (* 639 *) lift (SetShaderTexture "metal");;
  (* 640 *) draw DrawBoxMesh;;
  (* 643 *) lift (SetTransformations_ (mk_vec3 lit_0_5 lit_0_5 lit_7_5) lit_90_0 lit_0_0 lit_0_0 (mk_vec3 lit_16_5 lit_3_95 lit_7_9));;
  (* 648 *) lift (SetShaderColor lit_0_15 lit_0_15 lit_0_15 lit_1_0);;
  (* 649 *) lift (SetShaderMaterial "metalMAT" (indeterminate 5));;
  (* 650 *) lift (SetShaderTexture "metal");;
  (* 651 *) draw DrawBoxMesh;;
  (* 654 *) lift (SetTransformations_ (mk_vec3 lit_0_5 lit_0_5 lit_4_5) lit_0_0 lit_90_0 lit_0_0 (mk_vec3 lit_16_25 lit_0_25 lit_7_9));;
  (* 659 *) lift (SetShaderColor lit_0_15 lit_0_15 lit_0_15 lit_1_0);;
  (* 660 *) lift (SetShaderMaterial "metalMAT" (indeterminate 6));;
  (* 661 *) lift (SetShaderTexture "metal");;
  (* 662 *) draw DrawBoxMesh;;
  (* 665 *) lift (SetTransformations_ (mk_vec3 lit_0_5 lit_0_5 lit_4_5) lit_0_0 lit_90_0 lit_0_0 (mk_vec3 lit_16_25 lit_0_25 lit_4_125));;
  (* 670 *) lift (SetShaderColor lit_0_15 lit_0_15 lit_0_15 lit_1_0);;
  (* 671 *) lift (SetShaderMaterial "metalMAT" (indeterminate 7));;
  (* 672 *) lift (SetShaderTexture "metal");;
  (* 673 *) draw DrawBoxMesh;;
  (* 676 *) lift (SetTransformations_ (mk_vec3 lit_0_5 lit_0_5 lit_4_5) lit_0_0 lit_0_0 lit_90_0 (mk_vec3 lit_18_25 lit_0_25 lit_6_0));;
  (* 681 *) lift (SetShaderColor lit_0_15 lit_0_15 lit_0_15 lit_1_0);;
  (* 682 *) lift (SetShaderMaterial "metalMAT" (indeterminate 8));;
  (* 683 *) lift (SetShaderTexture "metal");;
  (* 684 *) draw DrawBoxMesh;;
  (* 687 *) lift (SetTransformations_ (mk_vec3 lit_1_0 lit_0_1 lit_1_0) lit_0_0 lit_0_0 lit_0_0 (mk_vec3 lit_16_0 lit_7_155 lit_m3_0));;
  (* 692 *) lift (SetShaderColor lit_0_15 lit_0_15 lit_0_15 lit_1_0);;
  (* 693 *) draw DrawCylinderMesh;;
  (* 699 *) lift (SetTransformations_ (mk_vec3 lit_4_35 lit_0_5 lit_4_35) lit_0_0 lit_0_0 lit_0_0 (mk_vec3 lit_16_0 lit_7_0 lit_m3_0));;
  (* 704 *) lift (SetShaderColor lit_1_0 lit_0_894 lit_0_769 lit_1_0);;
  (* 705 *) lift (SetShaderMaterial "woodMAT" (indeterminate 9));;
  (* 706 *) lift (SetTextureUVScale lit_5_0 lit_77_0);;
  (* 707 *) lift (SetShaderTexture "wood");;
  (* 708 *) draw DrawBoxMesh;;
  (* 711 *) lift (SetTransformations_ (mk_vec3 lit_4_35 lit_0_5 lit_4_35) lit_0_0 lit_0_0 lit_0_0 (mk_vec3 lit_16_0 lit_6_5 lit_m3_0));;
  (* 716 *) lift (SetShaderColor lit_0_15 lit_0_15 lit_0_15 lit_1_0);;
  (* 717 *) lift (SetShaderMaterial "metalMAT" (indeterminate 10));;
  (* 718 *) lift (SetShaderTexture "metal");;
  (* 719 *) draw DrawBoxMesh;;
  (* 722 *) lift (SetTransformations_ (mk_vec3 lit_0_5 lit_0_5 lit_6_5) lit_90_0 lit_0_0 lit_0_0 (mk_vec3 lit_16_5 lit_3_125 lit_m4_925));;
  (* 727 *) lift (SetShaderColor lit_0_15 lit_0_15 lit_0_15 lit_1_0);;
  (* 728 *) lift (SetShaderMaterial "metalMAT" (indeterminate 11));;
  (* 729 *) lift (SetShaderTexture "metal");;
  (* 730 *) draw DrawBoxMesh;;
  (* 733 *) lift (SetTransformations_ (mk_vec3 lit_0_5 lit_0_5 lit_6_5) lit_90_0 lit_0_0 lit_0_0 (mk_vec3 lit_16_5 lit_3_125 lit_m1_075));;
  (* 738 *) lift (SetShaderColor lit_0_15 lit_0_15 lit_0_15 lit_1_0);;
  (* 739 *) lift (SetShaderMaterial "metalMAT" (indeterminate 12));;
  (* 740 *) lift (SetShaderTexture "metal");;
  (* 741 *) draw DrawBoxMesh;;
  (* 744 *) lift (SetTransformations_ (mk_vec3 lit_0_5 lit_0_5 lit_4_5) lit_0_0 lit_90_0 lit_0_0 (mk_vec3 lit_16_25 lit_0_25 lit_m4_925));;
  (* 749 *) lift (SetShaderColor lit_0_15 lit_0_15 lit_0_15 lit_1_0);;
  (* 750 *) lift (SetShaderMaterial "metalMAT" (indeterminate 13));;
  (* 751 *) lift (SetShaderTexture "metal");;
  (* 752 *) draw DrawBoxMesh;;
  (* 755 *) lift (SetTransformations_ (mk_vec3 lit_0_5 lit_0_5 lit_4_5) lit_0_0 lit_90_0 lit_0_0 (mk_vec3 lit_16_25 lit_0_25 lit_m1_075));;
  (* 760 *) lift (SetShaderColor lit_0_15 lit_0_15 lit_0_15 lit_1_0);;
  (* 761 *) lift (SetShaderMaterial "metalMAT" (indeterminate 14));;
  (* 762 *) lift (SetShaderTexture "metal");;
  (* 763 *) draw DrawBoxMesh;;
  (* 766 *) lift (SetTransformations_ (mk_vec3 lit_0_5 lit_0_5 lit_4_5) lit_0_0 lit_0_0 lit_90_0 (mk_vec3 lit_18_25 lit_0_25 lit_m3_0));;
  (* 771 *) lift (SetShaderColor lit_0_15 lit_0_15 lit_0_15 lit_1_0);;
  (* 772 *) lift (SetShaderMaterial "metalMAT" (indeterminate 15));;
  (* 773 *) lift (SetShaderTexture "metal");;
  (* 774 *) draw DrawBoxMesh;;
  (* 777 *) lift (SetTransformations_ (mk_vec3 lit_1_0 lit_0_1 lit_1_0) lit_0_0 lit_0_0 lit_0_0 (mk_vec3 lit_16_0 lit_8_155 lit_6_0));;
  (* 782 *) lift (SetShaderColor lit_0_15 lit_0_15 lit_0_15 lit_1_0);;
  (* 783 *) draw DrawCylinderMesh;;
  (* 789 *) lift (SetTransformations_ (mk_vec3 lit_2_25 lit_2_25 lit_2_25) lit_0_0 lit_0_0 lit_0_0 (mk_vec3 lit_10_0 lit_2_35 lit_m3_0));;
  (* 794 *) lift (SetShaderColor lit_0_725 lit_0_725 lit_0_655 lit_1_0);;
  (* 795 *) lift (SetTextureUVScale lit_2_0 lit_2_0);;
  (* 796 *) lift (SetShaderMaterial "stoneMAT" (indeterminate 16));;
  (* 797 *) lift (SetShaderTexture "atlas-stone");;
  (* 798 *) draw DrawSphereMesh;;
  (* 801 *) lift (SetTransformations_ (mk_vec3 lit_1_75 lit_1_75 lit_1_75) lit_0_0 lit_0_0 lit_0_0 (mk_vec3 lit_10_0 lit_1_95 lit_6_0));;
  (* 806 *) lift (SetShaderColor lit_0_725 lit_0_725 lit_0_655 lit_1_0);;
  (* 807 *) lift (SetTextureUVScale lit_2_0 lit_2_0);;
  (* 808 *) lift (SetShaderMaterial "stoneMAT" (indeterminate 17));;
  (* 809 *) lift (SetShaderTexture "atlas-stone");;
  (* 810 *) draw DrawSphereMesh;;
  (* 818 *) lift (SetTransformations_ (mk_vec3 lit_0_5 lit_2_5 lit_10_75) lit_0_0 lit_0_0 lit_90_0 (mk_vec3 lit_m15_25 lit_3_025 lit_3_0));;
  (* 823 *) lift (SetShaderColor lit_0_15 lit_0_15 lit_0_15 lit_1_0);;
  (* 824 *) lift (SetTextureUVScale lit_0_75 lit_0_75);;
  (* 825 *) lift (SetShaderMaterial "rubberMAT" (indeterminate 18));;
  (* 826 *) lift (SetShaderTexture "bench");;
  (* 828 *) draw DrawBoxMesh;;
  (* 831 *) lift (SetTransformations_ (mk_vec3 lit_1_075 lit_0_5 lit_3_5) lit_0_0 lit_90_0 lit_0_0 (mk_vec3 lit_m15_25 lit_0_25 lit_m1_25));;
  (* 836 *) lift (SetShaderColor lit_0_25 lit_0_25 lit_0_25 lit_1_0);;
  (* 837 *) lift (SetTextureUVScale lit_35_0 lit_35_0);;
  (* 838 *) lift (SetShaderMaterial "metalMAT" (indeterminate 19));;
  (* 839 *) lift (SetShaderTexture "metal");;
  (* 840 *) draw DrawBoxMesh;;
  (* 843 *) lift (SetTransformations_ (mk_vec3 lit_1_075 lit_1_0 lit_2_85) lit_90_0 lit_0_0 lit_0_0 (mk_vec3 lit_m15_25 lit_1_345 lit_m1_25));;
  (* 848 *) lift (SetShaderColor lit_0_25 lit_0_25 lit_0_25 lit_1_0);;
  (* 849 *) lift (SetTextureUVScale lit_35_0 lit_35_0);;
  (* 850 *) lift (SetShaderMaterial "metalMAT" (indeterminate 20));;
  (* 851 *) lift (SetShaderTexture "metal");;
  (* 852 *) draw DrawBoxMesh;;
  (* 855 *) lift (SetTransformations_ (mk_vec3 lit_1_075 lit_0_5 lit_3_5) lit_0_0 lit_90_0 lit_0_0 (mk_vec3 lit_m15_25 lit_0_25 lit_7_15));;
  (* 860 *) lift (SetShaderColor lit_0_25 lit_0_25 lit_0_25 lit_1_0);;
  (* 861 *) lift (SetTextureUVScale lit_35_0 lit_35_0);;
  (* 862 *) lift (SetShaderMaterial "metalMAT" (indeterminate 21));;
  (* 863 *) lift (SetShaderTexture "metal");;
  (* 864 *) draw DrawBoxMesh;;
  (* 867 *) lift (SetTransformations_ (mk_vec3 lit_1_075 lit_1_0 lit_2_85) lit_90_0 lit_0_0 lit_0_0 (mk_vec3 lit_m15_25 lit_1_345 lit_7_15));;
  (* 872 *) lift (SetShaderColor lit_0_25 lit_0_25 lit_0_25 lit_1_0);;
  (* 873 *) lift (SetTextureUVScale lit_35_0 lit_35_0);;
  (* 874 *) lift (SetShaderMaterial "metalMAT" (indeterminate 22));;
  (* 875 *) lift (SetShaderTexture "metal");;
  (* 876 *) draw DrawBoxMesh;;
  (* 881 *) lift (SetTransformations_ (mk_vec3 lit_0_5 lit_2_5 lit_10_75) lit_0_0 lit_0_0 lit_90_0 (mk_vec3 lit_m5_25 lit_3_025 lit_3_0));;
  (* 886 *) lift (SetShaderColor lit_0_15 lit_0_15 lit_0_15 lit_1_0);;
  (* 887 *) lift (SetTextureUVScale lit_0_75 lit_0_75);;
  (* 888 *) lift (SetShaderMaterial "rubberMAT" (indeterminate 23));;
  (* 889 *) lift (SetShaderTexture "bench");;
  (* 890 *) draw DrawBoxMesh;;
  (* 893 *) lift (SetTransformations_ (mk_vec3 lit_1_075 lit_0_5 lit_3_5) lit_0_0 lit_90_0 lit_0_0 (mk_vec3 lit_m5_25 lit_0_25 lit_m1_25));;
  (* 898 *) lift (SetShaderColor lit_0_25 lit_0_25 lit_0_25 lit_1_0);;
  (* 899 *) lift (SetTextureUVScale lit_35_0 lit_35_0);;
  (* 900 *) lift (SetShaderMaterial "metalMAT" (indeterminate 24));;
  (* 901 *) lift (SetShaderTexture "metal");;
  (* 902 *) draw DrawBoxMesh;;
  (* 905 *) lift (SetTransformations_ (mk_vec3 lit_1_075 lit_1_0 lit_2_85) lit_90_0 lit_0_0 lit_0_0 (mk_vec3 lit_m5_25 lit_1_345 lit_m1_25));;
  (* 910 *) lift (SetShaderColor lit_0_25 lit_0_25 lit_0_25 lit_1_0);;
  (* 911 *) lift (SetTextureUVScale lit_35_0 lit_35_0);;
  (* 912 *) lift (SetShaderMaterial "metalMAT" (indeterminate 25));;
  (* 913 *) lift (SetShaderTexture "metal");;
  (* 914 *) draw DrawBoxMesh;;
  (* 917 *) lift (SetTransformations_ (mk_vec3 lit_1_075 lit_0_5 lit_3_5) lit_0_0 lit_90_0 lit_0_0 (mk_vec3 lit_m5_25 lit_0_25 lit_7_15));;
  (* 922 *) lift (SetShaderColor lit_0_25 lit_0_25 lit_0_25 lit_1_0);;
  (* 923 *) lift (SetTextureUVScale lit_35_0 lit_35_0);;
  (* 924 *) lift (SetShaderMaterial "metalMAT" (indeterminate 26));;
  (* 925 *) lift (SetShaderTexture "metal");;
  (* 926 *) draw DrawBoxMesh;;
  (* 929 *) lift (SetTransformations_ (mk_vec3 lit_1_075 lit_1_0 lit_2_85) lit_90_0 lit_0_0 lit_0_0 (mk_vec3 lit_m5_25 lit_1_345 lit_7_15));;
  (* 934 *) lift (SetShaderColor lit_0_25 lit_0_25 lit_0_25 lit_1_0);;
  (* 935 *) lift (SetTextureUVScale lit_35_0 lit_35_0);;
  (* 936 *) lift (SetShaderMaterial "metalMAT" (indeterminate 27));;
  (* 937 *) lift (SetShaderTexture "metal");;
  (* 938 *) draw DrawBoxMesh;;
  (* 944 *) lift (SetTransformations_ (mk_vec3 lit_17_5 lit_0_8 lit_0_4) lit_90_0 lit_0_0 lit_0_0 (mk_vec3 lit_m10_25 lit_5_345 lit_m10_15));;
  (* 949 *) lift (SetShaderColor lit_0_25 lit_0_25 lit_0_25 lit_1_0);;
  (* 950 *) lift (SetTextureUVScale lit_35_0 lit_35_0);;
  (* 951 *) lift (SetShaderMaterial "metalMAT" (indeterminate 28));;
  (* 952 *) lift (SetShaderTexture "metal");;
  (* 953 *) draw DrawBoxMesh;;
  (* 956 *) lift (SetTransformations_ (mk_vec3 lit_0_8 lit_3_0 lit_1_0) lit_90_0 lit_0_0 lit_0_0 (mk_vec3 lit_m18_6 lit_5_0 lit_m10_15));;
  (* 961 *) lift (SetShaderColor lit_0_25 lit_0_25 lit_0_25 lit_1_0);;
  (* 962 *) lift (SetTextureUVScale lit_35_0 lit_35_0);;
  (* 963 *) lift (SetShaderMaterial "metalMAT" (indeterminate 29));;
  (* 964 *) lift (SetShaderTexture "metal");;
  (* 965 *) draw DrawBoxMesh;;
  (* 968 *) lift (SetTransformations_ (mk_vec3 lit_0_8 lit_6_0 lit_1_0) lit_m20_0 lit_0_0 lit_0_0 (mk_vec3 lit_m18_6 lit_2_345 lit_m8_1));;
  (* 973 *) lift (SetShaderColor lit_0_25 lit_0_25 lit_0_25 lit_1_0);;
  (* 974 *) lift (SetTextureUVScale lit_35_0 lit_35_0);;
  (* 975 *) lift (SetShaderMaterial "metalMAT" (indeterminate 30));;
  (* 976 *) lift (SetShaderTexture "metal");;
  (* 977 *) draw DrawBoxMesh;;
  (* 980 *) lift (SetTransformations_ (mk_vec3 lit_0_8 lit_6_0 lit_1_0) lit_20_0 lit_0_0 lit_0_0 (mk_vec3 lit_m18_6 lit_2_345 lit_m12_15));;
  (* 985 *) lift (SetShaderColor lit_0_25 lit_0_25 lit_0_25 lit_1_0);;
  (* 986 *) lift (SetTextureUVScale lit_35_0 lit_35_0);;
  (* 987 *) lift (SetShaderMaterial "metalMAT" (indeterminate 31));;
  (* 988 *) lift (SetShaderTexture "metal");;
  (* 989 *) draw DrawBoxMesh;;
  (* 992 *) lift (SetTransformations_ (mk_vec3 lit_0_8 lit_3_0 lit_1_0) lit_90_0 lit_0_0 lit_0_0 (mk_vec3 lit_m10_25 lit_5_0 lit_m10_15));;
  (* 997 *) lift (SetShaderColor lit_0_25 lit_0_25 lit_0_25 lit_1_0);;
  (* 998 *) lift (SetTextureUVScale lit_35_0 lit_35_0);;
  (* 999 *) lift (SetShaderMaterial "metalMAT" (indeterminate 32));;
  (* 1000 *) lift (SetShaderTexture "metal");;
  (* 1001 *) draw DrawBoxMesh;;
  (* 1004 *) lift (SetTransformations_ (mk_vec3 lit_0_8 lit_6_0 lit_1_0) lit_m20_0 lit_0_0 lit_0_0 (mk_vec3 lit_m10_25 lit_2_345 lit_m8_1));;
  (* 1009 *) lift (SetShaderColor lit_0_25 lit_0_25 lit_0_25 lit_1_0);;
  (* 1010 *) lift (SetTextureUVScale lit_35_0 lit_35_0);;
  (* 1011 *) lift (SetShaderMaterial "metalMAT" (indeterminate 33));;
  (* 1012 *) lift (SetShaderTexture "metal");;
  (* 1013 *) draw DrawBoxMesh;;
  (* 1016 *) lift (SetTransformations_ (mk_vec3 lit_0_8 lit_6_0 lit_1_0) lit_20_0 lit_0_0 lit_0_0 (mk_vec3 lit_m10_25 lit_2_345 lit_m12_15));;
  (* 1021 *) lift (SetShaderColor lit_0_25 lit_0_25 lit_0_25 lit_1_0);;
  (* 1022 *) lift (SetTextureUVScale lit_35_0 lit_35_0);;
  (* 1023 *) lift (SetShaderMaterial "metalMAT" (indeterminate 34));;
  (* 1024 *) lift (SetShaderTexture "metal");;
  (* 1025 *) draw DrawBoxMesh;;
  (* 1028 *) lift (SetTransformations_ (mk_vec3 lit_0_8 lit_3_0 lit_1_0) lit_90_0 lit_0_0 lit_0_0 (mk_vec3 lit_m1_9 lit_5_0 lit_m10_15));;
  (* 1033 *) lift (SetShaderColor lit_0_25 lit_0_25 lit_0_25 lit_1_0);;
  (* 1034 *) lift (SetTextureUVScale lit_35_0 lit_35_0);;
  (* 1035 *) lift (SetShaderMaterial "metalMAT" (indeterminate 35));;
  (* 1036 *) lift (SetShaderTexture "metal");;
  (* 1037 *) draw DrawBoxMesh;;
  (* 1040 *) lift (SetTransformations_ (mk_vec3 lit_0_8 lit_6_0 lit_1_0) lit_m20_0 lit_0_0 lit_0_0 (mk_vec3 lit_m1_9 lit_2_345 lit_m8_1));;
  (* 1045 *) lift (SetShaderColor lit_0_25 lit_0_25 lit_0_25 lit_1_0);;
  (* 1046 *) lift (SetTextureUVScale lit_35_0 lit_35_0);;
  (* 1047 *) lift (SetShaderMaterial "metalMAT" (indeterminate 36));;
  (* 1048 *) lift (SetShaderTexture "metal");;
  (* 1049 *) draw DrawBoxMesh;;
  (* 1052 *) lift (SetTransformations_ (mk_vec3 lit_0_8 lit_6_0 lit_1_0) lit_20_0 lit_0_0 lit_0_0 (mk_vec3 lit_m1_9 lit_2_345 lit_m12_15));;
  (* 1057 *) lift (SetShaderColor lit_0_25 lit_0_25 lit_0_25 lit_1_0);;
  (* 1058 *) lift (SetTextureUVScale lit_35_0 lit_35_0);;
  (* 1059 *) lift (SetShaderMaterial "metalMAT" (indeterminate 37));;
  (* 1060 *) lift (SetShaderTexture "metal");;
  (* 1061 *) draw DrawBoxMesh;;
  (* 1068 *) lift (SetTransformations_ (mk_vec3 lit_0_2 lit_1_2 lit_0_2) lit_90_0 lit_0_0 lit_0_0 (mk_vec3 lit_m17_5 lit_5_75 lit_m10_75));;
  (* 1073 *) lift (SetShaderColor lit_0_25 lit_0_25 lit_0_25 lit_1_0);;
  (* 1074 *) lift (SetTextureUVScale lit_1_0 lit_1_0);;
  (* 1075 *) lift (SetShaderMaterial "metalMAT" (indeterminate 38));;
  (* 1076 *) lift (SetShaderTexture "dbell");;
  (* 1077 *) draw DrawCylinderMesh;;
  (* 1080 *) lift (SetTransformations_ (mk_vec3 lit_0_75 lit_0_75 lit_0_75) lit_0_0 lit_0_0 lit_0_0 (mk_vec3 lit_m17_5 lit_5_75 lit_m11_45));;
  (* 1085 *) lift (SetShaderColor lit_0_25 lit_0_25 lit_0_25 lit_1_0);;
  (* 1086 *) lift (SetTextureUVScale lit_1_0 lit_1_0);;
  (* 1087 *) lift (SetShaderMaterial "metalMAT" (indeterminate 39));;
  (* 1088 *) lift (SetShaderTexture "dbell");;
  (* 1089 *) draw DrawSphereMesh;;
  (* 1092 *) lift (SetTransformations_ (mk_vec3 lit_0_75 lit_0_75 lit_0_75) lit_0_0 lit_0_0 lit_0_0 (mk_vec3 lit_m17_5 lit_5_75 lit_m8_85));;
  (* 1097 *) lift (SetShaderColor lit_0_25 lit_0_25 lit_0_25 lit_1_0);;
  (* 1098 *) lift (SetTextureUVScale lit_1_0 lit_1_0);;
  (* 1099 *) lift (SetShaderMaterial "metalMAT" (indeterminate 40));;
  (* 1100 *) lift (SetShaderTexture "dbell");;
  (* 1101 *) draw DrawSphereMesh;;
  (* 1106 *) lift (SetTransformations_ (mk_vec3 lit_0_2 lit_1_2 lit_0_2) lit_90_0 lit_0_0 lit_0_0 (mk_vec3 lit_m15_75 lit_5_75 lit_m10_75));;
  (* 1111 *) lift (SetShaderColor lit_0_25 lit_0_25 lit_0_25 lit_1_0);;
  (* 1112 *) lift (SetTextureUVScale lit_1_0 lit_1_0);;
  (* 1113 *) lift (SetShaderMaterial "metalMAT" (indeterminate 41));;
  (* 1114 *) lift (SetShaderTexture "dbell");;
  (* 1115 *) draw DrawCylinderMesh;;
  (* 1118 *) lift (SetTransformations_ (mk_vec3 lit_0_75 lit_0_75 lit_0_75) lit_0_0 lit_0_0 lit_0_0 (mk_vec3 lit_m15_75 lit_5_75 lit_m11_45));;
  (* 1123 *) lift (SetShaderColor lit_0_25 lit_0_25 lit_0_25 lit_1_0);;
  (* 1124 *) lift (SetTextureUVScale lit_1_0 lit_1_0);;
  (* 1125 *) lift (SetShaderMaterial "metalMAT" (indeterminate 42));;
  (* 1126 *) lift (SetShaderTexture "dbell");;
  (* 1127 *) draw DrawSphereMesh;;
  (* 1130 *) lift (SetTransformations_ (mk_vec3 lit_0_75 lit_0_75 lit_0_75) lit_0_0 lit_0_0 lit_0_0 (mk_vec3 lit_m15_75 lit_5_75 lit_m8_85));;
  (* 1135 *) lift (SetShaderColor lit_0_25 lit_0_25 lit_0_25 lit_1_0);;
  (* 1136 *) lift (SetTextureUVScale lit_1_0 lit_1_0);;
  (* 1137 *) lift (SetShaderMaterial "metalMAT" (indeterminate 43));;
  (* 1138 *) lift (SetShaderTexture "dbell");;
  (* 1139 *) draw DrawSphereMesh;;
  (* 1144 *) lift (SetTransformations_ (mk_vec3 lit_0_2 lit_1_2 lit_0_2) lit_90_0 lit_0_0 lit_0_0 (mk_vec3 lit_m13_5 lit_5_75 lit_m10_75));;
  (* 1149 *) lift (SetShaderColor lit_0_25 lit_0_25 lit_0_25 lit_1_0);;
  (* 1150 *) lift (SetTextureUVScale lit_1_0 lit_1_0);;
  (* 1151 *) lift (SetShaderMaterial "metalMAT" (indeterminate 44));;
  (* 1152 *) lift (SetShaderTexture "dbell");;
  (* 1153 *) draw DrawCylinderMesh;;
  (* 1156 *) lift (SetTransformations_ (mk_vec3 lit_0_875 lit_0_875 lit_0_875) lit_0_0 lit_0_0 lit_0_0 (mk_vec3 lit_m13_5 lit_5_75 lit_m11_55));;
  (* 1161 *) lift (SetShaderColor lit_0_25 lit_0_25 lit_0_25 lit_1_0);;
  (* 1162 *) lift (SetTextureUVScale lit_1_0 lit_1_0);;
  (* 1163 *) lift (SetShaderMaterial "metalMAT" (indeterminate 45));;
  (* 1164 *) lift (SetShaderTexture "dbell");;
  (* 1165 *) draw DrawSphereMesh;;
  (* 1168 *) lift (SetTransformations_ (mk_vec3 lit_0_875 lit_0_875 lit_0_875) lit_0_0 lit_0_0 lit_0_0 (mk_vec3 lit_m13_5 lit_5_75 lit_m8_75));;
  (* 1173 *) lift (SetShaderColor lit_0_25 lit_0_25 lit_0_25 lit_1_0);;
  (* 1174 *) lift (SetTextureUVScale lit_1_0 lit_1_0);;
  (* 1175 *) lift (SetShaderMaterial "metalMAT" (indeterminate 46));;
  (* 1176 *) lift (SetShaderTexture "dbell");;
  (* 1177 *) draw DrawSphereMesh;;
  (* 1182 *) lift (SetTransformations_ (mk_vec3 lit_0_2 lit_1_2 lit_0_2) lit_90_0 lit_0_0 lit_0_0 (mk_vec3 lit_m11_5 lit_5_75 lit_m10_75));;
  (* 1187 *) lift (SetShaderColor lit_0_25 lit_0_25 lit_0_25 lit_1_0);;
  (* 1188 *) lift (SetTextureUVScale lit_1_0 lit_1_0);;
  (* 1189 *) lift (SetShaderMaterial "metalMAT" (indeterminate 47));;
  (* 1190 *) lift (SetShaderTexture "dbell");;
  (* 1191 *) draw DrawCylinderMesh;;
  (* 1194 *) lift (SetTransformations_ (mk_vec3 lit_0_875 lit_0_875 lit_0_875) lit_0_0 lit_0_0 lit_0_0 (mk_vec3 lit_m11_5 lit_5_75 lit_m11_55));;
  (* 1199 *) lift (SetShaderColor lit_0_25 lit_0_25 lit_0_25 lit_1_0);;
  (* 1200 *) lift (SetTextureUVScale lit_1_0 lit_1_0);;
  (* 1201 *) lift (SetShaderMaterial "metalMAT" (indeterminate 48));;
  (* 1202 *) lift (SetShaderTexture "dbell");;
  (* 1203 *) draw DrawSphereMesh;;
  (* 1206 *) lift (SetTransformations_ (mk_vec3 lit_0_875 lit_0_875 lit_0_875) lit_0_0 lit_0_0 lit_0_0 (mk_vec3 lit_m11_5 lit_5_75 lit_m8_75));;
  (* 1211 *) lift (SetShaderColor lit_0_25 lit_0_25 lit_0_25 lit_1_0);;
  (* 1212 *) lift (SetTextureUVScale lit_1_0 lit_1_0);;
  (* 1213 *) lift (SetShaderMaterial "metalMAT" (indeterminate 49));;
  (* 1214 *) lift (SetShaderTexture "dbell");;
  (* 1215 *) draw DrawSphereMesh;;
  (* 1220 *) lift (SetTransformations_ (mk_vec3 lit_0_2 lit_1_2 lit_0_2) lit_90_0 lit_0_0 lit_0_0 (mk_vec3 lit_m8_85 lit_5_75 lit_m10_75));;
  (* 1225 *) lift (SetShaderColor lit_0_25 lit_0_25 lit_0_25 lit_1_0);;
  (* 1226 *) lift (SetTextureUVScale lit_1_0 lit_1_0);;
  (* 1227 *) lift (SetShaderMaterial "metalMAT" (indeterminate 50));;
  (* 1228 *) lift (SetShaderTexture "dbell");;
  (* 1229 *) draw DrawCylinderMesh;;
  (* 1232 *) lift (SetTransformations_ (mk_vec3 lit_1_0 lit_1_0 lit_1_0) lit_0_0 lit_0_0 lit_0_0 (mk_vec3 lit_m8_85 lit_5_75 lit_m11_65));;
  (* 1237 *) lift (SetShaderColor lit_0_25 lit_0_25 lit_0_25 lit_1_0);;
  (* 1238 *) lift (SetTextureUVScale lit_1_0 lit_1_0);;
  (* 1239 *) lift (SetShaderMaterial "metalMAT" (indeterminate 51));;
  (* 1240 *) lift (SetShaderTexture "dbell");;
  (* 1241 *) draw DrawSphereMesh;;
  (* 1244 *) lift (SetTransformations_ (mk_vec3 lit_1_0 lit_1_0 lit_1_0) lit_0_0 lit_0_0 lit_0_0 (mk_vec3 lit_m8_85 lit_5_75 lit_m8_65));;
  (* 1249 *) lift (SetShaderColor lit_0_25 lit_0_25 lit_0_25 lit_1_0);;
  (* 1250 *) lift (SetTextureUVScale lit_1_0 lit_1_0);;
  (* 1251 *) lift (SetShaderMaterial "metalMAT" (indeterminate 52));;
  (* 1252 *) lift (SetShaderTexture "dbell");;
  (* 1253 *) draw DrawSphereMesh;;
  (* 1258 *) lift (SetTransformations_ (mk_vec3 lit_0_2 lit_1_2 lit_0_2) lit_90_0 lit_0_0 lit_0_0 (mk_vec3 lit_m6_85 lit_5_75 lit_m10_75));;
  (* 1263 *) lift (SetShaderColor lit_0_25 lit_0_25 lit_0_25 lit_1_0);;
  (* 1264 *) lift (SetTextureUVScale lit_1_0 lit_1_0);;
  (* 1265 *) lift (SetShaderMaterial "metalMAT" (indeterminate 53));;
  (* 1266 *) lift (SetShaderTexture "dbell");;
  (* 1267 *) draw DrawCylinderMesh;;
  (* 1270 *) lift (SetTransformations_ (mk_vec3 lit_1_0 lit_1_0 lit_1_0) lit_0_0 lit_0_0 lit_0_0 (mk_vec3 lit_m6_85 lit_5_75 lit_m11_65));;
  (* 1275 *) lift (SetShaderColor lit_0_25 lit_0_25 lit_0_25 lit_1_0);;
  (* 1276 *) lift (SetTextureUVScale lit_1_0 lit_1_0);;
  (* 1277 *) lift (SetShaderMaterial "metalMAT" (indeterminate 54));;
  (* 1278 *) lift (SetShaderTexture "dbell");;
  (* 1279 *) draw DrawSphereMesh;;
  (* 1282 *) lift (SetTransformations_ (mk_vec3 lit_1_0 lit_1_0 lit_1_0) lit_0_0 lit_0_0 lit_0_0 (mk_vec3 lit_m6_85 lit_5_75 lit_m8_65));;
  (* 1287 *) lift (SetShaderColor lit_0_25 lit_0_25 lit_0_25 lit_1_0);;
  (* 1288 *) lift (SetTextureUVScale lit_1_0 lit_1_0);;
  (* 1289 *) lift (SetShaderMaterial "metalMAT" (indeterminate 55));;
  (* 1290 *) lift (SetShaderTexture "dbell");;
  (* 1291 *) draw DrawSphereMesh;;
  (* 1296 *) lift (SetTransformations_ (mk_vec3 lit_0_2 lit_1_2 lit_0_2) lit_90_0 lit_0_0 lit_0_0 (mk_vec3 lit_m9_35 lit_1_15 lit_1_55));;
  (* 1301 *) lift (SetShaderColor lit_0_25 lit_0_25 lit_0_25 lit_1_0);;
  (* 1302 *) lift (SetTextureUVScale lit_1_0 lit_1_0);;
  (* 1303 *) lift (SetShaderMaterial "metalMAT" (indeterminate 56));;
  (* 1304 *) lift (SetShaderTexture "dbell");;
  (* 1305 *) draw DrawCylinderMesh;;
  (* 1308 *) lift (SetTransformations_ (mk_vec3 lit_1_2 lit_1_2 lit_1_2) lit_0_0 lit_0_0 lit_0_0 (mk_vec3 lit_m9_35 lit_1_15 lit_3_875));;
  (* 1313 *) lift (SetShaderColor lit_0_25 lit_0_25 lit_0_25 lit_1_0);;
  (* 1314 *) lift (SetTextureUVScale lit_1_0 lit_1_0);;
  (* 1315 *) lift (SetShaderMaterial "metalMAT" (indeterminate 57));;
  (* 1316 *) lift (SetShaderTexture "dbell");;
  (* 1317 *) draw DrawSphereMesh;;
  (* 1320 *) lift (SetTransformations_ (mk_vec3 lit_1_2 lit_1_2 lit_1_2) lit_0_0 lit_0_0 lit_0_0 (mk_vec3 lit_m9_35 lit_1_15 lit_0_475));;
  (* 1325 *) lift (SetShaderColor lit_0_25 lit_0_25 lit_0_25 lit_1_0);;
  (* 1326 *) lift (SetTextureUVScale lit_1_0 lit_1_0);;
  (* 1327 *) lift (SetShaderMaterial "metalMAT" (indeterminate 58));;
  (* 1328 *) lift (SetShaderTexture "dbell");;
  (* 1329 *) draw DrawSphereMesh;;
  (* 1334 *) lift (SetTransformations_ (mk_vec3 lit_0_2 lit_1_2 lit_0_2) lit_90_0 lit_0_0 lit_0_0 (mk_vec3 lit_m1_15 lit_1_15 lit_1_55));;
  (* 1339 *) lift (SetShaderColor lit_0_25 lit_0_25 lit_0_25 lit_1_0);;
  (* 1340 *) lift (SetTextureUVScale lit_1_0 lit_1_0);;
  (* 1341 *) lift (SetShaderMaterial "metalMAT" (indeterminate 59));;
  (* 1342 *) lift (SetShaderTexture "dbell");;
  (* 1343 *) draw DrawCylinderMesh;;
  (* 1346 *) lift (SetTransformations_ (mk_vec3 lit_1_2 lit_1_2 lit_1_2) lit_0_0 lit_0_0 lit_0_0 (mk_vec3 lit_m1_15 lit_1_15 lit_3_875));;
  (* 1351 *) lift (SetShaderColor lit_0_25 lit_0_25 lit_0_25 lit_1_0);;
  (* 1352 *) lift (SetTextureUVScale lit_1_0 lit_1_0);;
  (* 1353 *) lift (SetShaderMaterial "metalMAT" (indeterminate 60));;
  (* 1354 *) lift (SetShaderTexture "dbell");;
  (* 1355 *) draw DrawSphereMesh;;
  (* 1358 *) lift (SetTransformations_ (mk_vec3 lit_1_2 lit_1_2 lit_1_2) lit_0_0 lit_0_0 lit_0_0 (mk_vec3 lit_m1_15 lit_1_15 lit_0_475));;
  (* 1363 *) lift (SetShaderColor lit_0_25 lit_0_25 lit_0_25 lit_1_0);;
  (* 1364 *) lift (SetTextureUVScale lit_1_0 lit_1_0);;
  (* 1365 *) lift (SetShaderMaterial "metalMAT" (indeterminate 61));;
  (* 1366 *) lift (SetShaderTexture "dbell");;
  (* 1367 *) draw DrawSphereMesh.
End Render.

(** What a statement of RenderScene emits: the shader calls of one member
    function, or one draw call. *)
Inductive RenderEvent :=
| Uniforms (calls : list ShaderCall)
| Drawn (x : DrawCall).

Fixpoint uniforms (evs : list RenderEvent) : list ShaderCall :=
  match evs with
  | [] => []
  | Uniforms calls :: rest => calls ++ uniforms rest
  | Drawn _ :: rest => uniforms rest
  end.

Fixpoint drawn (evs : list RenderEvent) : list DrawCall :=
  match evs with
  | [] => []
  | Uniforms _ :: rest => drawn rest
  | Drawn x :: rest => x :: drawn rest
  end.

(** The draw journal entries of the events, [n] shader calls having been
    made before the first of them. *)
Fixpoint draws_from (n : nat) (evs : list RenderEvent) : DrawJournal :=
  match evs with
  | [] => []
  | Uniforms calls :: rest => draws_from (n + length calls) rest
  | Drawn x :: rest => (n, x) :: draws_from n rest
  end.

(** [emits s c evs]: on every world whose scene manager is [s], and every
    draw journal, [c] returns having appended the shader calls and the draw
    calls of [evs], and nothing else. *)
Definition emits (s : SceneManager) (c : RM unit) (evs : list RenderEvent) : Prop :=
  forall (w : World) (d : DrawJournal),
    scene w = s ->
    c d w = Done (tt, d ++ draws_from (length (shader w)) evs)
                 (with_shader (fun calls => calls ++ uniforms evs) w).

(** The shader calls of SetShaderTexture and of SetShaderMaterial on the
    scene manager [s], shader manager attached. *)
Definition texture_calls (s : SceneManager) (tag : string) : list ShaderCall :=
  [setIntValue "bUseTexture" 1; setSampler2DValue "objectTexture" (slot_of s tag)].

Definition material_calls (s : SceneManager) (tag : string) (indeterminate : OBJECT_MATERIAL)
  : list ShaderCall :=
  match m_objectMaterials s with
  | [] => []
  | _ :: _ =>
      material_uniforms
        match find (has_tag tag) (m_objectMaterials s) with
        | Some entry => entry
        | None => indeterminate
        end
  end.

(** Every sampler index among the shader calls is a slot below [n]. *)
Definition sampler_below (n : Z) (c : ShaderCall) : bool :=
  match c with
  | setSampler2DValue _ slot => (0 <=? slot) && (slot <? n)
  | _ => true
  end.

Definition is_model (c : ShaderCall) : bool :=
  match c with
  | setMat4Value name _ => String.eqb name "model"
  | _ => false
  end.

(** Between two draws, and before the first, the model matrix is set
    exactly once; [since] counts the settings since the last draw. *)
Fixpoint one_model_per_draw (since : nat) (evs : list RenderEvent) : bool :=
  match evs with
  | [] => true
  | Uniforms calls :: rest =>
      one_model_per_draw (since + length (List.filter is_model calls)) rest
  | Drawn _ :: rest => Nat.eqb since 1 && one_model_per_draw 0 rest
  end.

(** The scene manager PrepareScene leaves when every texture file loads. *)
Definition world_prepared : World :=
  match PrepareScene (World_new pShaderManager disk_all_rgb) with
  | Done _ w => w
  | Crash _ => World_new pShaderManager disk_all_rgb
  end.

(** Stand-ins for the GLM functions and for the uninitialised locals, for
    the closed examples that have to name some. *)
Definition mat4_zero : mat4 :=
  mk_mat4 (mk_vec4 lit_0_0 lit_0_0 lit_0_0 lit_0_0) (mk_vec4 lit_0_0 lit_0_0 lit_0_0 lit_0_0)
          (mk_vec4 lit_0_0 lit_0_0 lit_0_0 lit_0_0) (mk_vec4 lit_0_0 lit_0_0 lit_0_0 lit_0_0).

(** * Properties *)

(** ** Running computations *)

Lemma bind_Done {A B} (c : M A) (k : A -> M B) (w w' : World) (a : A) :
  c w = Done a w' -> (c ≫= k) w = k a w'.
Proof. intros H. unfold mbind, M_bind, bind. now rewrite H. Qed.

Lemma bind_Crash {A B} (c : M A) (k : A -> M B) (w : World) (f : fault) :
  c w = Crash f -> (c ≫= k) w = Crash f.
Proof. intros H. unfold mbind, M_bind, bind. now rewrite H. Qed.

Ltac run :=
  unfold mbind, M_bind, bind, mret, M_ret, ret, gets, modify, crash; cbn.

(** One step of symbolic execution: the first computation of a sequence
    runs by computation alone. *)
Ltac step := erewrite bind_Done by reflexivity; cbv beta.

(** Successive updates of one component fuse, which keeps the states of a
    symbolic run small. *)
Lemma with_shader_fuse (f g : list ShaderCall -> list ShaderCall) (w : World) :
  with_shader f (with_shader g w) = with_shader (fun calls => f (g calls)) w.
Proof. reflexivity. Qed.

Lemma gl_calls_fuse (n : GLContext -> Z) (cs : list GLcall) (c : GLcall) (w : World) :
  with_gl (fun g => mk_GLContext (gl_next_name g) (gl_calls g ++ [c]))
          (with_gl (fun g => mk_GLContext (n g) (gl_calls g ++ cs)) w)
  = with_gl (fun g => mk_GLContext (n g) (gl_calls g ++ (cs ++ [c]))) w.
Proof. unfold with_gl. cbn. now rewrite app_assoc. Qed.

Lemma with_scene_fuse (f g : SceneManager -> SceneManager) (w : World) :
  with_scene f (with_scene g w) = with_scene (fun s => f (g s)) w.
Proof. reflexivity. Qed.

(** ** Float literals *)

(** Every float literal of the embedding is a canonical binary32 value. *)
Lemma source_literals_binary32 :
  forallb (valid_binary float_prec float_emax) source_literals = true.
Proof. vm_compute. reflexivity. Qed.

(** ** FindMaterial *)

Lemma FindMaterial_while_find (n : nat) (table : list OBJECT_MATERIAL)
      (tag : string) (index : nat) (material : OBJECT_MATERIAL) :
  n = (length table - index)%nat ->
  FindMaterial_while n table tag index material =
  match find (has_tag tag) (drop index table) with
  | Some e => (true, assign_found e material)
  | None => (false, material)
  end.
Proof.
  revert index. induction n as [|n IH]; intros index Hn.
  - rewrite drop_ge by lia. reflexivity.
  - destruct (lookup_lt_is_Some_2 table index) as [e He]; [lia|].
    rewrite (drop_S _ _ _ He). cbn. rewrite He. unfold has_tag at 1.
    destruct (String.eqb (mat_tag e) tag); [reflexivity|].
    apply IH. lia.
Qed.

Lemma FindMaterial_eq (tag : string) (material : OBJECT_MATERIAL) (w : World) :
  FindMaterial tag material w =
  Done (match m_objectMaterials (scene w) with
        | [] => (false, material)
        | _ :: _ => (true, match find (has_tag tag) (m_objectMaterials (scene w)) with
                           | Some e => assign_found e material
                           | None => material
                           end)
        end) w.
Proof.
  unfold FindMaterial. run.
  destruct (m_objectMaterials (scene w)) as [|e0 table] eqn:E; [reflexivity|].
  cbn [length Nat.eqb].
  rewrite FindMaterial_while_find by (cbn; lia).
  rewrite drop_0. destruct (find _ _); reflexivity.
Qed.

Lemma find_has_tag_None (tag : string) (table : list OBJECT_MATERIAL) :
  (forall e, In e table -> mat_tag e <> tag) -> find (has_tag tag) table = None.
Proof.
  intros H. destruct (find (has_tag tag) table) as [e|] eqn:E; [|reflexivity].
  apply find_some in E as [Hin Ht]. apply String.eqb_eq in Ht.
  now apply H in Hin.
Qed.

(** A scan stops at the first entry carrying the tag. *)
Lemma find_has_tag_app (tag : string) (older newer : list OBJECT_MATERIAL) :
  (forall e, In e older -> mat_tag e <> tag) ->
  find (has_tag tag) (older ++ newer) = find (has_tag tag) newer.
Proof.
  induction older as [|e older IH]; intros H; [reflexivity|].
  cbn. unfold has_tag at 1.
  destruct (String.eqb_spec (mat_tag e) tag) as [Heq|_].
  - exfalso. apply (H e); [now left | exact Heq].
  - apply IH. intros e' He'. apply H. now right.
Qed.

(** C1: FindMaterial answers false exactly when the material table is
    empty; on a non-empty table it answers true, and when no entry carries
    the requested tag the material behind the reference is left as it was. *)
Theorem FindMaterial_false_iff_empty (tag : string) (material : OBJECT_MATERIAL) (w : World) :
  (exists (bReturn : bool) (out : OBJECT_MATERIAL),
      FindMaterial tag material w = Done (bReturn, out) w /\
      (bReturn = false <-> m_objectMaterials (scene w) = [])) /\
  (m_objectMaterials (scene w) = [] ->
   FindMaterial tag material w = Done (false, material) w) /\
  (m_objectMaterials (scene w) <> [] ->
   (forall e, In e (m_objectMaterials (scene w)) -> mat_tag e <> tag) ->
   FindMaterial tag material w = Done (true, material) w).
Proof.
  rewrite FindMaterial_eq.
  destruct (m_objectMaterials (scene w)) as [|e0 table] eqn:E.
  - split; [|split].
    + exists false, material. split; [reflexivity|]. split; reflexivity.
    + reflexivity.
    + intros H. now destruct H.
  - split; [|split].
    + eexists true, _. split; [reflexivity|]. split; discriminate.
    + discriminate.
    + intros _ H. now rewrite (find_has_tag_None _ _ H).
Qed.

Lemma FindMaterial_false_iff_empty_witness :
  FindMaterial "glassMAT" blank_MATERIAL (world_with_materials pShaderManager [])
  = Done (false, blank_MATERIAL) (world_with_materials pShaderManager []) /\
  FindMaterial "glassMAT" blank_MATERIAL (world_with_materials pShaderManager [stoneMAT; metalMAT])
  = Done (true, blank_MATERIAL) (world_with_materials pShaderManager [stoneMAT; metalMAT]).
Proof.
  split.
  - apply (proj1 (proj2 (FindMaterial_false_iff_empty
                           "glassMAT" blank_MATERIAL
                           (world_with_materials pShaderManager [])))).
    reflexivity.
  - apply (proj2 (proj2 (FindMaterial_false_iff_empty
                           "glassMAT" blank_MATERIAL
                           (world_with_materials pShaderManager [stoneMAT; metalMAT])))).
    + simpl. discriminate.
    + simpl. intros e [<-|[<-|[]]]; simpl; discriminate.
Defined.

(** Whatever the table, the entry a scan meets first decides the result. *)
Lemma FindMaterial_first_match (tag : string) (material entry : OBJECT_MATERIAL) (w : World) :
  find (has_tag tag) (m_objectMaterials (scene w)) = Some entry ->
  FindMaterial tag material w = Done (true, assign_found entry material) w.
Proof.
  intros H. rewrite FindMaterial_eq, H.
  destruct (m_objectMaterials (scene w)); [discriminate|reflexivity].
Qed.

Lemma DefineObjectMaterials_eq (w : World) :
  DefineObjectMaterials w =
  Done tt (with_scene (fun s => set_objectMaterials
             (m_objectMaterials s ++ [stoneMAT; metalMAT; woodMaterial; rubberMaterial]) s) w).
Proof.
  unfold DefineObjectMaterials, push_back. run.
  unfold with_scene, set_objectMaterials. cbn.
  now rewrite <- !app_assoc.
Qed.

(** C2, as stated, fails: after DefineObjectMaterials, looking "stoneMAT" up
    succeeds but ambientColor and ambientStrength of the result are those of
    the caller's material, not those stoneMAT was defined with. *)
Lemma FindMaterial_ambient_not_returned :
  DefineObjectMaterials (World_new pShaderManager disk_empty) = Done tt world_defined /\
  In stoneMAT (m_objectMaterials (scene world_defined)) /\
  FindMaterial (mat_tag stoneMAT) blank_MATERIAL world_defined
  = Done (true, assign_found stoneMAT blank_MATERIAL) world_defined /\
  ambientColor (assign_found stoneMAT blank_MATERIAL) <> ambientColor stoneMAT /\
  ambientStrength (assign_found stoneMAT blank_MATERIAL) <> ambientStrength stoneMAT.
Proof.
  split; [reflexivity|]. split; [now left|]. split; [reflexivity|].
  split; cbn; discriminate.
Qed.

(** C2, amended: for every material DefineObjectMaterials defines (on a
    table holding no older entry with that tag), FindMaterial with the
    material's tag succeeds and returns the defined diffuseColor,
    specularColor and shininess; ambientColor and ambientStrength are not
    copied and keep the values of the caller's material. *)
Theorem FindMaterial_defined_fields (w w' : World) (m material : OBJECT_MATERIAL) :
  DefineObjectMaterials w = Done tt w' ->
  In m [stoneMAT; metalMAT; woodMaterial; rubberMaterial] ->
  (forall e, In e (m_objectMaterials (scene w)) -> mat_tag e <> mat_tag m) ->
  In m (m_objectMaterials (scene w')) /\
  exists out : OBJECT_MATERIAL,
    FindMaterial (mat_tag m) material w' = Done (true, out) w' /\
    diffuseColor out = diffuseColor m /\
    specularColor out = specularColor m /\
    shininess out = shininess m /\
    ambientColor out = ambientColor material /\
    ambientStrength out = ambientStrength material.
Proof.
  rewrite DefineObjectMaterials_eq. intros [= <-] Hm Hold.
  split.
  - cbn. apply in_or_app. now right.
  - exists (assign_found m material). split; [|repeat split].
    apply FindMaterial_first_match. cbn.
    rewrite (find_has_tag_app _ _ _ Hold).
    destruct Hm as [<-|[<-|[<-|[<-|[]]]]]; reflexivity.
Qed.

Lemma FindMaterial_defined_fields_witness :
  exists out : OBJECT_MATERIAL,
    FindMaterial "woodMAT" blank_MATERIAL world_defined = Done (true, out) world_defined /\
    diffuseColor out = mk_vec3 lit_0_6 lit_0_5 lit_0_2 /\
    specularColor out = mk_vec3 lit_0_1 lit_0_2 lit_0_2 /\
    shininess out = lit_5_0 /\
    ambientColor out = ambientColor blank_MATERIAL /\
    ambientStrength out = ambientStrength blank_MATERIAL.
Proof.
  apply (FindMaterial_defined_fields
           (World_new pShaderManager disk_empty) world_defined woodMaterial blank_MATERIAL).
  - reflexivity.
  - simpl. tauto.
  - simpl. intros e [].
Defined.

(** ** The shader calls and the null pointer *)


Lemma via_pShaderManager_set (c : ShaderCall) (w : World) :
  m_pShaderManager (scene w) = pShaderManager ->
  via_pShaderManager c w = Done tt (with_shader (fun calls => calls ++ [c]) w).
Proof. intros H. unfold via_pShaderManager. run. now rewrite H. Qed.

Section NullShader.
Variable w : World.
Hypothesis Hnull : m_pShaderManager (scene w) = NULL.






End NullShader.

(** C3 fails on the code for SetShaderMaterial: with a null shader manager
    and one material defined, the four guarded operations return with the
    world as it was, and SetShaderMaterial dereferences the null pointer. *)
Theorem SetShaderMaterial_null_dereference :
  let w := world_with_materials NULL [stoneMAT] in
  SetShaderColor lit_0_5 lit_0_5 lit_0_5 lit_1_0 w = Done tt w /\
  SetShaderTexture "floor" w = Done tt w /\
  SetTextureUVScale lit_1_0 lit_1_0 w = Done tt w /\
  SetShaderMaterial "stoneMAT" blank_MATERIAL w = Crash NullDereference.
Proof. cbv zeta. repeat split. Qed.

(** ** SetTransformations *)

(** C4: with the shader manager attached, SetTransformations appends one
    call to the shader journal: the "model" matrix
    Translation(position) . RotationZ(z) . RotationY(y) . RotationX(x) .
    Scale(scale), each rotation built from the angle converted to radians. *)
Theorem SetTransformations_pushes_compose
        (glm_scale : vec3 -> mat4) (glm_rotate : float -> vec3 -> mat4)
        (glm_translate : vec3 -> mat4) (glm_radians : float -> float)
        (mat4_mul : mat4 -> mat4 -> mat4)
        (scaleXYZ : vec3) (x y z : float) (positionXYZ : vec3) (w : World) :
  let attached := with_scene (set_pShaderManager pShaderManager) w in
  let M_model :=
    mat4_mul (mat4_mul (mat4_mul (mat4_mul
      (glm_translate positionXYZ)
      (glm_rotate (glm_radians z) (mk_vec3 lit_0_0 lit_0_0 lit_1_0)))
      (glm_rotate (glm_radians y) (mk_vec3 lit_0_0 lit_1_0 lit_0_0)))
      (glm_rotate (glm_radians x) (mk_vec3 lit_1_0 lit_0_0 lit_0_0)))
      (glm_scale scaleXYZ) in
  compose glm_scale glm_rotate glm_translate glm_radians mat4_mul
          scaleXYZ x y z positionXYZ = M_model /\
  SetTransformations glm_scale glm_rotate glm_translate glm_radians mat4_mul
                     scaleXYZ x y z positionXYZ attached
  = Done tt (with_shader (fun calls => calls ++ [setMat4Value "model" M_model]) attached).
Proof. split; reflexivity. Qed.

(** ** CreateGLTexture *)

(** C5: an image whose channel count is neither 3 nor 4 makes
    CreateGLTexture return false; the counter and the array of texture
    records are as before. *)
Theorem CreateGLTexture_rejects_channels
        (filename tag : string) (image : stbi_image) (w : World) :
  stbi_files (stb w) filename = Some image ->
  img_channels image <> 3 ->
  img_channels image <> 4 ->
  exists w' : World,
    CreateGLTexture filename tag w = Done false w' /\
    m_loadedTextures (scene w') = m_loadedTextures (scene w) /\
    m_textureIDs (scene w') = m_textureIDs (scene w) /\
    registered (scene w') = registered (scene w).
Proof.
  intros Hfile H3 H4. unfold CreateGLTexture. run. rewrite Hfile.
  destruct (Z.eqb_spec (img_channels image) 3) as [|_]; [contradiction|].
  destruct (Z.eqb_spec (img_channels image) 4) as [|_]; [contradiction|].
  eexists. split; [reflexivity|]. cbn. repeat split.
Qed.

Lemma CreateGLTexture_rejects_channels_witness :
  exists w' : World,
    CreateGLTexture "textures/grey.png" "grey" world_grey_disk = Done false w' /\
    m_loadedTextures (scene w') = 0 /\
    m_textureIDs (scene w') = replicate MAX_TEXTURE_SLOTS blank_TEXTURE_INFO /\
    registered (scene w') = [].
Proof.
  apply (CreateGLTexture_rejects_channels
           "textures/grey.png" "grey" grey_2x2 world_grey_disk).
  - reflexivity.
  - simpl. lia.
  - simpl. lia.
Defined.

(** ** The texture array *)

Lemma textureIDs_at_inside (index : Z) (e : TEXTURE_INFO) (w : World) :
  0 <= index ->
  m_textureIDs (scene w) !! Z.to_nat index = Some e ->
  textureIDs_at index w = Done e w.
Proof.
  intros H0 He. unfold textureIDs_at. run.
  pose proof (lookup_lt_Some _ _ _ He) as Hlt.
  rewrite He.
  destruct (Z.leb_spec 0 index); [|lia].
  destruct (Z.ltb_spec index (Z.of_nat (length (m_textureIDs (scene w))))); [|lia].
  reflexivity.
Qed.

Lemma textureIDs_at_outside (index : Z) (w : World) :
  Z.of_nat (length (m_textureIDs (scene w))) <= index ->
  textureIDs_at index w = Crash (OutOfBounds index).
Proof.
  intros H. unfold textureIDs_at. run.
  destruct (Z.ltb_spec index (Z.of_nat (length (m_textureIDs (scene w))))); [lia|].
  now rewrite andb_false_r.
Qed.

Lemma textureIDs_update_inside (index : Z) (f : TEXTURE_INFO -> TEXTURE_INFO)
      (e : TEXTURE_INFO) (w : World) :
  0 <= index ->
  m_textureIDs (scene w) !! Z.to_nat index = Some e ->
  textureIDs_update index f w =
  Done tt (with_scene (fun s => set_textureIDs (<[Z.to_nat index := f e]> (m_textureIDs s)) s) w).
Proof.
  intros H0 He. unfold textureIDs_update.
  now rewrite (bind_Done _ _ _ _ _ (textureIDs_at_inside _ _ _ H0 He)).
Qed.

Lemma same_outside_textures_refl (w : World) : same_outside_textures w w.
Proof. now split. Qed.

Lemma same_outside_textures_trans (w1 w2 w3 : World) :
  same_outside_textures w1 w2 -> same_outside_textures w2 w3 ->
  same_outside_textures w1 w3.
Proof. intros [] []. split; congruence. Qed.

Lemma CreateGLTexture_register_inside (textureID : Z) (tag : string) (w : World) :
  0 <= m_loadedTextures (scene w) < Z.of_nat (length (m_textureIDs (scene w))) ->
  exists w' : World,
    CreateGLTexture_register textureID tag w = Done true w' /\
    m_textureIDs (scene w') =
      <[Z.to_nat (m_loadedTextures (scene w)) := mk_TEXTURE_INFO tag textureID]>
        (m_textureIDs (scene w)) /\
    m_loadedTextures (scene w') = m_loadedTextures (scene w) + 1 /\
    gl_next_name (gl w') = gl_next_name (gl w) /\
    same_outside_textures w w'.
Proof.
  intros Hn.
  destruct (lookup_lt_is_Some_2 (m_textureIDs (scene w))
              (Z.to_nat (m_loadedTextures (scene w)))) as [e He]; [lia|].
  unfold CreateGLTexture_register.
  step. step. step.
  erewrite bind_Done; cycle 1.
  { apply (textureIDs_update_inside _ _ e); [cbn; lia | exact He]. }
  erewrite bind_Done; cycle 1.
  { apply textureIDs_update_inside; [cbn; lia|].
    cbn. apply list_lookup_insert_eq. now apply lookup_lt_Some in He. }
  step. eexists. split; [reflexivity|]. cbn.
  rewrite list_insert_insert_eq. repeat split.
Qed.

Lemma CreateGLTexture_register_outside (textureID : Z) (tag : string) (w : World) :
  Z.of_nat (length (m_textureIDs (scene w))) <= m_loadedTextures (scene w) ->
  CreateGLTexture_register textureID tag w = Crash (OutOfBounds (m_loadedTextures (scene w))).
Proof.
  intros Hn. unfold CreateGLTexture_register.
  step. step. step.
  apply bind_Crash. unfold textureIDs_update.
  apply bind_Crash. now apply textureIDs_at_outside.
Qed.

Lemma CreateGLTexture_decoded (filename tag : string) (image : stbi_image) (w : World) :
  stbi_files (stb w) filename = Some image ->
  CreateGLTexture filename tag w =
  let w1 := before_upload filename image w in
  if img_channels image =? 3 then
    CreateGLTexture_register (gl_next_name (gl w)) tag (uploaded GL_RGB8 GL_RGB image w1)
  else if img_channels image =? 4 then
    CreateGLTexture_register (gl_next_name (gl w)) tag (uploaded GL_RGBA8 GL_RGBA image w1)
  else
    Done false (with_cout (fun c => c ++ [Not_implemented_to_handle_image (img_channels image)]) w1).
Proof.
  intros Hfile. unfold CreateGLTexture.
  step. erewrite bind_Done by reflexivity. cbn [stb with_stb stbi_files].
  rewrite Hfile.
  step. unfold gl_GenTextures1. step. unfold gl_do.
  repeat (step; rewrite gl_calls_fuse; cbn [app]). cbv zeta.
  change (with_gl _ _) with (before_upload filename image w).
  destruct (img_channels image =? 3); [|destruct (img_channels image =? 4)];
    (erewrite bind_Done by reflexivity); reflexivity.
Qed.

Lemma CreateGLTexture_undecoded (filename tag : string) (w : World) :
  stbi_files (stb w) filename = None ->
  CreateGLTexture filename tag w =
  Done false (with_cout (fun c => c ++ [Could_not_load_image filename])
                (with_stb (fun s => mk_StbImage true (stbi_files s)) w)).
Proof.
  intros Hfile. unfold CreateGLTexture.
  step. erewrite bind_Done by reflexivity. cbn [stb with_stb stbi_files].
  rewrite Hfile. reflexivity.
Qed.

Lemma loadable_channels (disk : string -> option stbi_image) (filename : string) :
  loadable disk filename = true <->
  exists image, disk filename = Some image /\
                (img_channels image = 3 \/ img_channels image = 4).
Proof.
  unfold loadable. split.
  - destruct (disk filename) as [image|]; [|discriminate].
    intros H. exists image. split; [reflexivity|]. lia.
  - intros (image & -> & H). lia.
Qed.

Lemma CreateGLTexture_loadable (filename tag : string) (w : World) :
  loadable (stbi_files (stb w)) filename = true ->
  0 <= m_loadedTextures (scene w) < Z.of_nat (length (m_textureIDs (scene w))) ->
  exists w' : World,
    CreateGLTexture filename tag w = Done true w' /\
    registers tag w w' /\ same_outside_textures w w'.
Proof.
  intros Hload Hn. apply loadable_channels in Hload as (image & Hfile & Hch).
  rewrite (CreateGLTexture_decoded _ _ _ _ Hfile). cbv zeta.
  assert (Hstep : forall internalformat format,
    exists w' : World,
      CreateGLTexture_register (gl_next_name (gl w)) tag
        (uploaded internalformat format image (before_upload filename image w)) = Done true w' /\
      registers tag w w' /\ same_outside_textures w w').
  { intros internalformat format.
    destruct (CreateGLTexture_register_inside (gl_next_name (gl w)) tag
                (uploaded internalformat format image (before_upload filename image w)))
      as (w' & Hrun & Ha & Hc & Hg & Hs); [exact Hn|].
    exists w'. split; [exact Hrun|]. split.
    - split; [exact Ha | exact Hc | exact Hg].
    - destruct Hs. now split. }
  destruct (Z.eqb_spec (img_channels image) 3); [apply Hstep|].
  destruct (Z.eqb_spec (img_channels image) 4); [apply Hstep|]. lia.
Qed.

Lemma CreateGLTexture_not_loadable (filename tag : string) (w : World) :
  loadable (stbi_files (stb w)) filename = false ->
  exists w' : World,
    CreateGLTexture filename tag w = Done false w' /\
    scene w' = scene w /\ same_outside_textures w w'.
Proof.
  unfold loadable. intros Hload.
  destruct (stbi_files (stb w) filename) as [image|] eqn:Hfile.
  - rewrite (CreateGLTexture_decoded _ _ _ _ Hfile). cbv zeta.
    apply orb_false_elim in Hload as [-> ->].
    eexists. split; [reflexivity|]. now repeat split.
  - rewrite (CreateGLTexture_undecoded _ _ _ Hfile).
    eexists. split; [reflexivity|]. now repeat split.
Qed.

(** With the array full, a loadable file takes CreateGLTexture past its end:
    nothing in the function compares the counter with the array length. *)
Lemma CreateGLTexture_array_full (filename tag : string) (w : World) :
  loadable (stbi_files (stb w)) filename = true ->
  Z.of_nat (length (m_textureIDs (scene w))) <= m_loadedTextures (scene w) ->
  CreateGLTexture filename tag w = Crash (OutOfBounds (m_loadedTextures (scene w))).
Proof.
  intros Hload Hn. apply loadable_channels in Hload as (image & Hfile & Hch).
  rewrite (CreateGLTexture_decoded _ _ _ _ Hfile). cbv zeta.
  destruct (Z.eqb_spec (img_channels image) 3);
    [rewrite CreateGLTexture_register_outside by exact Hn; reflexivity|].
  destruct (Z.eqb_spec (img_channels image) 4);
    [rewrite CreateGLTexture_register_outside by exact Hn; reflexivity|]. lia.
Qed.

Lemma registered_grows (tag : string) (w w' : World) :
  registers tag w w' ->
  0 <= m_loadedTextures (scene w) < Z.of_nat (length (m_textureIDs (scene w))) ->
  registered (scene w') =
  registered (scene w) ++ [mk_TEXTURE_INFO tag (gl_next_name (gl w))].
Proof.
  intros [Ha Hc _] Hn. unfold registered. rewrite Ha, Hc.
  replace (Z.to_nat (m_loadedTextures (scene w) + 1))
    with (S (Z.to_nat (m_loadedTextures (scene w)))) by lia.
  erewrite take_S_r by (apply list_lookup_insert_eq; lia).
  now rewrite take_insert_ge by lia.
Qed.

Lemma CreateGLTexture_each_run (regs : list (string * string)) (w : World) :
  0 <= m_loadedTextures (scene w) ->
  m_loadedTextures (scene w) + Z.of_nat (length (loaded_of (stbi_files (stb w)) regs))
    <= Z.of_nat (length (m_textureIDs (scene w))) ->
  exists w' : World,
    CreateGLTexture_each regs w
      = Done (map (fun r => loadable (stbi_files (stb w)) (fst r)) regs) w' /\
    m_loadedTextures (scene w')
      = m_loadedTextures (scene w) + Z.of_nat (length (loaded_of (stbi_files (stb w)) regs)) /\
    length (m_textureIDs (scene w')) = length (m_textureIDs (scene w)) /\
    texture_tags (scene w')
      = texture_tags (scene w) ++ map snd (loaded_of (stbi_files (stb w)) regs) /\
    same_outside_textures w w'.
Proof.
  revert w. induction regs as [|[filename tag] regs IH]; intros w H0 Hcap.
  - exists w. cbn. rewrite Z.add_0_r, app_nil_r.
    repeat split.
  - cbn [CreateGLTexture_each]. cbn [loaded_of List.filter fst] in *.
    destruct (loadable (stbi_files (stb w)) filename) eqn:Hload.
    + cbn [length] in Hcap.
      destruct (CreateGLTexture_loadable filename tag w Hload) as (w1 & Hrun & Hreg & Hs);
        [lia|].
      pose proof (registered_grows _ _ _ Hreg ltac:(lia)) as Hgrow.
      destruct Hreg as [Ha Hc Hg].
      destruct (IH w1) as (w' & Hrun' & Hc' & Hl' & Ht' & Hs').
      { lia. }
      { rewrite (same_files _ _ Hs), Hc, Ha, length_insert.
        unfold loaded_of in *. lia. }
      exists w'. rewrite (same_files _ _ Hs) in Hrun', Hc', Ht'.
      split; [|split; [|split; [|split]]].
      * erewrite bind_Done by exact Hrun. cbv beta.
        erewrite bind_Done by exact Hrun'. cbn. now rewrite Hload.
      * rewrite Hc', Hc. cbn [length]. unfold loaded_of. lia.
      * now rewrite Hl', Ha, length_insert.
      * rewrite Ht'. unfold texture_tags at 1. rewrite Hgrow, map_app. cbn.
        now rewrite <- app_assoc.
      * eapply same_outside_textures_trans; eassumption.
    + destruct (CreateGLTexture_not_loadable filename tag w Hload) as (w1 & Hrun & Hsc & Hs).
      destruct (IH w1) as (w' & Hrun' & Hc' & Hl' & Ht' & Hs').
      { rewrite Hsc. lia. }
      { rewrite (same_files _ _ Hs), Hsc. unfold loaded_of in *. lia. }
      exists w'. rewrite (same_files _ _ Hs), Hsc in *.
      split; [|split; [|split; [|split]]]; try assumption.
      * erewrite bind_Done by exact Hrun. cbv beta.
        erewrite bind_Done by exact Hrun'. cbn. now rewrite Hload.
      * eapply same_outside_textures_trans; eassumption.
Qed.

(** The counter never leaves the array in a state the member functions
    return: [registry_ok] holds after construction and is kept by every
    registration that returns. *)
Lemma SceneManager_new_registry_ok (p : ShaderManager_ptr) :
  registry_ok (SceneManager_new p).
Proof. unfold registry_ok. cbn. lia. Qed.

Lemma CreateGLTexture_registry_ok (filename tag : string) (w w' : World) (bReturn : bool) :
  registry_ok (scene w) ->
  CreateGLTexture filename tag w = Done bReturn w' ->
  registry_ok (scene w').
Proof.
  intros [H0 Hn] Hrun.
  destruct (loadable (stbi_files (stb w)) filename) eqn:Hload.
  - destruct (Z.ltb_spec (m_loadedTextures (scene w))
                         (Z.of_nat (length (m_textureIDs (scene w))))) as [Hlt|Hge].
    + destruct (CreateGLTexture_loadable filename tag w Hload) as (w1 & Hrun1 & [Ha Hc _] & _);
        [lia|].
      rewrite Hrun1 in Hrun. injection Hrun as _ <-.
      unfold registry_ok. rewrite Ha, Hc, length_insert. lia.
    + rewrite (CreateGLTexture_array_full filename tag w Hload Hge) in Hrun. discriminate.
  - destruct (CreateGLTexture_not_loadable filename tag w Hload) as (w1 & Hrun1 & Hs & _).
    rewrite Hrun1 in Hrun. injection Hrun as _ <-.
    unfold registry_ok. rewrite Hs. lia.
Qed.

(** ** Lookups by tag *)

Lemma index_of_absent (tag : string) (tags : list string) :
  ~ In tag tags -> index_of tag tags = None.
Proof.
  induction tags as [|t tags IH]; intros H; [reflexivity|].
  cbn. destruct (String.eqb_spec t tag) as [->|_].
  - exfalso. apply H. now left.
  - rewrite IH; [reflexivity|]. intros Hin. apply H. now right.
Qed.

Lemma index_of_NoDup (tags : list string) (i : nat) (tag : string) :
  NoDup tags -> tags !! i = Some tag -> index_of tag tags = Some i.
Proof.
  intros Hnd. revert i. induction Hnd as [|t tags Hnotin Hnd IH]; intros i Hi.
  - discriminate.
  - destruct i as [|i]; cbn in Hi |- *.
    + injection Hi as ->. now rewrite String.eqb_refl.
    + destruct (String.eqb_spec t tag) as [->|_].
      * exfalso. apply Hnotin. apply list_elem_of_lookup_2 in Hi.
        first [exact Hi | now apply list_elem_of_In].
      * now rewrite (IH _ Hi).
Qed.

Lemma find_tagged_absent (tag : string) (l : list TEXTURE_INFO) :
  ~ In tag (map tex_tag l) -> find (tagged tag) l = None.
Proof.
  induction l as [|e l IH]; intros H; [reflexivity|].
  cbn. unfold tagged at 1. destruct (String.eqb_spec (tex_tag e) tag) as [Heq|_].
  - exfalso. apply H. now left.
  - apply IH. intros Hin. apply H. now right.
Qed.

Section Lookup.
Variable tag : string.
Variable w : World.

Lemma FindTextureSlot_while_scan (n : nat) (index textureSlot : Z) :
  0 <= index ->
  index + Z.of_nat n <= Z.of_nat (length (m_textureIDs (scene w))) ->
  FindTextureSlot_while n tag index textureSlot w =
  Done (match index_of tag (map tex_tag (take n (drop (Z.to_nat index) (m_textureIDs (scene w))))) with
        | Some k => index + Z.of_nat k
        | None => textureSlot
        end) w.
Proof.
  revert index. induction n as [|n IH]; intros index H0 Hn.
  - now rewrite take_0.
  - destruct (lookup_lt_is_Some_2 (m_textureIDs (scene w)) (Z.to_nat index)) as [e He]; [lia|].
    cbn [FindTextureSlot_while].
    erewrite bind_Done by (apply textureIDs_at_inside; [lia | exact He]). cbv beta.
    rewrite (drop_S _ _ _ He). cbn [take map index_of].
    destruct (String.eqb (tex_tag e) tag).
    + now rewrite Z.add_0_r.
    + rewrite IH by lia.
      replace (Z.to_nat (index + 1)) with (S (Z.to_nat index)) by lia.
      destruct (index_of tag _); cbn; [|reflexivity].
      f_equal. lia.
Qed.

Lemma FindTextureID_while_scan (n : nat) (index textureID : Z) :
  0 <= index ->
  index + Z.of_nat n <= Z.of_nat (length (m_textureIDs (scene w))) ->
  FindTextureID_while n tag index textureID w =
  Done (match find (tagged tag) (take n (drop (Z.to_nat index) (m_textureIDs (scene w)))) with
        | Some e => int_of_GLuint (tex_ID e)
        | None => textureID
        end) w.
Proof.
  revert index. induction n as [|n IH]; intros index H0 Hn.
  - now rewrite take_0.
  - destruct (lookup_lt_is_Some_2 (m_textureIDs (scene w)) (Z.to_nat index)) as [e He]; [lia|].
    cbn [FindTextureID_while].
    erewrite bind_Done by (apply textureIDs_at_inside; [lia | exact He]). cbv beta.
    rewrite (drop_S _ _ _ He). cbn [take find]. unfold tagged at 1.
    destruct (String.eqb (tex_tag e) tag); [reflexivity|].
    rewrite IH by lia.
    now replace (Z.to_nat (index + 1)) with (S (Z.to_nat index)) by lia.
Qed.

Hypothesis Hok : registry_ok (scene w).

(** FindTextureSlot returns the position of the first registered entry
    carrying the tag, and -1 when there is none. *)
Lemma FindTextureSlot_eq :
  FindTextureSlot tag w =
  Done (match index_of tag (texture_tags (scene w)) with
        | Some k => Z.of_nat k
        | None => -1
        end) w.
Proof.
  destruct Hok as [H0 Hn]. unfold FindTextureSlot. step.
  rewrite FindTextureSlot_while_scan by lia.
  rewrite Z.sub_0_r. cbn [Z.to_nat]. now rewrite drop_0.
Qed.

Lemma FindTextureID_eq :
  FindTextureID tag w =
  Done (match find (tagged tag) (registered (scene w)) with
        | Some e => int_of_GLuint (tex_ID e)
        | None => -1
        end) w.
Proof.
  destruct Hok as [H0 Hn]. unfold FindTextureID. step.
  rewrite FindTextureID_while_scan by lia.
  rewrite Z.sub_0_r. cbn [Z.to_nat]. now rewrite drop_0.
Qed.
End Lookup.

(** ** Slots follow the registration order *)

Lemma registered_none (s : SceneManager) :
  m_loadedTextures s = 0 -> registered s = [].
Proof. intros H. unfold registered. now rewrite H. Qed.

(** C6: starting with no texture registered, a run of registrations whose
    successful ones carry distinct tags (and fit the array) gives the k-th
    successful registration slot k: FindTextureSlot on its tag returns k. *)
Theorem registration_slots_sequential (regs : list (string * string)) (w : World) :
  let loaded := loaded_of (stbi_files (stb w)) regs in
  m_loadedTextures (scene w) = 0 ->
  (length loaded <= length (m_textureIDs (scene w)))%nat ->
  NoDup (map snd loaded) ->
  exists w' : World,
    CreateGLTexture_each regs w
      = Done (map (fun r => loadable (stbi_files (stb w)) (fst r)) regs) w' /\
    m_loadedTextures (scene w') = Z.of_nat (length loaded) /\
    texture_tags (scene w') = map snd loaded /\
    forall (k : nat) (tag : string),
      map snd loaded !! k = Some tag ->
      FindTextureSlot tag w' = Done (Z.of_nat k) w'.
Proof.
  intros loaded Hzero Hcap Hnd.
  destruct (CreateGLTexture_each_run regs w) as (w' & Hrun & Hc & Hl & Ht & _).
  { lia. }
  { fold loaded. lia. }
  fold loaded in Hc, Ht.
  unfold texture_tags at 2 in Ht. rewrite (registered_none _ Hzero) in Ht. cbn in Ht.
  exists w'. split; [exact Hrun|]. split; [lia|]. split; [exact Ht|].
  intros k tag Hk.
  rewrite FindTextureSlot_eq by (unfold registry_ok; lia).
  now rewrite Ht, (index_of_NoDup _ _ _ Hnd Hk).
Qed.

Lemma registration_slots_sequential_witness :
  exists w' : World,
    CreateGLTexture_each regs_three (World_new pShaderManager disk_three)
      = Done [true; false; true; true] w' /\
    m_loadedTextures (scene w') = 3 /\
    texture_tags (scene w') = ["floor"; "walls"; "metal"] /\
    forall (k : nat) (tag : string),
      ["floor"; "walls"; "metal"] !! k = Some tag ->
      FindTextureSlot tag w' = Done (Z.of_nat k) w'.
Proof.
  apply (registration_slots_sequential regs_three (World_new pShaderManager disk_three)).
  - reflexivity.
  - vm_compute. lia.
  - apply (bool_decide_unpack _). vm_compute. exact I.
Defined.

(** ** Lookup misses *)

(** C7: for a tag no registered texture carries, FindTextureSlot and
    FindTextureID return -1, and SetShaderTexture (shader manager attached)
    sets bUseTexture to true and hands -1 to the sampler uniform. *)
Theorem unregistered_tag_sentinel (tag : string) (w : World) :
  registry_ok (scene w) ->
  ~ In tag (texture_tags (scene w)) ->
  FindTextureSlot tag w = Done (-1) w /\
  FindTextureID tag w = Done (-1) w /\
  (m_pShaderManager (scene w) = pShaderManager ->
   SetShaderTexture tag w =
   Done tt (with_shader (fun calls => calls ++ [setIntValue "bUseTexture" 1;
                                                 setSampler2DValue "objectTexture" (-1)]) w)).
Proof.
  intros Hok Habsent.
  assert (Hslot : forall w1, scene w1 = scene w -> FindTextureSlot tag w1 = Done (-1) w1).
  { intros w1 Hs. rewrite FindTextureSlot_eq by now rewrite Hs.
    now rewrite Hs, (index_of_absent _ _ Habsent). }
  split; [now apply Hslot|]. split.
  - rewrite FindTextureID_eq by exact Hok.
    now rewrite (find_tagged_absent _ _ Habsent).
  - intros Hp. unfold SetShaderTexture. step. rewrite Hp.
    erewrite bind_Done by (now apply via_pShaderManager_set). cbv beta.
    erewrite bind_Done by (now apply Hslot). cbv beta.
    rewrite via_pShaderManager_set by exact Hp.
    unfold with_shader. cbn. now rewrite <- app_assoc.
Qed.

Lemma unregistered_tag_sentinel_witness :
  let w := World_new pShaderManager disk_empty in
  FindTextureSlot "floor" w = Done (-1) w /\
  FindTextureID "floor" w = Done (-1) w /\
  SetShaderTexture "floor" w =
  Done tt (with_shader (fun calls => calls ++ [setIntValue "bUseTexture" 1;
                                                setSampler2DValue "objectTexture" (-1)]) w).
Proof.
  destruct (unregistered_tag_sentinel "floor" (World_new pShaderManager disk_empty))
    as (Hslot & Hid & Hshader).
  - unfold registry_ok. simpl. lia.
  - simpl. tauto.
  - split; [exact Hslot|]. split; [exact Hid|]. apply Hshader. reflexivity.
Defined.

(** ** No capacity check *)

(** C8 fails on the code: sixteen registrations fill slots 0 to 15, and the
    seventeenth is not refused but indexes the array at 16, past its end. *)
Theorem seventeenth_registration_out_of_bounds :
  (exists w16 : World,
      world_sixteen = Done (replicate 16 true) w16 /\
      m_loadedTextures (scene w16) = 16 /\
      length (m_textureIDs (scene w16)) = MAX_TEXTURE_SLOTS /\
      CreateGLTexture "textures/t.png" "t16" w16 = Crash (OutOfBounds 16)) /\
  CreateGLTexture_each seventeen_textures (World_new pShaderManager disk_all_rgb)
  = Crash (OutOfBounds 16).
Proof.
  split.
  - eexists. split; [vm_compute; reflexivity|].
    split; [reflexivity|]. split; reflexivity.
  - vm_compute. reflexivity.
Qed.

(** ** The loops over the registered textures *)

Lemma BindGLTextures_body (i : Z) (w : World) :
  0 <= i < Z.of_nat (length (m_textureIDs (scene w))) ->
  exists w' : World,
    (gl_do (glActiveTexture (GL_TEXTURE0_plus i));;
     e ← textureIDs_at i;
     gl_do (glBindTexture GL_TEXTURE_2D (tex_ID e))) w = Done tt w' /\
    scene w' = scene w /\ shader w' = shader w.
Proof.
  intros Hi.
  destruct (lookup_lt_is_Some_2 (m_textureIDs (scene w)) (Z.to_nat i)) as [e He]; [lia|].
  step. erewrite bind_Done by (apply textureIDs_at_inside; [lia | exact He]).
  eexists. split; [reflexivity|]. split; reflexivity.
Qed.

Lemma BindGLTextures_loop (n : nat) (i : Z) (w : World) :
  0 <= i ->
  i + Z.of_nat n <= Z.of_nat (length (m_textureIDs (scene w))) ->
  exists w' : World,
    for_from n i (fun i =>
      gl_do (glActiveTexture (GL_TEXTURE0_plus i));;
      e ← textureIDs_at i;
      gl_do (glBindTexture GL_TEXTURE_2D (tex_ID e))) w = Done tt w' /\
    scene w' = scene w /\ shader w' = shader w.
Proof.
  revert i w. induction n as [|n IH]; intros i w H0 Hn.
  - exists w. now repeat split.
  - destruct (BindGLTextures_body i w) as (w1 & Hrun & Hs & Hsh); [lia|].
    destruct (IH (i + 1) w1) as (w' & Hrun' & Hs' & Hsh'); [lia | rewrite Hs; lia |].
    exists w'. split; [|split; congruence].
    cbn [for_from]. erewrite bind_Done by exact Hrun. exact Hrun'.
Qed.

Lemma BindGLTextures_frame (w : World) :
  registry_ok (scene w) ->
  exists w' : World,
    BindGLTextures w = Done tt w' /\ scene w' = scene w /\ shader w' = shader w.
Proof.
  intros [H0 Hn]. unfold BindGLTextures. step.
  apply BindGLTextures_loop; lia.
Qed.

Lemma map_tex_tag_insert (l : list TEXTURE_INFO) (i : nat) (e : TEXTURE_INFO) (name : Z) :
  l !! i = Some e ->
  map tex_tag (<[i := mk_TEXTURE_INFO (tex_tag e) name]> l) = map tex_tag l.
Proof.
  revert i. induction l as [|x l IH]; intros [|i] H; try discriminate.
  - injection H as ->. reflexivity.
  - cbn. f_equal. now apply IH.
Qed.

Lemma DestroyGLTextures_body_run (i : nat) (e : TEXTURE_INFO) (w : World) :
  m_textureIDs (scene w) !! i = Some e ->
  exists w' : World,
    DestroyGLTextures_body (Z.of_nat i) w = Done tt w' /\
    m_textureIDs (scene w') =
      <[i := mk_TEXTURE_INFO (tex_tag e) (gl_next_name (gl w))]> (m_textureIDs (scene w)) /\
    m_loadedTextures (scene w') = m_loadedTextures (scene w) /\
    gl_next_name (gl w') = gl_next_name (gl w) + 1 /\
    gl_calls (gl w') = gl_calls (gl w) ++ [glGenTextures 1 (gl_next_name (gl w))] /\
    same_outside_textures w w'.
Proof.
  intros He. unfold DestroyGLTextures_body.
  erewrite bind_Done by (apply textureIDs_at_inside; [lia | rewrite Nat2Z.id; exact He]).
  cbv beta. unfold gl_GenTextures1. repeat step.
  rewrite (textureIDs_update_inside _ _ e); [|lia | rewrite Nat2Z.id; exact He].
  rewrite Nat2Z.id. eexists. split; [reflexivity|]. cbn. now repeat split.
Qed.

Lemma DestroyGLTextures_loop (n i : nat) (w : World) :
  (i + n <= length (m_textureIDs (scene w)))%nat ->
  exists w' : World,
    for_from n (Z.of_nat i) DestroyGLTextures_body w = Done tt w' /\
    (forall k : nat, (k < i \/ i + n <= k)%nat ->
        m_textureIDs (scene w') !! k = m_textureIDs (scene w) !! k) /\
    (forall k : nat, (i <= k < i + n)%nat ->
        exists e, m_textureIDs (scene w') !! k = Some e /\
                  tex_ID e = gl_next_name (gl w) + Z.of_nat (k - i)) /\
    map tex_tag (m_textureIDs (scene w')) = map tex_tag (m_textureIDs (scene w)) /\
    m_loadedTextures (scene w') = m_loadedTextures (scene w) /\
    gl_next_name (gl w') = gl_next_name (gl w) + Z.of_nat n /\
    gl_calls (gl w') =
      gl_calls (gl w) ++ map (glGenTextures 1) (seqZ (gl_next_name (gl w)) (Z.of_nat n)) /\
    same_outside_textures w w'.
Proof.
  revert i w. induction n as [|n IH]; intros i w Hn.
  - exists w. cbn. rewrite app_nil_r, Z.add_0_r.
    repeat split; try reflexivity. intros k Hk. lia.
  - destruct (lookup_lt_is_Some_2 (m_textureIDs (scene w)) i) as [e He]; [lia|].
    destruct (DestroyGLTextures_body_run i e w He) as (w1 & Hrun & Ha & Hc & Hg & Hcalls & Hs).
    destruct (IH (S i) w1) as (w' & Hrun' & Hout & Hin & Htags & Hc' & Hg' & Hcalls' & Hs').
    { rewrite Ha, length_insert. lia. }
    exists w'. split; [|split; [|split; [|split; [|split; [|split; [|split]]]]]].
    + cbn [for_from]. erewrite bind_Done by exact Hrun.
      replace (Z.of_nat i + 1) with (Z.of_nat (S i)) by lia. exact Hrun'.
    + intros k Hk. rewrite Hout by lia. rewrite Ha.
      apply list_lookup_insert_ne. lia.
    + intros k Hk. destruct (decide (k = i)) as [->|Hne].
      * rewrite Hout by lia. rewrite Ha.
        rewrite list_lookup_insert_eq by (now apply lookup_lt_Some in He).
        eexists. split; [reflexivity|]. cbn. lia.
      * destruct (Hin k) as (e' & He' & Hid); [lia|].
        exists e'. split; [exact He'|]. rewrite Hid, Hg. lia.
    + rewrite Htags, Ha. now apply map_tex_tag_insert.
    + congruence.
    + rewrite Hg', Hg. lia.
    + rewrite Hcalls', Hcalls, Hg, <- app_assoc. f_equal.
      rewrite (seqZ_cons _ (Z.of_nat (S n))) by lia. cbn [map app]. do 3 f_equal; lia.
    + eapply same_outside_textures_trans; eassumption.
Qed.

(** C10: DestroyGLTextures keeps the counter and every tag; it issues one
    glGenTextures call per registered entry and stores the generated name
    as that entry's ID; it issues no glDeleteTextures call. *)
Theorem DestroyGLTextures_generates_not_deletes (w : World) :
  registry_ok (scene w) ->
  exists w' : World,
    DestroyGLTextures w = Done tt w' /\
    m_loadedTextures (scene w') = m_loadedTextures (scene w) /\
    map tex_tag (m_textureIDs (scene w')) = map tex_tag (m_textureIDs (scene w)) /\
    texture_tags (scene w') = texture_tags (scene w) /\
    (let names := seqZ (gl_next_name (gl w)) (m_loadedTextures (scene w)) in
     let issued := drop (length (gl_calls (gl w))) (gl_calls (gl w')) in
     gl_calls (gl w') = gl_calls (gl w) ++ issued /\
     issued = map (glGenTextures 1) names /\
     map tex_ID (registered (scene w')) = names /\
     forall (n name : Z), ~ In (glDeleteTextures n name) issued).
Proof.
  intros [H0 Hn].
  destruct (DestroyGLTextures_loop (Z.to_nat (m_loadedTextures (scene w))) 0 w)
    as (w' & Hrun & _ & Hin & Htags & Hc & _ & Hcalls & _); [lia|].
  rewrite Z2Nat.id in Hcalls by exact H0.
  exists w'. split; [|split; [|split; [|split]]].
  - unfold DestroyGLTextures. step. exact Hrun.
  - exact Hc.
  - exact Htags.
  - unfold texture_tags, registered. now rewrite Hc, <- !firstn_map, Htags.
  - cbv zeta. rewrite Hcalls, drop_app_length.
    split; [reflexivity|]. split; [reflexivity|]. split.
    + unfold registered. rewrite Hc.
      change (map tex_ID ?l) with (tex_ID <$> l).
      apply list_eq. intros k. rewrite list_lookup_fmap.
      destruct (decide (k < Z.to_nat (m_loadedTextures (scene w)))%nat) as [Hk|Hk].
      * rewrite lookup_take_lt by exact Hk.
        destruct (Hin k) as (e & -> & Hid); [lia|]. cbn.
        rewrite lookup_seqZ_lt by lia. f_equal. rewrite Hid. f_equal. lia.
      * rewrite lookup_take_ge by lia. cbn.
        symmetry. apply lookup_seqZ_ge. lia.
    + intros n name Hd. apply in_map_iff in Hd as (x & Hx & _). discriminate.
Qed.

Lemma DestroyGLTextures_generates_not_deletes_witness :
  exists w' : World,
    DestroyGLTextures world_two_textures = Done tt w' /\
    m_loadedTextures (scene w') = 2 /\
    map tex_tag (m_textureIDs (scene w'))
      = map tex_tag (m_textureIDs (scene world_two_textures)) /\
    texture_tags (scene w') = ["floor"; "walls"] /\
    (let names := seqZ 3 2 in
     let issued := drop (length (gl_calls (gl world_two_textures))) (gl_calls (gl w')) in
     gl_calls (gl w') = gl_calls (gl world_two_textures) ++ issued /\
     issued = map (glGenTextures 1) names /\
     map tex_ID (registered (scene w')) = names /\
     forall (n name : Z), ~ In (glDeleteTextures n name) issued).
Proof.
  apply (DestroyGLTextures_generates_not_deletes world_two_textures).
  unfold registry_ok. vm_compute. split; discriminate.
Defined.

(** ** PrepareScene *)

Lemma LoadSceneTextures_each (w : World) :
  LoadSceneTextures w = (CreateGLTexture_each scene_textures;; BindGLTextures) w.
Proof.
  unfold LoadSceneTextures, scene_textures. cbn [CreateGLTexture_each].
  unfold mbind, M_bind, bind, mret, M_ret, ret.
  repeat match goal with
         | |- context [CreateGLTexture ?f ?t ?w0] =>
             destruct (CreateGLTexture f t w0); [|reflexivity]
         end.
  reflexivity.
Qed.

Lemma SetupSceneLights_attached (w : World) :
  m_pShaderManager (scene w) = pShaderManager ->
  SetupSceneLights w = Done tt (with_shader (fun calls => calls ++ scene_lights) w).
Proof.
  intros Hp. unfold SetupSceneLights.
  erewrite bind_Done by (apply via_pShaderManager_set; exact Hp). cbv beta.
  repeat (erewrite bind_Done by (apply via_pShaderManager_set; exact Hp);
          cbv beta; rewrite with_shader_fuse).
  rewrite via_pShaderManager_set by exact Hp. rewrite with_shader_fuse.
  f_equal. unfold with_shader. f_equal.
  unfold scene_lights. cbn [app]. now rewrite <- !app_assoc.
Qed.


(** C9: PrepareScene on a freshly constructed object, with the shader
    manager attached and the seven texture files decoding to 3- or
    4-channel images, ends with exactly the seven texture tags and the four
    material tags registered, and with point lights 0 and 1, and no other,
    set active. *)
Theorem PrepareScene_registry (g : GLContext) (files : StbImage) (console : list ConsoleLine) :
  let w := mk_World (SceneManager_new pShaderManager) [] g files console in
  Forall (fun r => loadable (stbi_files files) (fst r) = true) scene_textures ->
  exists w' : World,
    PrepareScene w = Done tt w' /\
    m_loadedTextures (scene w') = 7 /\
    texture_tags (scene w')
      = ["floor"; "atlas-stone"; "walls"; "bench"; "metal"; "wood"; "dbell"] /\
    material_tags (scene w') = ["stoneMAT"; "metalMAT"; "woodMAT"; "rubberMAT"] /\
    active_pointLights (shader w') = ["pointLights[0].bActive"; "pointLights[1].bActive"] /\
    length (active_pointLights (shader w')) = 2%nat.
Proof.
  intros w Hfiles.
  assert (Hloaded : loaded_of (stbi_files (stb w)) scene_textures = scene_textures).
  { unfold loaded_of. apply forallb_filter_id, forallb_forall.
    intros r Hr. rewrite Forall_forall in Hfiles. apply Hfiles.
    now apply list_elem_of_In. }
  destruct (CreateGLTexture_each_run scene_textures w) as (w1 & Hrun & Hc & Hl & Ht & Hs).
  { cbn. lia. }
  { rewrite Hloaded. cbn. lia. }
  rewrite Hloaded in Hc, Ht. cbn in Hc, Ht.
  destruct (BindGLTextures_frame w1) as (w2 & Hbind & Hsc & Hsh).
  { unfold registry_ok. rewrite Hc, Hl. cbn. lia. }
  destruct Hs as [Hp Hm _ Hshader _]. cbn in Hp, Hm, Hshader.
  unfold PrepareScene.
  erewrite bind_Done; cycle 1.
  { rewrite LoadSceneTextures_each. erewrite bind_Done by exact Hrun. exact Hbind. }
  erewrite bind_Done by apply DefineObjectMaterials_eq.
  erewrite bind_Done by (apply SetupSceneLights_attached; cbn; congruence).
  repeat step.
  eexists. split; [reflexivity|]. cbn.
  rewrite Hsc, Hsh, Hshader. unfold texture_tags, registered, material_tags in *. cbn.
  rewrite Ht, Hm, Hc. now repeat split.
Qed.

Lemma PrepareScene_registry_witness :
  exists w' : World,
    PrepareScene (World_new pShaderManager disk_all_rgb) = Done tt w' /\
    m_loadedTextures (scene w') = 7 /\
    texture_tags (scene w')
      = ["floor"; "atlas-stone"; "walls"; "bench"; "metal"; "wood"; "dbell"] /\
    material_tags (scene w') = ["stoneMAT"; "metalMAT"; "woodMAT"; "rubberMAT"] /\
    active_pointLights (shader w') = ["pointLights[0].bActive"; "pointLights[1].bActive"] /\
    length (active_pointLights (shader w')) = 2%nat.
Proof.
  apply (PrepareScene_registry (mk_GLContext 1 []) (mk_StbImage false disk_all_rgb) []).
  apply (bool_decide_unpack _). vm_compute. exact I.
Defined.

(** * Further properties *)

(** ** First occurrences *)

Lemma index_of_Some (tag : string) (tags : list string) (k : nat) :
  index_of tag tags = Some k ->
  tags !! k = Some tag /\ forall j : nat, (j < k)%nat -> tags !! j <> Some tag.
Proof.
  revert k. induction tags as [|t tags IH]; intros k H; [discriminate|].
  cbn in H. destruct (String.eqb_spec t tag) as [->|Hne].
  - injection H as <-. split; [reflexivity|]. intros j Hj. lia.
  - destruct (index_of tag tags) as [k'|]; [|discriminate].
    injection H as <-. destruct (IH k' eq_refl) as [Hk Hfirst].
    split; [exact Hk|]. intros [|j] Hj; cbn.
    + intros [= Heq]. now apply Hne.
    + apply Hfirst. lia.
Qed.

Lemma index_of_None (tag : string) (tags : list string) :
  index_of tag tags = None <-> ~ In tag tags.
Proof.
  split; [|apply index_of_absent].
  induction tags as [|t tags IH]; intros H Hin; [destruct Hin|].
  cbn in H. destruct (String.eqb_spec t tag) as [->|Hne]; [discriminate|].
  destruct (index_of tag tags); [discriminate|].
  destruct Hin as [Heq|Hin]; [now apply Hne | now apply IH].
Qed.

Lemma index_of_app_present (tag : string) (tags more : list string) (k : nat) :
  index_of tag tags = Some k -> index_of tag (tags ++ more) = Some k.
Proof.
  revert k. induction tags as [|t tags IH]; intros k H; [discriminate|].
  cbn in H |- *. destruct (String.eqb t tag); [exact H|].
  destruct (index_of tag tags) as [k'|]; [|discriminate].
  now rewrite (IH k' eq_refl).
Qed.

Lemma index_of_app_absent (tag : string) (tags more : list string) :
  ~ In tag tags ->
  index_of tag (tags ++ more) = option_map (Nat.add (length tags)) (index_of tag more).
Proof.
  induction tags as [|t tags IH]; intros H.
  - cbn. now destruct (index_of tag more).
  - cbn. destruct (String.eqb_spec t tag) as [->|_].
    + exfalso. apply H. now left.
    + rewrite IH by (intros Hin; apply H; now right).
      now destruct (index_of tag more).
Qed.

Lemma find_tagged_app_present (tag : string) (l more : list TEXTURE_INFO) (e : TEXTURE_INFO) :
  find (tagged tag) l = Some e -> find (tagged tag) (l ++ more) = Some e.
Proof.
  induction l as [|x l IH]; intros H; [discriminate|].
  cbn in H |- *. destruct (tagged tag x); [exact H | now apply IH].
Qed.

Lemma find_tagged_app_absent (tag : string) (l more : list TEXTURE_INFO) :
  ~ In tag (map tex_tag l) -> find (tagged tag) (l ++ more) = find (tagged tag) more.
Proof.
  induction l as [|x l IH]; intros H; [reflexivity|].
  cbn. unfold tagged at 1. destruct (String.eqb_spec (tex_tag x) tag) as [Heq|_].
  - exfalso. apply H. now left.
  - apply IH. intros Hin. apply H. now right.
Qed.

Lemma find_tagged_present (tag : string) (l : list TEXTURE_INFO) :
  In tag (map tex_tag l) -> exists e, find (tagged tag) l = Some e.
Proof.
  induction l as [|x l IH]; intros H; [destruct H|].
  cbn. unfold tagged at 1. destruct (String.eqb_spec (tex_tag x) tag) as [Heq|Hne].
  - now exists x.
  - destruct H as [H|H]; [contradiction | now apply IH].
Qed.

Lemma int_of_GLuint_small (name : Z) :
  0 <= name < 2 ^ 31 -> int_of_GLuint name = name.
Proof.
  intros H. unfold int_of_GLuint.
  rewrite Z.mod_small by lia.
  destruct (Z.ltb_spec name (2 ^ 31)); [reflexivity | lia].
Qed.

Lemma length_registered (s : SceneManager) :
  registry_ok s -> length (registered s) = Z.to_nat (m_loadedTextures s).
Proof. intros [H0 Hn]. unfold registered. apply length_take_le. lia. Qed.

(** ** What a registration that returns has done *)

Lemma CreateGLTexture_Done (filename tag : string) (w w' : World) (bReturn : bool) :
  registry_ok (scene w) ->
  CreateGLTexture filename tag w = Done bReturn w' ->
  bReturn = loadable (stbi_files (stb w)) filename /\
  same_outside_textures w w' /\
  if bReturn
  then registers tag w w' /\
       m_loadedTextures (scene w) < Z.of_nat (length (m_textureIDs (scene w))) /\
       registered (scene w') =
         registered (scene w) ++ [mk_TEXTURE_INFO tag (gl_next_name (gl w))]
  else scene w' = scene w.
Proof.
  intros [H0 Hn] Hrun.
  destruct (loadable (stbi_files (stb w)) filename) eqn:Hload.
  - destruct (Z.ltb_spec (m_loadedTextures (scene w))
                         (Z.of_nat (length (m_textureIDs (scene w))))) as [Hlt|Hge].
    + destruct (CreateGLTexture_loadable filename tag w Hload) as (w1 & Hrun1 & Hreg & Hs);
        [lia|].
      rewrite Hrun1 in Hrun. injection Hrun as <- <-.
      split; [reflexivity|]. split; [exact Hs|].
      split; [exact Hreg|]. split; [exact Hlt|].
      apply registered_grows; [exact Hreg | lia].
    + rewrite (CreateGLTexture_array_full filename tag w Hload Hge) in Hrun. discriminate.
  - destruct (CreateGLTexture_not_loadable filename tag w Hload) as (w1 & Hrun1 & Hs & Hsame).
    rewrite Hrun1 in Hrun. injection Hrun as <- <-.
    split; [reflexivity|]. split; [exact Hsame | exact Hs].
Qed.

(** X1: a successful registration under a tag not registered before can be
    looked up at once: FindTextureSlot returns the slot the counter pointed
    at, FindTextureID the texture name glGenTextures handed out. *)
Theorem CreateGLTexture_then_lookup (filename tag : string) (w : World) :
  0 <= m_loadedTextures (scene w) < Z.of_nat (length (m_textureIDs (scene w))) ->
  loadable (stbi_files (stb w)) filename = true ->
  ~ In tag (texture_tags (scene w)) ->
  0 <= gl_next_name (gl w) < 2 ^ 31 ->
  exists w' : World,
    CreateGLTexture filename tag w = Done true w' /\
    FindTextureSlot tag w' = Done (m_loadedTextures (scene w)) w' /\
    FindTextureID tag w' = Done (gl_next_name (gl w)) w'.
Proof.
  intros Hn Hload Hnew Hname.
  destruct (CreateGLTexture_loadable filename tag w Hload Hn) as (w' & Hrun & Hreg & _).
  pose proof (registered_grows _ _ _ Hreg Hn) as Hgrow.
  assert (Hok' : registry_ok (scene w')).
  { destruct Hreg as [Ha Hc _]. unfold registry_ok. rewrite Ha, Hc, length_insert. lia. }
  exists w'. split; [exact Hrun|]. split.
  - rewrite FindTextureSlot_eq by exact Hok'.
    unfold texture_tags. rewrite Hgrow, map_app.
    rewrite index_of_app_absent by exact Hnew. cbn. rewrite String.eqb_refl. cbn.
    f_equal. rewrite length_map, length_registered by (unfold registry_ok; lia). lia.
  - rewrite FindTextureID_eq by exact Hok'.
    rewrite Hgrow, find_tagged_app_absent by exact Hnew. cbn.
    unfold tagged. cbn. rewrite String.eqb_refl.
    now rewrite int_of_GLuint_small.
Qed.

Lemma CreateGLTexture_then_lookup_witness :
  exists w' : World,
    CreateGLTexture "textures/c.png" "metal" world_two_textures = Done true w' /\
    FindTextureSlot "metal" w' = Done 2 w' /\
    FindTextureID "metal" w' = Done 3 w'.
Proof.
  apply (CreateGLTexture_then_lookup "textures/c.png" "metal" world_two_textures).
  - vm_compute. split; [discriminate | reflexivity].
  - reflexivity.
  - vm_compute. intros [H|[H|[]]]; discriminate.
  - vm_compute. split; [discriminate | reflexivity].
Defined.

(** X2: a registration that returns, successful or not, changes the answer
    of neither lookup for any tag registered before; registering a tag a
    second time leaves the first registration the one that is found. *)
Theorem CreateGLTexture_keeps_lookups
        (filename tag tag' : string) (w w' : World) (bReturn : bool) :
  registry_ok (scene w) ->
  CreateGLTexture filename tag w = Done bReturn w' ->
  In tag' (texture_tags (scene w)) ->
  exists slot id : Z,
    FindTextureSlot tag' w = Done slot w /\
    FindTextureSlot tag' w' = Done slot w' /\
    FindTextureID tag' w = Done id w /\
    FindTextureID tag' w' = Done id w' /\
    0 <= slot < m_loadedTextures (scene w).
Proof.
  intros Hok Hrun Hin.
  pose proof (CreateGLTexture_registry_ok _ _ _ _ _ Hok Hrun) as Hok'.
  destruct (CreateGLTexture_Done _ _ _ _ _ Hok Hrun) as (_ & _ & Hcases).
  destruct (index_of tag' (texture_tags (scene w))) as [k|] eqn:Hk;
    [|now apply index_of_None in Hk].
  destruct (find_tagged_present tag' (registered (scene w)) Hin) as [e He].
  exists (Z.of_nat k), (int_of_GLuint (tex_ID e)).
  rewrite !FindTextureSlot_eq, !FindTextureID_eq by assumption.
  rewrite Hk, He.
  assert (Hrange : 0 <= Z.of_nat k < m_loadedTextures (scene w)).
  { apply index_of_Some in Hk as [Hk _]. apply lookup_lt_Some in Hk.
    unfold texture_tags in Hk. rewrite length_map, length_registered in Hk by exact Hok.
    destruct Hok. lia. }
  destruct bReturn.
  - destruct Hcases as (_ & _ & Hgrow).
    unfold texture_tags. rewrite Hgrow, map_app.
    rewrite (index_of_app_present _ _ _ _ Hk), (find_tagged_app_present _ _ _ _ He).
    now repeat split.
  - rewrite Hcases, Hk, He. now repeat split.
Qed.

Lemma CreateGLTexture_keeps_lookups_witness :
  exists slot id : Z,
    FindTextureSlot "floor" world_two_textures = Done slot world_two_textures /\
    (exists w', CreateGLTexture "textures/again.png" "floor" world_two_textures = Done true w' /\
                FindTextureSlot "floor" w' = Done slot w' /\
                FindTextureID "floor" w' = Done id w') /\
    slot = 0 /\ id = 1.
Proof.
  destruct (CreateGLTexture_loadable "textures/again.png" "floor" world_two_textures)
    as (w' & Hrun & _); [reflexivity | vm_compute; split; [discriminate | reflexivity] |].
  destruct (CreateGLTexture_keeps_lookups
              "textures/again.png" "floor" "floor" world_two_textures w' true)
    as (slot & id & H1 & H2 & H3 & H4 & _).
  - vm_compute. split; discriminate.
  - exact Hrun.
  - vm_compute. now left.
  - exists slot, id. split; [exact H1|]. split.
    + exists w'. split; [exact Hrun|]. split; [exact H2 | exact H4].
    + vm_compute in H1, H3. injection H1 as <-. injection H3 as <-. split; reflexivity.
Defined.

(** X3: on a registry whose counter lies within the array FindTextureSlot
    returns without touching the state; the result is -1 exactly when no
    registered entry carries the tag, and otherwise the index, below the
    counter, of the first entry that does. *)
Theorem FindTextureSlot_first_entry (tag : string) (w : World) :
  registry_ok (scene w) ->
  exists slot : Z,
    FindTextureSlot tag w = Done slot w /\
    (slot = -1 <-> ~ In tag (texture_tags (scene w))) /\
    (slot <> -1 ->
     0 <= slot < m_loadedTextures (scene w) /\
     (exists e, m_textureIDs (scene w) !! Z.to_nat slot = Some e /\ tex_tag e = tag) /\
     forall (j : nat) (e : TEXTURE_INFO),
       Z.of_nat j < slot -> m_textureIDs (scene w) !! j = Some e -> tex_tag e <> tag).
Proof.
  intros Hok. rewrite FindTextureSlot_eq by exact Hok.
  destruct (index_of tag (texture_tags (scene w))) as [k|] eqn:Hk.
  - exists (Z.of_nat k). split; [reflexivity|].
    destruct (index_of_Some _ _ _ Hk) as [Hat Hfirst].
    assert (Hlt : (k < Z.to_nat (m_loadedTextures (scene w)))%nat).
    { apply lookup_lt_Some in Hat. unfold texture_tags in Hat.
      now rewrite length_map, length_registered in Hat. }
    assert (Hlook : forall j : nat, (j <= k)%nat ->
              texture_tags (scene w) !! j = tex_tag <$> (m_textureIDs (scene w) !! j)).
    { intros j Hj. unfold texture_tags, registered.
      change (map tex_tag ?l) with (tex_tag <$> l).
      rewrite list_lookup_fmap, lookup_take_lt by lia. reflexivity. }
    split; [|intros _; split; [|split]].
    + split; [lia|]. intros Hnot. apply index_of_None in Hnot. congruence.
    + destruct Hok. lia.
    + rewrite Nat2Z.id. rewrite Hlook in Hat by lia.
      destruct (m_textureIDs (scene w) !! k) as [e|]; [|discriminate].
      exists e. split; [reflexivity|]. now injection Hat.
    + intros j e Hj He Htag. apply (Hfirst j); [lia|].
      rewrite Hlook by lia. rewrite He. cbn. now rewrite Htag.
  - exists (-1). split; [reflexivity|]. split.
    + split; [intros _; now apply index_of_None | reflexivity].
    + intros H. now destruct H.
Qed.

Lemma FindTextureSlot_first_entry_witness :
  exists slot : Z,
    FindTextureSlot "walls" world_two_textures = Done slot world_two_textures /\
    (slot = -1 <-> ~ In "walls" ["floor"; "walls"]) /\
    (slot <> -1 ->
     0 <= slot < 2 /\
     (exists e, m_textureIDs (scene world_two_textures) !! Z.to_nat slot = Some e /\
                tex_tag e = "walls") /\
     forall (j : nat) (e : TEXTURE_INFO),
       Z.of_nat j < slot ->
       m_textureIDs (scene world_two_textures) !! j = Some e -> tex_tag e <> "walls").
Proof.
  apply (FindTextureSlot_first_entry "walls" world_two_textures).
  vm_compute. split; discriminate.
Defined.



(** X5: when stbi_load fails CreateGLTexture returns false having made no
    GL call: the GL context, the scene manager and the shader are as
    before, and the console got the "Could not load image" line. *)
Theorem CreateGLTexture_missing_file (filename tag : string) (w : World) :
  stbi_files (stb w) filename = None ->
  exists w' : World,
    CreateGLTexture filename tag w = Done false w' /\
    gl w' = gl w /\ scene w' = scene w /\ shader w' = shader w /\
    cout w' = cout w ++ [Could_not_load_image filename].
Proof.
  intros Hfile. rewrite (CreateGLTexture_undecoded _ _ _ Hfile).
  eexists. split; [reflexivity|]. now repeat split.
Qed.

Lemma CreateGLTexture_missing_file_witness :
  exists w' : World,
    CreateGLTexture "textures/missing.png" "ghost" (World_new pShaderManager disk_three)
      = Done false w' /\
    gl w' = mk_GLContext 1 [] /\ scene w' = SceneManager_new pShaderManager /\
    shader w' = [] /\ cout w' = [Could_not_load_image "textures/missing.png"].
Proof.
  apply (CreateGLTexture_missing_file
           "textures/missing.png" "ghost" (World_new pShaderManager disk_three)).
  reflexivity.
Defined.

(** X6: on an image with an unsupported channel count CreateGLTexture has
    already generated a texture name and bound it when it returns false:
    the calls it leaves in the GL context are glGenTextures, glBindTexture
    of that name and the four glTexParameteri; the name is neither unbound
    nor deleted, and no image is uploaded. *)
Theorem CreateGLTexture_unsupported_leaves_bound
        (filename tag : string) (image : stbi_image) (w : World) :
  stbi_files (stb w) filename = Some image ->
  img_channels image <> 3 ->
  img_channels image <> 4 ->
  exists w' : World,
    CreateGLTexture filename tag w = Done false w' /\
    gl_next_name (gl w') = gl_next_name (gl w) + 1 /\
    gl_calls (gl w') =
      gl_calls (gl w) ++
      [glGenTextures 1 (gl_next_name (gl w));
       glBindTexture GL_TEXTURE_2D (gl_next_name (gl w));
       glTexParameteri GL_TEXTURE_2D GL_TEXTURE_WRAP_S GL_REPEAT;
       glTexParameteri GL_TEXTURE_2D GL_TEXTURE_WRAP_T GL_REPEAT;
       glTexParameteri GL_TEXTURE_2D GL_TEXTURE_MIN_FILTER GL_LINEAR;
       glTexParameteri GL_TEXTURE_2D GL_TEXTURE_MAG_FILTER GL_LINEAR] /\
    cout w' = cout w ++ [Successfully_loaded_image filename (img_width image)
                           (img_height image) (img_channels image);
                         Not_implemented_to_handle_image (img_channels image)].
Proof.
  intros Hfile H3 H4. rewrite (CreateGLTexture_decoded _ _ _ _ Hfile). cbv zeta.
  destruct (Z.eqb_spec (img_channels image) 3) as [|_]; [contradiction|].
  destruct (Z.eqb_spec (img_channels image) 4) as [|_]; [contradiction|].
  eexists. split; [reflexivity|]. cbn. rewrite <- app_assoc. now repeat split.
Qed.

Lemma CreateGLTexture_unsupported_leaves_bound_witness :
  exists w' : World,
    CreateGLTexture "textures/grey.png" "grey" world_grey_disk = Done false w' /\
    gl_next_name (gl w') = 2 /\
    gl_calls (gl w') =
      [glGenTextures 1 1;
       glBindTexture GL_TEXTURE_2D 1;
       glTexParameteri GL_TEXTURE_2D GL_TEXTURE_WRAP_S GL_REPEAT;
       glTexParameteri GL_TEXTURE_2D GL_TEXTURE_WRAP_T GL_REPEAT;
       glTexParameteri GL_TEXTURE_2D GL_TEXTURE_MIN_FILTER GL_LINEAR;
       glTexParameteri GL_TEXTURE_2D GL_TEXTURE_MAG_FILTER GL_LINEAR] /\
    cout w' = [Successfully_loaded_image "textures/grey.png" 2 2 1;
               Not_implemented_to_handle_image 1].
Proof.
  apply (CreateGLTexture_unsupported_leaves_bound
           "textures/grey.png" "grey" grey_2x2 world_grey_disk).
  - reflexivity.
  - simpl. lia.
  - simpl. lia.
Defined.

(** ** Binding and regenerating *)

Lemma BindGLTextures_body_calls (i : Z) (e : TEXTURE_INFO) (w : World) :
  0 <= i ->
  m_textureIDs (scene w) !! Z.to_nat i = Some e ->
  (gl_do (glActiveTexture (GL_TEXTURE0_plus i));;
   e ← textureIDs_at i;
   gl_do (glBindTexture GL_TEXTURE_2D (tex_ID e))) w
  = Done tt (with_gl (fun g => mk_GLContext (gl_next_name g)
       (gl_calls g ++ [glActiveTexture (GL_TEXTURE0_plus i);
                       glBindTexture GL_TEXTURE_2D (tex_ID e)])) w).
Proof.
  intros Hi He. unfold gl_do. step.
  erewrite bind_Done by (apply textureIDs_at_inside; [lia | exact He]).
  cbv beta. unfold modify. now rewrite gl_calls_fuse.
Qed.

Lemma BindGLTextures_loop_calls (n : nat) (i : Z) (w : World) :
  0 <= i ->
  i + Z.of_nat n <= Z.of_nat (length (m_textureIDs (scene w))) ->
  exists w' : World,
    for_from n i (fun i =>
      gl_do (glActiveTexture (GL_TEXTURE0_plus i));;
      e ← textureIDs_at i;
      gl_do (glBindTexture GL_TEXTURE_2D (tex_ID e))) w = Done tt w' /\
    scene w' = scene w /\ shader w' = shader w /\ stb w' = stb w /\ cout w' = cout w /\
    gl_next_name (gl w') = gl_next_name (gl w) /\
    gl_calls (gl w') =
      gl_calls (gl w) ++ bind_calls i (take n (drop (Z.to_nat i) (m_textureIDs (scene w)))).
Proof.
  revert i w. induction n as [|n IH]; intros i w H0 Hn.
  - exists w. cbn. rewrite app_nil_r. now repeat split.
  - destruct (lookup_lt_is_Some_2 (m_textureIDs (scene w)) (Z.to_nat i)) as [e He]; [lia|].
    pose proof (BindGLTextures_body_calls i e w H0 He) as Hrun.
    match type of Hrun with _ = Done tt ?w1 =>
      destruct (IH (i + 1) w1) as (w' & Hrun' & Hs & Hsh & Hst & Hco & Hg & Hcalls);
        [lia | cbn; lia |]
    end.
    exists w'. cbn in Hs, Hsh, Hst, Hco, Hg, Hcalls.
    split; [|split; [|split; [|split; [|split; [|split]]]]]; try assumption.
    + cbn [for_from]. erewrite bind_Done by exact Hrun. exact Hrun'.
    + rewrite Hcalls, <- app_assoc. f_equal.
      rewrite (drop_S _ _ _ He). cbn.
      now replace (Z.to_nat (i + 1)) with (S (Z.to_nat i)) by lia.
Qed.

(** X7: BindGLTextures makes, for the registered textures in order, the
    calls glActiveTexture(GL_TEXTURE0 + i) and glBindTexture(GL_TEXTURE_2D,
    ID of entry i), and no other call: entry i ends up on unit i.  The
    scene manager and the shader are left alone. *)
Theorem BindGLTextures_units (w : World) :
  registry_ok (scene w) ->
  exists w' : World,
    BindGLTextures w = Done tt w' /\
    scene w' = scene w /\ shader w' = shader w /\
    gl_next_name (gl w') = gl_next_name (gl w) /\
    gl_calls (gl w') = gl_calls (gl w) ++ bind_calls 0 (registered (scene w)).
Proof.
  intros [H0 Hn]. unfold BindGLTextures. step.
  destruct (BindGLTextures_loop_calls (Z.to_nat (m_loadedTextures (scene w))) 0 w)
    as (w' & Hrun & Hs & Hsh & _ & _ & Hg & Hcalls); [lia | lia |].
  exists w'. split; [exact Hrun|]. now repeat split.
Qed.

Lemma BindGLTextures_units_witness :
  exists w' : World,
    BindGLTextures world_two_textures = Done tt w' /\
    scene w' = scene world_two_textures /\ shader w' = [] /\
    gl_next_name (gl w') = 3 /\
    gl_calls (gl w') =
      gl_calls (gl world_two_textures) ++
      [glActiveTexture (GL_TEXTURE0_plus 0); glBindTexture GL_TEXTURE_2D 1;
       glActiveTexture (GL_TEXTURE0_plus 1); glBindTexture GL_TEXTURE_2D 2].
Proof.
  apply (BindGLTextures_units world_two_textures).
  vm_compute. split; discriminate.
Defined.

Lemma index_of_find_tagged (tag : string) (l : list TEXTURE_INFO) (k : nat) :
  index_of tag (map tex_tag l) = Some k ->
  exists e, l !! k = Some e /\ find (tagged tag) l = Some e.
Proof.
  revert k. induction l as [|x l IH]; intros k H; [discriminate|].
  cbn in H |- *. unfold tagged at 1.
  destruct (String.eqb (tex_tag x) tag).
  - injection H as <-. now exists x.
  - destruct (index_of tag (map tex_tag l)) as [k'|]; [|discriminate].
    injection H as <-. destruct (IH k' eq_refl) as (e & He & Hf). now exists e.
Qed.

(** X8: DestroyGLTextures changes no slot: FindTextureSlot answers after it
    as before, for every tag.  The handles do change: FindTextureID of a
    registered tag now returns the name generated for its slot. *)
Theorem DestroyGLTextures_keeps_slots (tag : string) (w : World) :
  registry_ok (scene w) ->
  0 <= gl_next_name (gl w) ->
  gl_next_name (gl w) + m_loadedTextures (scene w) <= 2 ^ 31 ->
  exists (w' : World) (slot : Z),
    DestroyGLTextures w = Done tt w' /\
    FindTextureSlot tag w = Done slot w /\
    FindTextureSlot tag w' = Done slot w' /\
    (slot <> -1 -> FindTextureID tag w' = Done (gl_next_name (gl w) + slot) w').
Proof.
  intros Hok Hname Hmax. pose proof Hok as [H0 Hn].
  destruct (DestroyGLTextures_loop (Z.to_nat (m_loadedTextures (scene w))) 0 w)
    as (w' & Hrun & _ & Hin & Htags & Hc & _); [lia|].
  assert (Hok' : registry_ok (scene w')).
  { unfold registry_ok. rewrite Hc.
    replace (length (m_textureIDs (scene w'))) with (length (m_textureIDs (scene w))); [lia|].
    now rewrite <- (length_map tex_tag), <- Htags, length_map. }
  assert (Ht : texture_tags (scene w') = texture_tags (scene w)).
  { unfold texture_tags, registered. now rewrite Hc, <- !firstn_map, Htags. }
  exists w', (slot_of (scene w) tag).
  split; [unfold DestroyGLTextures; step; exact Hrun|].
  split; [now apply FindTextureSlot_eq|].
  split; [rewrite FindTextureSlot_eq by exact Hok'; unfold slot_of; now rewrite Ht|].
  unfold slot_of. intros Hfound.
  destruct (index_of tag (texture_tags (scene w))) as [k|] eqn:Hk; [|now destruct Hfound].
  rewrite FindTextureID_eq by exact Hok'.
  rewrite <- Ht in Hk. destruct (index_of_find_tagged _ _ _ Hk) as (e & He & ->).
  pose proof (lookup_lt_Some _ _ _ He) as Hlt.
  rewrite length_registered in Hlt by exact Hok'. rewrite Hc in Hlt.
  unfold registered in He. rewrite lookup_take_lt in He by lia.
  destruct (Hin k) as (e' & He' & Hid); [lia|].
  rewrite He' in He. injection He as <-.
  rewrite Hid, Nat.sub_0_r, int_of_GLuint_small by lia. reflexivity.
Qed.

Lemma DestroyGLTextures_keeps_slots_witness :
  exists (w' : World) (slot : Z),
    DestroyGLTextures world_two_textures = Done tt w' /\
    FindTextureSlot "walls" world_two_textures = Done slot world_two_textures /\
    FindTextureSlot "walls" w' = Done slot w' /\
    (slot <> -1 -> FindTextureID "walls" w' = Done (3 + slot) w').
Proof.
  apply (DestroyGLTextures_keeps_slots "walls" world_two_textures).
  - vm_compute. split; discriminate.
  - vm_compute. discriminate.
  - vm_compute. discriminate.
Defined.

(** ** Materials with the same tag *)

Lemma find_has_tag_app_present (tag : string) (table more : list OBJECT_MATERIAL)
      (e : OBJECT_MATERIAL) :
  find (has_tag tag) table = Some e -> find (has_tag tag) (table ++ more) = Some e.
Proof.
  induction table as [|x table IH]; intros H; [discriminate|].
  cbn in H |- *. destruct (has_tag tag x); [exact H | now apply IH].
Qed.

Lemma find_has_tag_present (tag : string) (table : list OBJECT_MATERIAL) :
  In tag (map mat_tag table) -> exists e, find (has_tag tag) table = Some e.
Proof.
  induction table as [|x table IH]; intros H; [destruct H|].
  cbn. unfold has_tag at 1. destruct (String.eqb_spec (mat_tag x) tag) as [Heq|Hne].
  - now exists x.
  - destruct H as [H|H]; [contradiction | now apply IH].
Qed.

(** X9: pushing a material whose tag the table already holds shadows
    nothing: FindMaterial for any tag found before returns after the
    push_back what it returned before it, although the table has grown. *)
Theorem push_back_keeps_first_match
        (m material : OBJECT_MATERIAL) (tag : string) (w : World) :
  In tag (material_tags (scene w)) ->
  exists (w' : World) (out : OBJECT_MATERIAL),
    push_back m w = Done tt w' /\
    m_objectMaterials (scene w') = m_objectMaterials (scene w) ++ [m] /\
    FindMaterial tag material w = Done (true, out) w /\
    FindMaterial tag material w' = Done (true, out) w'.
Proof.
  intros Hin. destruct (find_has_tag_present _ _ Hin) as [e He].
  eexists. exists (assign_found e material).
  split; [reflexivity|]. split; [reflexivity|]. split.
  - now apply FindMaterial_first_match.
  - apply FindMaterial_first_match. cbn. now apply find_has_tag_app_present.
Qed.

Lemma push_back_keeps_first_match_witness :
  exists (w' : World) (out : OBJECT_MATERIAL),
    push_back garbage_MATERIAL world_defined = Done tt w' /\
    m_objectMaterials (scene w') =
      [stoneMAT; metalMAT; woodMaterial; rubberMaterial; garbage_MATERIAL] /\
    FindMaterial "metalMAT" blank_MATERIAL world_defined = Done (true, out) world_defined /\
    FindMaterial "metalMAT" blank_MATERIAL w' = Done (true, out) w'.
Proof.
  apply (push_back_keeps_first_match garbage_MATERIAL blank_MATERIAL "metalMAT" world_defined).
  simpl. tauto.
Defined.

(** X10: DefineObjectMaterials does not look for entries it has defined
    before: run a second time it appends the four materials again.  No
    lookup changes by that: FindMaterial returns after the second run what
    it returned after the first, for every tag. *)
Theorem DefineObjectMaterials_twice (tag : string) (material : OBJECT_MATERIAL) (w : World) :
  exists (w1 w2 : World) (result : bool * OBJECT_MATERIAL),
    DefineObjectMaterials w = Done tt w1 /\
    DefineObjectMaterials w1 = Done tt w2 /\
    length (m_objectMaterials (scene w2)) = (length (m_objectMaterials (scene w)) + 8)%nat /\
    FindMaterial tag material w1 = Done result w1 /\
    FindMaterial tag material w2 = Done result w2.
Proof.
  set (four := [stoneMAT; metalMAT; woodMaterial; rubberMaterial]).
  set (table := m_objectMaterials (scene w)).
  exists (with_scene (fun s => set_objectMaterials (m_objectMaterials s ++ four) s) w),
         (with_scene (fun s => set_objectMaterials (m_objectMaterials s ++ four) s)
            (with_scene (fun s => set_objectMaterials (m_objectMaterials s ++ four) s) w)),
         (true, match find (has_tag tag) (table ++ four) with
                | Some e => assign_found e material
                | None => material
                end).
  split; [apply DefineObjectMaterials_eq|]. split; [apply DefineObjectMaterials_eq|].
  split; [cbn; rewrite !length_app; unfold four; cbn [length]; fold table; lia|].
  assert (Hfind : find (has_tag tag) ((table ++ four) ++ four)
                  = find (has_tag tag) (table ++ four)).
  { destruct (find (has_tag tag) (table ++ four)) as [e|] eqn:He.
    - now apply find_has_tag_app_present.
    - assert (Hnone : forall x, In x (table ++ four) -> mat_tag x <> tag).
      { intros x Hx Htag. apply (find_none _ _ He) in Hx.
        unfold has_tag in Hx. apply String.eqb_neq in Hx. contradiction. }
      rewrite find_has_tag_app by exact Hnone.
      apply find_has_tag_None. intros x Hx. apply Hnone, in_or_app. now right. }
  rewrite !FindMaterial_eq. cbn. fold table. rewrite Hfind.
  destruct (table ++ four) as [|x0 l0] eqn:E1.
  - destruct table; discriminate.
  - split; reflexivity.
Qed.

(** X11: with the shader manager attached, SetShaderMaterial does nothing
    on an empty table; on any other table it sends diffuseColor,
    specularColor and shininess of the first entry carrying the tag, and
    when no entry carries it, those of the uninitialised local. *)
Theorem SetShaderMaterial_sends (materialTag : string) (indeterminate : OBJECT_MATERIAL)
        (w : World) :
  m_pShaderManager (scene w) = pShaderManager ->
  SetShaderMaterial materialTag indeterminate w =
  Done tt
    match m_objectMaterials (scene w) with
    | [] => w
    | _ :: _ =>
        with_shader (fun calls => calls ++
          material_uniforms
            match find (has_tag materialTag) (m_objectMaterials (scene w)) with
            | Some entry => entry
            | None => indeterminate
            end) w
    end.
Proof.
  intros Hp. unfold SetShaderMaterial. step.
  destruct (m_objectMaterials (scene w)) as [|e0 table] eqn:E; [reflexivity|].
  cbn [length Nat.ltb Nat.leb].
  erewrite bind_Done by apply FindMaterial_eq. rewrite E. cbn beta iota.
  assert (Hsend : forall m : OBJECT_MATERIAL,
    (via_pShaderManager (setVec3Value "material.diffuseColor" (diffuseColor m));;
     via_pShaderManager (setVec3Value "material.specularColor" (specularColor m));;
     via_pShaderManager (setFloatValue "material.shininess" (shininess m))) w
    = Done tt (with_shader (fun calls => calls ++ material_uniforms m) w)).
  { intros m.
    erewrite bind_Done by (apply via_pShaderManager_set; exact Hp). cbv beta.
    erewrite bind_Done by (apply via_pShaderManager_set; exact Hp). cbv beta.
    rewrite via_pShaderManager_set by exact Hp.
    rewrite !with_shader_fuse. unfold with_shader, material_uniforms. cbn.
    now rewrite <- !app_assoc. }
  destruct (find (has_tag materialTag) (e0 :: table)) as [entry|]; [|apply Hsend].
  now rewrite (Hsend (assign_found entry indeterminate)).
Qed.

Lemma SetShaderMaterial_sends_witness :
  SetShaderMaterial "glassMAT" garbage_MATERIAL (world_with_materials pShaderManager [stoneMAT])
  = Done tt (with_shader (fun calls => calls ++ material_uniforms garbage_MATERIAL)
               (world_with_materials pShaderManager [stoneMAT])).
Proof.
  apply (SetShaderMaterial_sends "glassMAT" garbage_MATERIAL
           (world_with_materials pShaderManager [stoneMAT])).
  reflexivity.
Defined.

(** ** PrepareScene on any disk *)

Lemma LoadSceneTextures_run (w : World) :
  0 <= m_loadedTextures (scene w) ->
  m_loadedTextures (scene w) + 7 <= Z.of_nat (length (m_textureIDs (scene w))) ->
  exists w' : World,
    LoadSceneTextures w = Done tt w' /\
    m_loadedTextures (scene w') =
      m_loadedTextures (scene w)
      + Z.of_nat (length (loaded_of (stbi_files (stb w)) scene_textures)) /\
    length (m_textureIDs (scene w')) = length (m_textureIDs (scene w)) /\
    texture_tags (scene w') =
      texture_tags (scene w) ++ map snd (loaded_of (stbi_files (stb w)) scene_textures) /\
    same_outside_textures w w'.
Proof.
  intros H0 Hcap.
  assert (Hlen : (length (loaded_of (stbi_files (stb w)) scene_textures) <= 7)%nat).
  { unfold loaded_of. etransitivity; [apply List.filter_length_le | reflexivity]. }
  destruct (CreateGLTexture_each_run scene_textures w) as (w1 & Hrun & Hc & Hl & Ht & Hs);
    [lia | lia |].
  destruct (BindGLTextures_frame w1) as (w2 & Hbind & Hsc & Hsh).
  { unfold registry_ok. rewrite Hc, Hl. lia. }
  destruct (BindGLTextures_loop_calls (Z.to_nat (m_loadedTextures (scene w1))) 0 w1)
    as (w2' & Hbind' & _ & _ & Hst & _); [lia | rewrite Hc, Hl; lia |].
  assert (w2' = w2) as ->.
  { unfold BindGLTextures in Hbind. erewrite bind_Done in Hbind by reflexivity.
    unfold for_below in Hbind. rewrite Hbind' in Hbind. now injection Hbind. }
  exists w2. rewrite LoadSceneTextures_each.
  split; [erewrite bind_Done by exact Hrun; exact Hbind|].
  rewrite Hsc. split; [exact Hc|]. split; [exact Hl|]. split; [exact Ht|].
  destruct Hs. split; rewrite ?Hsc, ?Hsh, ?Hst; assumption.
Qed.

Lemma loaded_of_tags (disk : string -> option stbi_image) (regs : list (string * string))
      (filename tag : string) :
  NoDup (map snd regs) ->
  In (filename, tag) regs ->
  loadable disk filename = false ->
  ~ In tag (map snd (loaded_of disk regs)).
Proof.
  intros Hnd Hin Hload Htag.
  apply in_map_iff in Htag as ([f t] & Heq & Hf). cbn in Heq. subst t.
  unfold loaded_of in Hf. apply filter_In in Hf as [Hf Hl]. cbn in Hl.
  assert (f = filename); [|congruence].
  clear Hl Hload. induction regs as [|[f0 t0] regs IH]; [destruct Hin|].
  cbn in Hnd. apply NoDup_cons in Hnd as [Hnot Hnd].
  destruct Hin as [Hin|Hin], Hf as [Hf|Hf].
  - congruence.
  - exfalso. apply Hnot. injection Hin as _ ->.
    apply list_elem_of_In, in_map_iff. now exists (f, tag).
  - exfalso. apply Hnot. injection Hf as _ ->.
    apply list_elem_of_In, in_map_iff. now exists (filename, tag).
  - now apply IH.
Qed.

(** X12: PrepareScene does not stop at a texture that fails to load.  On a
    freshly constructed object with the shader manager attached, whatever
    the disk holds, it returns with the tags of the files that did load
    registered in source order, the four materials defined, the lights
    sent and the four meshes loaded; a later FindTextureSlot for the tag of
    a file that failed returns -1. *)
Theorem PrepareScene_any_disk (g : GLContext) (files : StbImage) (console : list ConsoleLine) :
  let loaded := loaded_of (stbi_files files) scene_textures in
  exists w' : World,
    PrepareScene (World_fresh pShaderManager g files console) = Done tt w' /\
    texture_tags (scene w') = map snd loaded /\
    m_loadedTextures (scene w') = Z.of_nat (length loaded) /\
    m_objectMaterials (scene w') = [stoneMAT; metalMAT; woodMaterial; rubberMaterial] /\
    m_basicMeshes (scene w') = [LoadPlaneMesh; LoadBoxMesh; LoadCylinderMesh; LoadSphereMesh] /\
    shader w' = scene_lights /\
    forall filename tag : string,
      In (filename, tag) scene_textures ->
      loadable (stbi_files files) filename = false ->
      FindTextureSlot tag w' = Done (-1) w'.
Proof.
  intros loaded.
  assert (Hlen : (length loaded <= 7)%nat).
  { unfold loaded, loaded_of. etransitivity; [apply List.filter_length_le | reflexivity]. }
  assert (Hmiss : forall filename tag : string,
            In (filename, tag) scene_textures ->
            loadable (stbi_files files) filename = false ->
            ~ In tag (map snd loaded)).
  { intros filename tag Hin Hload.
    apply (loaded_of_tags _ scene_textures filename); [|exact Hin | exact Hload].
    apply (bool_decide_unpack _). vm_compute. exact I. }
  destruct (LoadSceneTextures_run (World_fresh pShaderManager g files console))
    as (w1 & Hrun & Hc & Hl & Ht & [Hp Hm Hmesh Hsh _]); [cbn; lia | cbn; lia |].
  change (loaded_of (stbi_files (stb (World_fresh pShaderManager g files console)))
                    scene_textures) with loaded in Hc, Ht.
  clearbody loaded.
  cbn in Hc, Hl, Ht, Hp, Hm, Hmesh, Hsh.
  unfold PrepareScene.
  erewrite bind_Done by exact Hrun.
  erewrite bind_Done by apply DefineObjectMaterials_eq.
  erewrite bind_Done by (apply SetupSceneLights_attached; exact Hp).
  unfold basicMeshes_do. step. do 2 (step; rewrite with_scene_fuse).
  eexists. split; [reflexivity|].
  cbn -[scene_lights]. rewrite Hm, Hmesh, Hsh.
  split; [exact Ht|]. split; [exact Hc|].
  split; [reflexivity|]. split; [reflexivity|]. split; [reflexivity|].
  intros filename tag Hin Hload.
  match goal with |- FindTextureSlot _ ?w2 = _ =>
    assert (Hscene : texture_tags (scene w2) = map snd loaded) by exact Ht;
    assert (Hok : registry_ok (scene w2))
      by (unfold registry_ok; cbn; rewrite Hc, Hl; lia)
  end.
  rewrite FindTextureSlot_eq by exact Hok. rewrite Hscene.
  rewrite index_of_absent; [reflexivity|]. now apply (Hmiss filename).
Qed.


(** ** RenderScene *)

(** Every float literal of the embedding is the binary32 value within half
    a unit in the last place of the decimal written in the source. *)
Lemma literal_decimals_nearest :
  forallb (fun r => is_nearest_binary32 (fst (fst r)) (snd (fst r)) (snd r))
          literal_decimals = true.
Proof. vm_compute. reflexivity. Qed.

Lemma uniforms_app (e1 e2 : list RenderEvent) :
  uniforms (e1 ++ e2) = uniforms e1 ++ uniforms e2.
Proof.
  induction e1 as [|[calls|x] e1 IH]; cbn; [reflexivity | | exact IH].
  now rewrite IH, app_assoc.
Qed.

Lemma drawn_app (e1 e2 : list RenderEvent) : drawn (e1 ++ e2) = drawn e1 ++ drawn e2.
Proof. induction e1 as [|[calls|x] e1 IH]; cbn; [reflexivity | exact IH | now rewrite IH]. Qed.

Lemma draws_from_app (n : nat) (e1 e2 : list RenderEvent) :
  draws_from n (e1 ++ e2) = draws_from n e1 ++ draws_from (n + length (uniforms e1)) e2.
Proof.
  revert n. induction e1 as [|[calls|x] e1 IH]; intros n; cbn.
  - now rewrite Nat.add_0_r.
  - rewrite IH, length_app. now rewrite Nat.add_assoc.
  - now rewrite IH.
Qed.


Lemma with_shader_nil (w : World) : with_shader (fun calls => calls ++ []) w = w.
Proof. destruct w. unfold with_shader. cbn. now rewrite app_nil_r. Qed.

Lemma emits_bind (s : SceneManager) (c1 c2 : RM unit) (e1 e2 : list RenderEvent) :
  emits s c1 e1 -> emits s c2 e2 -> emits s (c1;; c2) (e1 ++ e2).
Proof.
  intros H1 H2 w d Hs. unfold mbind, RM_bind, rm_bind, bind.
  rewrite (H1 w d Hs). cbn [fst snd].
  rewrite H2 by exact Hs. rewrite with_shader_fuse. f_equal.
  - f_equal. rewrite <- app_assoc. f_equal.
    rewrite draws_from_app. f_equal. cbn. now rewrite length_app.
  - unfold with_shader. f_equal. now rewrite uniforms_app, app_assoc.
Qed.

Lemma emits_lift (s : SceneManager) (c : M unit) (calls : list ShaderCall) :
  (forall w, scene w = s -> c w = Done tt (with_shader (fun l => l ++ calls) w)) ->
  emits s (lift c) [Uniforms calls].
Proof.
  intros H w d Hs. unfold lift, bind. rewrite (H w Hs). cbn.
  now rewrite !app_nil_r.
Qed.


Lemma emits_draw (s : SceneManager) (x : DrawCall) : emits s (draw x) [Drawn x].
Proof. intros w d Hs. unfold draw, bind. cbn. now rewrite with_shader_nil. Qed.


(** ** The member functions with the shader manager attached *)

Section Attached.
Variable s : SceneManager.
Hypothesis Hattached : m_pShaderManager s = pShaderManager.

Lemma SetTransformations_attached glm_scale glm_rotate glm_translate glm_radians mat4_mul
      (scaleXYZ : vec3) (x y z : float) (positionXYZ : vec3) (w : World) :
  scene w = s ->
  SetTransformations glm_scale glm_rotate glm_translate glm_radians mat4_mul
                     scaleXYZ x y z positionXYZ w
  = Done tt (with_shader (fun l => l ++
      [setMat4Value "model" (compose glm_scale glm_rotate glm_translate glm_radians mat4_mul
                                     scaleXYZ x y z positionXYZ)]) w).
Proof.
  intros Hs. unfold SetTransformations. step. rewrite Hs, Hattached.
  apply via_pShaderManager_set. now rewrite Hs.
Qed.

Lemma SetShaderColor_attached (r g b a : float) (w : World) :
  scene w = s ->
  SetShaderColor r g b a w
  = Done tt (with_shader (fun l => l ++ [setIntValue "bUseTexture" 0;
                                         setVec4Value "objectColor" (mk_vec4 r g b a)]) w).
Proof.
  intros Hs. unfold SetShaderColor. step. rewrite Hs, Hattached.
  erewrite bind_Done by (apply via_pShaderManager_set; now rewrite Hs). cbv beta.
  rewrite via_pShaderManager_set by (cbn; now rewrite Hs).
  rewrite with_shader_fuse. unfold with_shader. cbn. now rewrite <- app_assoc.
Qed.

Lemma SetTextureUVScale_attached (u v : float) (w : World) :
  scene w = s ->
  SetTextureUVScale u v w
  = Done tt (with_shader (fun l => l ++ [setVec2Value "UVscale" (mk_vec2 u v)]) w).
Proof.
  intros Hs. unfold SetTextureUVScale. step. rewrite Hs, Hattached.
  apply via_pShaderManager_set. now rewrite Hs.
Qed.

Lemma SetShaderTexture_attached (textureTag : string) (w : World) :
  registry_ok s ->
  scene w = s ->
  SetShaderTexture textureTag w
  = Done tt (with_shader (fun l => l ++ texture_calls s textureTag) w).
Proof.
  intros Hok Hs. unfold SetShaderTexture. step. rewrite Hs, Hattached.
  erewrite bind_Done by (apply via_pShaderManager_set; now rewrite Hs). cbv beta.
  erewrite bind_Done by (apply FindTextureSlot_eq; cbn; now rewrite Hs). cbv beta.
  rewrite via_pShaderManager_set by (cbn; now rewrite Hs).
  rewrite with_shader_fuse. unfold with_shader, texture_calls, slot_of. cbn.
  now rewrite <- app_assoc, Hs.
Qed.

Lemma SetShaderMaterial_attached (materialTag : string) (indeterminate : OBJECT_MATERIAL)
      (w : World) :
  scene w = s ->
  SetShaderMaterial materialTag indeterminate w
  = Done tt (with_shader (fun l => l ++ material_calls s materialTag indeterminate) w).
Proof.
  intros Hs. subst s. unfold SetShaderMaterial, material_calls. step.
  destruct (m_objectMaterials (scene w)) as [|e0 table] eqn:E.
  { cbn. now rewrite with_shader_nil. }
  cbn [length Nat.ltb Nat.leb].
  erewrite bind_Done by apply FindMaterial_eq. rewrite E. cbn beta iota.
  assert (Hsend : forall m : OBJECT_MATERIAL,
    (via_pShaderManager (setVec3Value "material.diffuseColor" (diffuseColor m));;
     via_pShaderManager (setVec3Value "material.specularColor" (specularColor m));;
     via_pShaderManager (setFloatValue "material.shininess" (shininess m))) w
    = Done tt (with_shader (fun calls => calls ++ material_uniforms m) w)).
  { intros m.
    erewrite bind_Done by (apply via_pShaderManager_set; exact Hattached). cbv beta.
    erewrite bind_Done by (apply via_pShaderManager_set; exact Hattached). cbv beta.
    rewrite via_pShaderManager_set by exact Hattached.
    rewrite !with_shader_fuse. unfold with_shader, material_uniforms. cbn.
    now rewrite <- !app_assoc. }
  destruct (find (has_tag materialTag) (e0 :: table)) as [entry|]; [|apply Hsend].
  now rewrite (Hsend (assign_found entry indeterminate)).
Qed.
End Attached.

(** ** Walking through RenderScene *)





(** ** RenderScene on the prepared scene *)

Section Prepared.
Variable s : SceneManager.
Hypothesis Hattached : m_pShaderManager s = pShaderManager.
Hypothesis Hok : registry_ok s.

Lemma SetShaderTexture_registered (textureTag : string) (k : nat) (w : World) :
  index_of textureTag (texture_tags s) = Some k ->
  scene w = s ->
  SetShaderTexture textureTag w
  = Done tt (with_shader (fun l => l ++ [setIntValue "bUseTexture" 1;
                                         setSampler2DValue "objectTexture" (Z.of_nat k)]) w).
Proof.
  intros Hk Hs. rewrite (SetShaderTexture_attached s Hattached _ _ Hok Hs).
  unfold texture_calls, slot_of. now rewrite Hk.
Qed.

Lemma SetShaderMaterial_defined (materialTag : string) (entry indeterminate : OBJECT_MATERIAL)
      (w : World) :
  find (has_tag materialTag) (m_objectMaterials s) = Some entry ->
  scene w = s ->
  SetShaderMaterial materialTag indeterminate w
  = Done tt (with_shader (fun l => l ++ material_uniforms entry) w).
Proof.
  intros Hfind Hs. rewrite (SetShaderMaterial_attached s Hattached _ _ _ Hs).
  unfold material_calls. rewrite Hfind.
  destruct (m_objectMaterials s); [discriminate | reflexivity].
Qed.
End Prepared.

Ltac emit_prepared Htags Hmats :=
  first
    [ apply emits_draw
    | apply emits_lift; intros ? ?;
      first [ eapply SetTransformations_attached; eassumption
            | eapply SetShaderColor_attached; eassumption
            | eapply SetTextureUVScale_attached; eassumption
            | eapply SetShaderTexture_registered;
                [eassumption | eassumption | rewrite Htags; reflexivity | eassumption]
            | eapply SetShaderMaterial_defined;
                [eassumption | rewrite Hmats; reflexivity | eassumption] ] ].

(** X15: on a scene manager that holds the seven textures and the four
    materials PrepareScene registers (shader manager attached), RenderScene
    misses no lookup: every sampler index it sends is a slot from 0 to 6,
    never -1, and what it sends and draws does not depend on the
    uninitialised locals of SetShaderMaterial.  It sets the model matrix
    exactly once before each of its 64 draw calls. *)
Theorem RenderScene_prepared glm_scale glm_rotate glm_translate glm_radians mat4_mul
        (s : SceneManager) :
  m_pShaderManager s = pShaderManager ->
  registry_ok s ->
  texture_tags s = ["floor"; "atlas-stone"; "walls"; "bench"; "metal"; "wood"; "dbell"] ->
  m_objectMaterials s = [stoneMAT; metalMAT; woodMaterial; rubberMaterial] ->
  exists evs : list RenderEvent,
    (forall indeterminate : nat -> OBJECT_MATERIAL,
        emits s (RenderScene glm_scale glm_rotate glm_translate glm_radians mat4_mul
                             indeterminate) evs) /\
    forallb (sampler_below 7) (uniforms evs) = true /\
    one_model_per_draw 0 evs = true /\
    length (drawn evs) = 64%nat.
Proof.
  intros Hatt Hok Htags Hmats. eexists. split; [|split; [|split]].
  - intros indeterminate. unfold RenderScene. cbv zeta.
    repeat (eapply emits_bind; [emit_prepared Htags Hmats|]).
    emit_prepared Htags Hmats.
  - vm_compute. reflexivity.
  - vm_compute. reflexivity.
  - reflexivity.
Qed.

Lemma RenderScene_prepared_witness :
  exists evs : list RenderEvent,
    (forall indeterminate : nat -> OBJECT_MATERIAL,
        emits (scene world_prepared)
              (RenderScene (fun _ => mat4_zero) (fun _ _ => mat4_zero) (fun _ => mat4_zero)
                           (fun x => x) (fun _ _ => mat4_zero) indeterminate) evs) /\
    forallb (sampler_below 7) (uniforms evs) = true /\
    one_model_per_draw 0 evs = true /\
    length (drawn evs) = 64%nat.
Proof.
  apply (RenderScene_prepared
           (fun _ => mat4_zero) (fun _ _ => mat4_zero) (fun _ => mat4_zero)
           (fun x => x) (fun _ _ => mat4_zero) (scene world_prepared)).
  - reflexivity.
  - vm_compute. split; discriminate.
  - vm_compute. reflexivity.
  - vm_compute. reflexivity.
Defined.

(** ** RenderScene without a shader manager *)







